(** * phoenixwm: the window/workspace state engine of [src/wm.c]

    A shallow embedding of the client registry (two intrusive singly linked
    lists per workspace), the focus state machine, the geometry engine, the
    layout operations and the command handlers of [wm.c], followed by the
    properties of the specification that concern them.

    Conventions of the embedding.
    - A [struct client *] is an [option addr]: [None] is [NULL], [Some a] an
      address in the heap of clients.  Reading or writing through [NULL] or
      through an address that is not allocated, and indexing one of the
      global arrays out of its bounds, is undefined behaviour in C; the
      embedding stops with [Fault].
    - A C [int] is a [Z] in the 32-bit two's complement range; every
      addition, subtraction, multiplication and division the source performs
      on ints is written with its wrap-around ([int_wrap]).
    - The Display Surface (Xlib) is an external collaborator: every request
      the code issues is appended to the log [xlog] of the state, in program
      order; the replies of the server the code depends on are parameters.
    - Traversals of a linked list are bounded by the number of allocated
      clients; a traversal that exceeds it runs in a cycle and never ends in
      the source, which the embedding reports as [Diverge]. *)

From Stdlib Require Import ZArith Lia.
From stdpp Require Import functions gmap list fin_maps.

Local Open Scope Z_scope.

(** ** Machine integers *)

Definition INT_MAX : Z := 2147483647.
Definition INT_MIN : Z := -2147483648.

Definition int_wrap (z : Z) : Z := (z + 2147483648) mod 4294967296 - 2147483648.

Definition in_int (z : Z) : Prop := INT_MIN <= z <= INT_MAX.

Definition int_add (a b : Z) : Z := int_wrap (a + b).
Definition int_sub (a b : Z) : Z := int_wrap (a - b).
Definition int_mul (a b : Z) : Z := int_wrap (a * b).
(* C division truncates towards zero. *)
Definition int_div (a b : Z) : Z := int_wrap (Z.quot a b).

Infix "+i" := int_add (at level 50, left associativity).
Infix "-i" := int_sub (at level 50, left associativity).
Infix "*i" := int_mul (at level 40, left associativity).
Infix "/i" := int_div (at level 40, left associativity).

(* [int x = d[1]] with [d] an array of [long]. *)
Definition int_of_long (z : Z) : Z := int_wrap z.

(** ** Data model (the fields [wm.c] uses of the structs of [types.h]) *)

Definition addr := positive.

Record geometry := Geometry {
  gx : Z;
  gy : Z;
  gwidth : Z;
  gheight : Z
}.

Record client := Client {
  window : Z;
  dec : Z;
  ws : Z;
  x_hide : Z;
  geom : geometry;
  hidden : bool;
  decorated : bool;
  fullscreen : bool;
  next : option addr;
  f_next : option addr
}.

Record monitor := Monitor {
  mx : Z;
  my : Z;
  mwidth : Z;
  mheight : Z;
  mscreen : Z
}.

Record config := Config {
  b_width : Z;
  i_width : Z;
  t_height : Z;
  top_gap : Z;
  bf_color : Z;
  bu_color : Z;
  if_color : Z;
  iu_color : Z;
  edge_lock : bool
}.

(** The atoms the modelled functions name, by their index in [net_atom] and
    [wm_atom]. *)
Inductive atom :=
| NetActiveWindow | NetClientList | NetCurrentDesktop
| NetWMState | NetWMStateFullscreen
| WMProtocols | WMDeleteWindow | WMTakeFocus.

Global Instance atom_eq_dec : EqDecision atom.
Proof. solve_decision. Defined.

Inductive prop_mode := PropModeReplace | PropModeAppend.

Inductive prop_data :=
| DataWindows (ws : list Z)
| DataAtoms (l : list atom)
| DataCardinals (l : list Z).

(** Requests issued to the Display Surface. *)
Inductive xcall :=
| XMoveWindow (w x y : Z)
| XResizeWindow (w width height : Z)
| XRaiseWindow (w : Z)
| XLowerWindow (w : Z)
| XMapWindow (w : Z)
| XUnmapWindow (w : Z)
| XDestroyWindow (w : Z)
| XCreateSimpleWindow (parent x y width height border_width border background : Z)
| XSetWindowBackground (w color : Z)
| XSetWindowBorder (w color : Z)
| XClearWindow (w : Z)
| XSetInputFocus (w : Z)
| XDeleteProperty (w : Z) (property : atom)
| XChangeProperty (w : Z) (property : atom) (mode : prop_mode) (data : prop_data)
| XSendEvent (w : Z) (message_type : atom) (data0 : atom).

(** The global variables of [wm.c]. *)
Record wm_state := WmState {
  heap : gmap addr client;
  f_client : option addr;
  c_list : list (option addr);
  f_list : list (option addr);
  m_list : list monitor;
  conf : config;
  ws_m_list : list Z;
  curr_ws : Z;
  m_count : Z;
  root : Z;
  display_width : Z;
  xlog : list xcall
}.

Definition set_heap (h : gmap addr client) (st : wm_state) : wm_state :=
  WmState h (f_client st) (c_list st) (f_list st) (m_list st) (conf st)
    (ws_m_list st) (curr_ws st) (m_count st) (root st) (display_width st) (xlog st).
Definition set_f_client (p : option addr) (st : wm_state) : wm_state :=
  WmState (heap st) p (c_list st) (f_list st) (m_list st) (conf st)
    (ws_m_list st) (curr_ws st) (m_count st) (root st) (display_width st) (xlog st).
Definition set_c_list (l : list (option addr)) (st : wm_state) : wm_state :=
  WmState (heap st) (f_client st) l (f_list st) (m_list st) (conf st)
    (ws_m_list st) (curr_ws st) (m_count st) (root st) (display_width st) (xlog st).
Definition set_f_list (l : list (option addr)) (st : wm_state) : wm_state :=
  WmState (heap st) (f_client st) (c_list st) l (m_list st) (conf st)
    (ws_m_list st) (curr_ws st) (m_count st) (root st) (display_width st) (xlog st).
Definition set_ws_m_list (l : list Z) (st : wm_state) : wm_state :=
  WmState (heap st) (f_client st) (c_list st) (f_list st) (m_list st) (conf st)
    l (curr_ws st) (m_count st) (root st) (display_width st) (xlog st).
Definition set_curr_ws (w : Z) (st : wm_state) : wm_state :=
  WmState (heap st) (f_client st) (c_list st) (f_list st) (m_list st) (conf st)
    (ws_m_list st) w (m_count st) (root st) (display_width st) (xlog st).
Definition set_xlog (l : list xcall) (st : wm_state) : wm_state :=
  WmState (heap st) (f_client st) (c_list st) (f_list st) (m_list st) (conf st)
    (ws_m_list st) (curr_ws st) (m_count st) (root st) (display_width st) l.

Definition set_m_list (l : list monitor) (st : wm_state) : wm_state :=
  WmState (heap st) (f_client st) (c_list st) (f_list st) l (conf st)
    (ws_m_list st) (curr_ws st) (m_count st) (root st) (display_width st) (xlog st).
Definition set_m_count (n : Z) (st : wm_state) : wm_state :=
  WmState (heap st) (f_client st) (c_list st) (f_list st) (m_list st) (conf st)
    (ws_m_list st) (curr_ws st) n (root st) (display_width st) (xlog st).

Definition set_conf (cf : config) (st : wm_state) : wm_state :=
  WmState (heap st) (f_client st) (c_list st) (f_list st) (m_list st) cf
    (ws_m_list st) (curr_ws st) (m_count st) (root st) (display_width st) (xlog st).

(** Field assignments [conf.field = v]. *)
Definition set_b_width (v : Z) (cf : config) : config :=
  Config v (i_width cf) (t_height cf) (top_gap cf) (bf_color cf) (bu_color cf)
    (if_color cf) (iu_color cf) (edge_lock cf).
Definition set_i_width (v : Z) (cf : config) : config :=
  Config (b_width cf) v (t_height cf) (top_gap cf) (bf_color cf) (bu_color cf)
    (if_color cf) (iu_color cf) (edge_lock cf).
Definition set_t_height (v : Z) (cf : config) : config :=
  Config (b_width cf) (i_width cf) v (top_gap cf) (bf_color cf) (bu_color cf)
    (if_color cf) (iu_color cf) (edge_lock cf).
Definition set_top_gap (v : Z) (cf : config) : config :=
  Config (b_width cf) (i_width cf) (t_height cf) v (bf_color cf) (bu_color cf)
    (if_color cf) (iu_color cf) (edge_lock cf).
Definition set_bf_color (v : Z) (cf : config) : config :=
  Config (b_width cf) (i_width cf) (t_height cf) (top_gap cf) v (bu_color cf)
    (if_color cf) (iu_color cf) (edge_lock cf).
Definition set_bu_color (v : Z) (cf : config) : config :=
  Config (b_width cf) (i_width cf) (t_height cf) (top_gap cf) (bf_color cf) v
    (if_color cf) (iu_color cf) (edge_lock cf).
Definition set_if_color (v : Z) (cf : config) : config :=
  Config (b_width cf) (i_width cf) (t_height cf) (top_gap cf) (bf_color cf) (bu_color cf)
    v (iu_color cf) (edge_lock cf).
Definition set_iu_color (v : Z) (cf : config) : config :=
  Config (b_width cf) (i_width cf) (t_height cf) (top_gap cf) (bf_color cf) (bu_color cf)
    (if_color cf) v (edge_lock cf).

(** The values of the property [_NET_WM_WINDOW_TYPE] that [manage_new_window]
    tests for, by their index in [net_atom]; [NetWMWindowTypeOther] stands
    for every other atom. *)
Inductive window_type :=
| NetWMWindowTypeDock | NetWMWindowTypeToolbar | NetWMWindowTypeUtility
| NetWMWindowTypeMenu | NetWMWindowTypeOther.

(** Field assignments [c->field = v]. *)
Definition set_next (p : option addr) (c : client) : client :=
  Client (window c) (dec c) (ws c) (x_hide c) (geom c) (hidden c) (decorated c)
    (fullscreen c) p (f_next c).
Definition set_f_next (p : option addr) (c : client) : client :=
  Client (window c) (dec c) (ws c) (x_hide c) (geom c) (hidden c) (decorated c)
    (fullscreen c) (next c) p.
Definition set_ws (w : Z) (c : client) : client :=
  Client (window c) (dec c) w (x_hide c) (geom c) (hidden c) (decorated c)
    (fullscreen c) (next c) (f_next c).
Definition set_geom (g : geometry) (c : client) : client :=
  Client (window c) (dec c) (ws c) (x_hide c) g (hidden c) (decorated c)
    (fullscreen c) (next c) (f_next c).
Definition set_x_hide (x : Z) (c : client) : client :=
  Client (window c) (dec c) (ws c) x (geom c) (hidden c) (decorated c)
    (fullscreen c) (next c) (f_next c).
Definition set_hidden (b : bool) (c : client) : client :=
  Client (window c) (dec c) (ws c) (x_hide c) (geom c) b (decorated c)
    (fullscreen c) (next c) (f_next c).
Definition set_fullscreen (b : bool) (c : client) : client :=
  Client (window c) (dec c) (ws c) (x_hide c) (geom c) (hidden c) (decorated c)
    b (next c) (f_next c).
Definition set_decoration (d : Z) (b : bool) (c : client) : client :=
  Client (window c) d (ws c) (x_hide c) (geom c) (hidden c) b
    (fullscreen c) (next c) (f_next c).

(** ** The monad of the embedding: global state, faults, divergence *)

Inductive outcome (A : Type) : Type :=
| Done (a : A) (st : wm_state)
| Fault
| Diverge.
Arguments Done {A} a st.
Arguments Fault {A}.
Arguments Diverge {A}.

Definition wm (A : Type) : Type := wm_state → outcome A.

Global Instance wm_ret : MRet wm := λ A a st, Done a st.
Global Instance wm_bind : MBind wm := λ A B f m st,
  match m st with
  | Done a st' => f a st'
  | Fault => Fault
  | Diverge => Diverge
  end.

Definition fault {A} : wm A := λ _, Fault.
Definition diverge {A} : wm A := λ _, Diverge.
Definition get_state : wm wm_state := λ st, Done st st.
Definition put_state (f : wm_state → wm_state) : wm unit := λ st, Done tt (f st).

(** [*p] for a client pointer. *)
Definition deref (p : option addr) : wm client := λ st,
  match p with
  | None => Fault
  | Some a => match heap st !! a with Some c => Done c st | None => Fault end
  end.

(** [p->field = v], given as the update [f] of the record. *)
Definition assign (p : option addr) (f : client → client) : wm unit := λ st,
  match p with
  | None => Fault
  | Some a =>
      match heap st !! a with
      | Some c => Done tt (set_heap (<[a := f c]> (heap st)) st)
      | None => Fault
      end
  end.

(** [arr[i]] and [arr[i] = v] for a global array indexed by an [int]. *)
Definition index {A} (arr : list A) (i : Z) : wm A := λ st,
  if i <? 0 then Fault
  else match arr !! Z.to_nat i with Some v => Done v st | None => Fault end.

Definition in_bounds {A} (arr : list A) (i : Z) : bool :=
  (0 <=? i) && (i <? Z.of_nat (length arr)).

Definition xsend (e : xcall) : wm unit :=
  put_state (λ st, set_xlog (xlog st ++ [e]) st).

Definition ptr_eqb (p q : option addr) : bool := bool_decide (p = q).

Definition read {A} (f : wm_state → A) : wm A := λ st, Done (f st) st.

Definition c_list_get (i : Z) : wm (option addr) := l ← read c_list; index l i.
Definition f_list_get (i : Z) : wm (option addr) := l ← read f_list; index l i.

Definition c_list_set (i : Z) (p : option addr) : wm unit := λ st,
  if in_bounds (c_list st) i
  then Done tt (set_c_list (<[Z.to_nat i := p]> (c_list st)) st)
  else Fault.
Definition f_list_set (i : Z) (p : option addr) : wm unit := λ st,
  if in_bounds (f_list st) i
  then Done tt (set_f_list (<[Z.to_nat i := p]> (f_list st)) st)
  else Fault.
Definition ws_m_list_set (i : Z) (mon : Z) : wm unit := λ st,
  if in_bounds (ws_m_list st) i
  then Done tt (set_ws_m_list (<[Z.to_nat i := mon]> (ws_m_list st)) st)
  else Fault.

(** [m_list[ws_m_list[w]]]: the monitor a workspace is mapped to. *)
Definition monitor_of (w : Z) : wm monitor :=
  wml ← read ws_m_list; mon ← index wml w;
  ml ← read m_list; index ml mon.

(** The two intrusive links of a client. *)
Inductive link := Next | FNext.

Definition link_get (k : link) (c : client) : option addr :=
  match k with Next => next c | FNext => f_next c end.
Definition link_set (k : link) (p : option addr) (c : client) : client :=
  match k with Next => set_next p c | FNext => set_f_next p c end.
Definition head_get (k : link) (i : Z) : wm (option addr) :=
  match k with Next => c_list_get i | FNext => f_list_get i end.
Definition head_set (k : link) (i : Z) (p : option addr) : wm unit :=
  match k with Next => c_list_set i p | FNext => f_list_set i p end.

(** Bound of a list traversal: one more than the number of allocated
    clients. *)
Definition traversal_bound : wm nat := λ st, Done (S (size (heap st))) st.

(** [for (int i = 0; i < n; i++) body(i)], started at [i]. *)
Fixpoint for_range (body : Z → wm unit) (i : Z) (n : nat) : wm unit :=
  match n with
  | O => mret tt
  | S k => body i;; for_range body (i + 1) k
  end.

(** [for (tmp = p; tmp != NULL; tmp = tmp->next) body(tmp)]. *)
Fixpoint for_clients (fuel : nat) (body : option addr → wm unit) (tmp : option addr)
    : wm unit :=
  match tmp with
  | None => mret tt
  | Some _ =>
      match fuel with
      | O => diverge
      | S n => body tmp;; tc ← deref tmp; for_clients n body (next tc)
      end
  end.

(** ** Instances of the data model, for the examples at the end *)

(** An instance of the constants of the missing headers and of the replies
    of the Display Surface. *)
Definition ex_workspaces : nat := 2.
Definition ex_minimum_dim : Z := 30.
Definition ex_east : Z := 0.
Definition ex_south : Z := 1.
Definition ex_west : Z := 2.
Definition ex_north : Z := 3.
Definition ex_distance (a b : client) : Z :=
  Z.sqrt ((gx (geom a) - gx (geom b)) ^ 2 + (gy (geom a) - gy (geom b)) ^ 2).
Definition ex_protocols (w : Z) : option (list atom) := Some [WMTakeFocus].

Definition ex_conf : config :=
  {| b_width := 2; i_width := 1; t_height := 10; top_gap := 20;
     bf_color := 255; bu_color := 128; if_color := 64; iu_color := 32;
     edge_lock := true |}.

Definition ex_monitor : monitor :=
  {| mx := 0; my := 0; mwidth := 1920; mheight := 1080; mscreen := 0 |}.

Definition ex_client (win : Z) (w : Z) (g : geometry) (hid : bool)
    (nxt fnxt : option addr) : client :=
  {| window := win; dec := win + 1000; ws := w; x_hide := 0; geom := g;
     hidden := hid; decorated := true; fullscreen := false;
     next := nxt; f_next := fnxt |}.

Definition ex_state (h : gmap addr client) (fc : option addr)
    (cs fs : list (option addr)) : wm_state :=
  {| heap := h; f_client := fc; c_list := cs; f_list := fs;
     m_list := [ex_monitor]; conf := ex_conf; ws_m_list := [0; 0];
     curr_ws := 0; m_count := 1; root := 1; display_width := 1920; xlog := [] |}.

Definition ex_c1 : client :=
  ex_client 11 0 (Geometry 100 100 400 300) false None None.

(** Startup: no client. *)
Definition st_empty : wm_state := ex_state ∅ None [None; None] [None; None].

(** One client, allocated at address 1, not yet in any list. *)
Definition st_fresh : wm_state :=
  ex_state {[ 1%positive := ex_c1 ]}
    None [None; None] [None; None].

(** One client on workspace 0, focused. *)
Definition st_one : wm_state :=
  ex_state {[ 1%positive := ex_c1 ]}
    (Some 1%positive) [Some 1%positive; None] [Some 1%positive; None].

Definition ex_c1_three : client :=
  ex_client 11 0 (Geometry 100 100 400 300) false (Some 2%positive) (Some 2%positive).
Definition ex_c2 : client :=
  ex_client 12 0 (Geometry 100 100 400 300) false None None.

(** Three clients on workspace 0, in stacking and focus order 1, 2, 3;
    client 1 is focused.  Client 2 is 600 to the east of client 1, client 3
    is 300 to the east and 400 to the south. *)
Definition st_three : wm_state :=
  ex_state
    {[ 1%positive := ex_c1_three;
       2%positive := ex_client 12 0 (Geometry 700 100 400 300) false
                       (Some 3%positive) (Some 3%positive);
       3%positive := ex_client 13 0 (Geometry 400 500 400 300) true None None ]}
    (Some 1%positive) [Some 1%positive; None] [Some 1%positive; None].

(** Workspace 0 holds a hidden client in front of a client that is shown;
    workspace 1 is empty and mapped to the same monitor. *)
Definition st_mixed : wm_state :=
  ex_state
    {[ 1%positive := ex_client 11 0 (Geometry 1922 100 400 300) true
                       (Some 2%positive) (Some 2%positive);
       2%positive := ex_c2 ]}
    None [Some 1%positive; None] [Some 1%positive; None].

(** One client wider than the monitor. *)
Definition st_wide : wm_state :=
  ex_state {[ 1%positive := ex_client 11 0 (Geometry 0 100 3000 300) false None None ]}
    (Some 1%positive) [Some 1%positive; None] [Some 1%positive; None].

(** The registry lists of the instances. *)
Definition cl_none : nat → list addr := λ _, [].
Definition cl_one : nat → list addr :=
  λ i, match i with O => [1%positive] | _ => [] end.
Definition cl_three : nat → list addr :=
  λ i, match i with O => [1%positive; 2%positive; 3%positive] | _ => [] end.

(** The window the Display Surface creates, as an instance of its reply. *)
Definition ex_new_window (log : list xcall) : Z := 5000 + Z.of_nat (length log).

Section Program.

Set Default Proof Using "Type".

(** Constants and helpers of [config.h], [globals.h] and [utils.h], which
    are not part of the source under verification, and the replies of the
    Display Surface the code reads. *)
Variable WORKSPACE_NUMBER : nat.
Variable MINIMUM_DIM : Z.
Variables EAST SOUTH WEST NORTH : Z.
Variable euclidean_distance : client → client → Z.
Variable x_new_window : list xcall → Z.
Variable x_wm_protocols : Z → option (list atom).

(** Decision procedures generalise over the whole context; a proof whose
    statement does not mention some of the parameters drops them first, so
    that the lemma does not depend on them. *)
Ltac forget_parameters :=
  try clear x_wm_protocols; try clear x_new_window; try clear euclidean_distance;
  try clear EAST; try clear SOUTH; try clear WEST; try clear NORTH;
  try clear MINIMUM_DIM.

(** Modelled from the spec: the macro [MAX] of [utils.h] is not in the
    source; the spec says every dimension "is floored at a minimum dimension
    constant", so [MAX (v, MINIMUM_DIM)] is the larger of the two. *)
Definition MAX (a b : Z) : Z := if a >? b then a else b.

(** *** Display helpers *)

Definition client_set_color (c : option addr) (i_color b_color : Z) : wm unit :=
  cl ← deref c;
  if decorated cl then
    xsend (XSetWindowBackground (dec cl) i_color);;
    xsend (XSetWindowBorder (dec cl) b_color);;
    xsend (XClearWindow (dec cl))
  else mret tt.

Definition client_set_input (c : option addr) : wm unit :=
  cl ← deref c; xsend (XSetInputFocus (window cl)).

Definition client_raise (c : option addr) : wm unit :=
  match c with
  | None => mret tt
  | Some _ =>
      cl ← deref c;
      (if decorated cl then xsend (XRaiseWindow (dec cl)) else mret tt);;
      xsend (XRaiseWindow (window cl))
  end.

Definition manage_xsend_icccm (c : option addr) (a : atom) : wm bool :=
  cl ← deref c;
  let exists_ :=
    match x_wm_protocols (window cl) with
    | Some protocols => bool_decide (a ∈ protocols)
    | None => false
    end in
  (if exists_ then xsend (XSendEvent (window cl) WMProtocols a) else mret tt);;
  mret exists_.

Definition client_close (c : option addr) : wm unit :=
  cl ← deref c; xsend (XSendEvent (window cl) WMProtocols WMDeleteWindow).

(** *** Geometry engine *)

Definition client_move_absolute (c : option addr) (x y : Z) : wm unit :=
  cl ← deref c; cf ← read conf;
  let dest_x := if decorated cl then x +i i_width cf +i b_width cf else x in
  let dest_y := if decorated cl
                then y +i i_width cf +i b_width cf +i t_height cf else y in
  xsend (XMoveWindow (window cl) dest_x dest_y);;
  (if decorated cl then xsend (XMoveWindow (dec cl) x y) else mret tt);;
  assign c (λ cl, set_geom (Geometry x y (gwidth (geom cl)) (gheight (geom cl))) cl).

Definition client_move_relative (c : option addr) (x y : Z) : wm unit :=
  cf ← read conf;
  if edge_lock cf then
    cl ← deref c;
    m ← monitor_of (ws cl);
    let g := geom cl in
    let dx :=
      if gx g +i gwidth g +i x >? mwidth m +i mx m
      then mwidth m +i mx m -i gwidth g
      else if gx g +i x <? mx m then mx m
      else gx g +i x in
    let dy :=
      if gy g +i gheight g +i y >? mheight m +i my m
      then mheight m +i my m -i gheight g
      else if gy g +i y <? my m +i top_gap cf then my m
      else gy g +i y in
    client_move_absolute c dx dy
  else
    cl ← deref c;
    client_move_absolute c (gx (geom cl) +i x) (gy (geom cl) +i y).

Definition client_resize_absolute (c : option addr) (w h : Z) : wm unit :=
  cl ← deref c; cf ← read conf;
  let dw := if decorated cl
            then w -i 2 *i i_width cf -i 2 *i b_width cf else w in
  let dh := if decorated cl
            then h -i 2 *i i_width cf -i 2 *i b_width cf -i t_height cf else h in
  let dec_w := if decorated cl then w -i 2 *i b_width cf else w in
  let dec_h := if decorated cl then h -i 2 *i b_width cf else h in
  xsend (XResizeWindow (window cl) (MAX dw MINIMUM_DIM) (MAX dh MINIMUM_DIM));;
  (if decorated cl
   then xsend (XResizeWindow (dec cl) (MAX dec_w MINIMUM_DIM) (MAX dec_h MINIMUM_DIM))
   else mret tt);;
  assign c (λ cl, set_geom (Geometry (gx (geom cl)) (gy (geom cl))
                              (MAX w MINIMUM_DIM) (MAX h MINIMUM_DIM)) cl).

Definition client_resize_relative (c : option addr) (w h : Z) : wm unit :=
  cf ← read conf;
  if edge_lock cf then
    cl ← deref c;
    m ← monitor_of (ws cl);
    let g := geom cl in
    let dw :=
      if gx g +i gwidth g +i w >? mx m +i mwidth m
      then mx m +i mwidth m -i gx g
      else gwidth g +i w in
    let dh :=
      if gy g +i gheight g +i t_height cf +i h >? my m +i mheight m
      then mheight m +i my m -i gy g
      else gheight g +i h in
    client_resize_absolute c dw dh
  else
    cl ← deref c;
    client_resize_absolute c (gwidth (geom cl) +i w) (gheight (geom cl) +i h).

Definition client_refresh (c : option addr) : wm unit :=
  client_move_relative c 0 0;; client_resize_relative c 0 0;;
  client_move_relative c 0 0;; client_resize_relative c 0 0.

(** *** Client registry *)

Definition client_save (c : option addr) (w : Z) : wm unit :=
  (* Save the client to the "stack" of managed clients *)
  hd ← c_list_get w;
  assign c (set_next hd);;
  c_list_set w c;;
  (* Save the client to the list of focusing order *)
  fhd ← f_list_get w;
  assign c (set_f_next fhd);;
  f_list_set w c.

(** [while (tmp != NULL && tmp->link != c) tmp = tmp->link;] *)
Fixpoint delete_scan (k : link) (fuel : nat) (c tmp : option addr)
    : wm (option addr) :=
  match fuel with
  | O => diverge
  | S n =>
      match tmp with
      | None => mret tmp
      | Some _ =>
          tc ← deref tmp;
          if negb (ptr_eqb (link_get k tc) c)
          then delete_scan k n c (link_get k tc)
          else mret tmp
      end
  end.

(** [tmp->link = tmp->link->link;] *)
Definition unlink_after (k : link) (tmp : option addr) : wm unit :=
  tc ← deref tmp;
  nc ← deref (link_get k tc);
  assign tmp (link_set k (link_get k nc)).

(** One of the two blocks of [client_delete]: remove [c] from the list of
    workspace [w] chained through [k]. *)
Definition delete_in (k : link) (c : option addr) (w : Z) : wm unit :=
  hd ← head_get k w;
  if ptr_eqb hd c then
    hc ← deref hd;
    head_set k w (link_get k hc)
  else
    fuel ← traversal_bound;
    tmp ← delete_scan k fuel c hd;
    unlink_after k tmp.

Definition update_c_list : wm unit :=
  r ← read root;
  xsend (XDeleteProperty r NetClientList);;
  fuel ← traversal_bound;
  for_range (λ i,
    hd ← c_list_get i;
    for_clients fuel (λ tmp,
      tc ← deref tmp;
      xsend (XChangeProperty r NetClientList PropModeAppend
               (DataWindows [gwidth (geom tc)]))) hd) 0 WORKSPACE_NUMBER.

Definition client_delete (c : option addr) : wm unit :=
  cl ← deref c;
  let w := ws cl in
  if w =? -1 then mret tt
  else
    (* Delete in the stack *)
    delete_in Next c w;;
    (* Delete in the focus list *)
    delete_in FNext c w;;
    hd ← c_list_get w;
    (if ptr_eqb hd None then put_state (set_f_client None) else mret tt);;
    update_c_list.

(** [for (tmp = c_list[ws]; tmp->next != NULL; tmp = tmp->next)
       if (tmp->next == c) break;] *)
Fixpoint move_to_front_scan (fuel : nat) (c tmp : option addr) : wm (option addr) :=
  match fuel with
  | O => diverge
  | S n =>
      tc ← deref tmp;
      if negb (ptr_eqb (next tc) None) then
        if ptr_eqb (next tc) c then mret tmp
        else move_to_front_scan n c (next tc)
      else mret tmp
  end.

Definition client_move_to_front (c : option addr) : wm unit :=
  cl ← deref c;
  let w := ws cl in
  (* If we didn't find the client *)
  if w =? -1 then mret tt
  else
    hd ← c_list_get w;
    (* If the Client is at the front of the list, ignore command *)
    if ptr_eqb hd c then mret tt
    else
      hc ← deref hd;
      if ptr_eqb (next hc) None then mret tt
      else
        fuel ← traversal_bound;
        tmp ← move_to_front_scan fuel c hd;
        unlink_after Next tmp;;         (* remove the Client from the list *)
        hd' ← c_list_get w;
        assign c (set_next hd');;       (* add the client to the front of the list *)
        c_list_set w c.

(** *** Focus state machine *)

Definition client_manage_focus (c : option addr) : wm unit :=
  fc ← read f_client;
  (if negb (ptr_eqb c None) && negb (ptr_eqb fc None) then
     cf ← read conf;
     client_set_color fc (iu_color cf) (bu_color cf);;
     manage_xsend_icccm c WMTakeFocus;;
     mret tt
   else mret tt);;
  if negb (ptr_eqb c None) then
    cf ← read conf;
    client_set_color c (if_color cf) (bf_color cf);;
    client_raise c;;
    client_set_input c;;
    (* Remove focus from the old window *)
    r ← read root;
    xsend (XDeleteProperty r NetActiveWindow);;
    put_state (set_f_client c);;
    (* Tell EWMH about our new window *)
    cl ← deref c;
    xsend (XChangeProperty r NetActiveWindow PropModeReplace (DataWindows [window cl]));;
    client_move_to_front c;;
    manage_xsend_icccm c WMTakeFocus;;
    mret tt
  else mret tt.

Definition focus_next (c : option addr) : wm unit :=
  if ptr_eqb c None then mret tt
  else
    cl ← deref c;
    let w := ws cl in
    fhd ← f_list_get w;
    single ← (if ptr_eqb fhd c
              then fc ← deref fhd; mret (ptr_eqb (f_next fc) None)
              else mret false);
    if (single : bool) then
      fhd' ← f_list_get w;
      client_manage_focus fhd'
    else
      cl' ← deref c;
      tmp ← (if ptr_eqb (f_next cl') None then f_list_get w else mret (f_next cl'));
      client_manage_focus tmp.

(** [cardinal_step] is the body of the [switch] of [client_cardinal_focus]:
    the new values of [min] and [focus_next]. *)
Definition cardinal_step (dir : Z) (cc tc : client) (tmp : option addr)
    (min : Z) (focus_next : option addr) : Z * option addr :=
  let dist := euclidean_distance cc tc in
  if dir =? EAST then
    if (gx (geom tc) >? gx (geom cc)) && (dist <? min) then (dist, tmp)
    else (min, focus_next)
  else if dir =? SOUTH then
    if (gy (geom tc) >? gy (geom cc)) && (dist <? min) then (dist, tmp)
    else (min, focus_next)
  else if dir =? WEST then
    if (gx (geom tc) <? gx (geom cc)) && (dist <? min) then (dist, tmp)
    else (min, focus_next)
  else if dir =? NORTH then
    if (gy (geom tc) <? gy (geom cc)) && (dist <? min) then (dist, tmp)
    else (min, focus_next)
  else (min, focus_next).

Fixpoint cardinal_scan (fuel : nat) (c : option addr) (dir : Z)
    (tmp : option addr) (min : Z) (focus_next : option addr) : wm (option addr) :=
  match tmp with
  | None => mret focus_next
  | Some _ =>
      match fuel with
      | O => diverge
      | S n =>
          cc ← deref c;
          tc ← deref tmp;
          let r := cardinal_step dir cc tc tmp min focus_next in
          cardinal_scan n c dir (next tc) (fst r) (snd r)
      end
  end.

Definition client_cardinal_focus (c : option addr) (dir : Z) : wm unit :=
  cw ← read curr_ws;
  tmp ← c_list_get cw;
  fuel ← traversal_bound;
  focus_next ← cardinal_scan fuel c dir tmp INT_MAX None;
  if ptr_eqb focus_next None then mret tt
  else client_manage_focus focus_next.

(** *** Layout operations *)

Definition client_hide (c : option addr) : wm unit :=
  cl ← deref c;
  if negb (hidden cl) then
    assign c (λ cl, set_x_hide (gx (geom cl)) cl);;
    dw ← read display_width; cf ← read conf;
    cl' ← deref c;
    client_move_absolute c (dw +i b_width cf) (gy (geom cl'));;
    assign c (set_hidden true)
  else mret tt.

Definition client_show (c : option addr) : wm unit :=
  cl ← deref c;
  if hidden cl then
    client_move_absolute c (x_hide cl) (gy (geom cl));;
    client_raise c;;
    assign c (set_hidden false);;
    client_refresh c
  else mret tt.

Definition client_center (c : option addr) : wm unit :=
  cl ← deref c;
  m ← monitor_of (ws cl);
  cl' ← deref c;
  client_move_absolute c
    (mx m +i mwidth m /i 2 -i gwidth (geom cl') /i 2)
    (my m +i mheight m /i 2 -i gheight (geom cl') /i 2).

Definition client_fullscreen (c : option addr) : wm unit :=
  cl ← deref c;
  m ← monitor_of (ws cl);
  client_move_absolute c (mx m) (my m);;
  client_resize_absolute c (mwidth m) (mheight m);;
  cl' ← deref c;
  (if negb (fullscreen cl')
   then xsend (XChangeProperty (window cl') NetWMState PropModeReplace
                 (DataAtoms [NetWMStateFullscreen]))
   else xsend (XChangeProperty (window cl') NetWMState PropModeReplace
                 (DataAtoms [])));;
  assign c (λ cl, set_fullscreen (negb (fullscreen cl)) cl).

Definition client_monocle (c : option addr) : wm unit :=
  cl ← deref c;
  m ← monitor_of (ws cl);
  cf ← read conf;
  client_move_absolute c (mx m) (my m +i top_gap cf);;
  client_resize_absolute c (mwidth m) (mheight m -i top_gap cf).

Definition client_snap_left (c : option addr) : wm unit :=
  cl ← deref c;
  m ← monitor_of (ws cl);
  cf ← read conf;
  client_move_absolute c (mx m) (my m +i top_gap cf);;
  client_resize_absolute c (mwidth m /i 2) (mheight m -i top_gap cf).

Definition client_snap_right (c : option addr) : wm unit :=
  cl ← deref c;
  m ← monitor_of (ws cl);
  cf ← read conf;
  client_move_absolute c (mx m +i mwidth m /i 2) (my m +i top_gap cf);;
  client_resize_absolute c (mwidth m /i 2) (mheight m -i top_gap cf).

Definition client_decorate_new (c : option addr) : wm unit :=
  cl ← deref c; cf ← read conf; r ← read root;
  let g := geom cl in
  let w := gwidth g +i 2 *i i_width cf in
  let h := gheight g +i 2 *i i_width cf +i t_height cf in
  let x := gx g -i i_width cf -i b_width cf in
  let y := gy g -i i_width cf -i b_width cf -i t_height cf in
  log ← read xlog;
  let d := x_new_window log in
  xsend (XCreateSimpleWindow r x y w h (b_width cf) (bu_color cf) (bf_color cf));;
  xsend (XMapWindow d);;
  assign c (set_decoration d true).

Definition client_decorations_create (c : option addr) : wm unit :=
  client_decorate_new c.

Definition client_decorations_destroy (c : option addr) : wm unit :=
  cl ← deref c;
  xsend (XUnmapWindow (dec cl));;
  xsend (XDestroyWindow (dec cl));;
  assign c (λ cl, set_decoration (dec cl) false cl).

Definition client_toggle_decorations (c : option addr) : wm unit :=
  cl ← deref c;
  (if decorated cl then client_decorations_destroy c
   else client_decorations_create c);;
  client_refresh c;;
  client_raise c;;
  client_manage_focus c.

(** *** Workspace/monitor mapper *)

Fixpoint safe_to_focus_from (w mon : Z) (i : Z) (n : nat) : wm bool :=
  match n with
  | O => mret true
  | S k =>
      wml ← read ws_m_list;
      blocked ←
        (if negb (i =? w) then
           mi ← index wml i;
           if mi =? mon then
             hd ← c_list_get i;
             if negb (ptr_eqb hd None) then
               hc ← deref hd; mret (negb (hidden hc))
             else mret false
           else mret false
         else mret false);
      if (blocked : bool) then mret false
      else safe_to_focus_from w mon (i + 1) k
  end.

Definition safe_to_focus (w : Z) : wm bool :=
  wml ← read ws_m_list;
  mon ← index wml w;
  safe_to_focus_from w mon 0 WORKSPACE_NUMBER.

Definition client_send_to_ws (c : option addr) (w : Z) : wm unit :=
  client_delete c;;
  cl ← deref c;
  let prev := ws cl in
  assign c (set_ws w);;
  client_save c w;;
  client_hide c;;
  fhd ← f_list_get prev;
  focus_next fhd;;
  safe ← safe_to_focus w;
  if (safe : bool) then client_show c else mret tt.

Definition switch_ws (w : Z) : wm unit :=
  fuel ← traversal_bound;
  for_range (λ i,
    wml ← read ws_m_list;
    others ← (if negb (i =? w)
              then mi ← index wml i; mw ← index wml w; mret (mi =? mw)
              else mret false);
    if (others : bool) then
      hd ← c_list_get i;
      for_clients fuel client_hide hd
    else if i =? w then
      hd ← c_list_get i;
      for_clients fuel (λ tmp,
        client_show tmp;;
        tc ← deref tmp;
        xsend (XLowerWindow (window tc));;
        xsend (XLowerWindow (dec tc))) hd
    else mret tt) 0 WORKSPACE_NUMBER;;
  put_state (set_curr_ws w);;
  (* the log message reads m_list[mon].screen *)
  monitor_of w;;
  cw ← read curr_ws;
  hd ← c_list_get cw;
  client_manage_focus hd;;
  r ← read root;
  xsend (XChangeProperty r NetCurrentDesktop PropModeReplace (DataCardinals [w])).

(** *** Event handlers *)

(** The inner loop of [get_client_from_window]; [Some p] is [return p]. *)
Fixpoint window_scan (fuel : nat) (w : Z) (tmp : option addr)
    : wm (option (option addr)) :=
  match tmp with
  | None => mret None
  | Some _ =>
      match fuel with
      | O => diverge
      | S n =>
          tc ← deref tmp;
          if window tc =? w then mret (Some tmp)
          else if (dec tc =? 0) && (dec tc =? w) then mret (Some tmp)
          else window_scan n w (next tc)
      end
  end.

Fixpoint get_client_from_window_from (fuel : nat) (w : Z) (i : Z) (n : nat)
    : wm (option addr) :=
  match n with
  | O => mret None
  | S k =>
      hd ← c_list_get i;
      r ← window_scan fuel w hd;
      match r with
      | Some p => mret p
      | None => get_client_from_window_from fuel w (i + 1) k
      end
  end.

Definition get_client_from_window (w : Z) : wm (option addr) :=
  fuel ← traversal_bound;
  get_client_from_window_from fuel w 0 WORKSPACE_NUMBER.

(** [free (c)] *)
Definition free (c : option addr) : wm unit := λ st,
  match c with
  | None => Done tt st
  | Some a => Done tt (set_heap (delete a (heap st)) st)
  end.

(** [handle_unmap_notify], given the window of the event. *)
Definition handle_unmap_notify (w : Z) : wm unit :=
  c ← get_client_from_window w;
  if negb (ptr_eqb c None) then
    focus_next c;;
    cl ← deref c;
    (if decorated cl then xsend (XDestroyWindow (dec cl)) else mret tt);;
    client_delete c;;
    free c
  else mret tt.

(** *** Command handlers; [d] is the array [data.l] of the client message *)

Definition arg (d : list Z) (i : nat) : Z := int_of_long (nth i d 0).

Definition ipc_move_absolute (d : list Z) : wm unit :=
  fc ← read f_client;
  if ptr_eqb fc None then mret tt
  else client_move_absolute fc (arg d 1) (arg d 2).

Definition ipc_move_relative (d : list Z) : wm unit :=
  fc ← read f_client;
  if ptr_eqb fc None then mret tt
  else client_move_relative fc (arg d 1) (arg d 2).

Definition ipc_monocle (d : list Z) : wm unit :=
  fc ← read f_client;
  if ptr_eqb fc None then mret tt else client_monocle fc.

Definition ipc_raise (d : list Z) : wm unit :=
  fc ← read f_client;
  if ptr_eqb fc None then mret tt else client_raise fc.

Definition ipc_resize_absolute (d : list Z) : wm unit :=
  fc ← read f_client;
  if ptr_eqb fc None then mret tt
  else client_resize_absolute fc (arg d 1) (arg d 2).

Definition ipc_resize_relative (d : list Z) : wm unit :=
  fc ← read f_client;
  if ptr_eqb fc None then mret tt
  else client_resize_relative fc (arg d 1) (arg d 2).

Definition ipc_toggle_decorations (d : list Z) : wm unit :=
  fc ← read f_client;
  if ptr_eqb fc None then mret tt else client_toggle_decorations fc.

Definition ipc_window_close (d : list Z) : wm unit :=
  fc ← read f_client;
  if ptr_eqb fc None then mret tt else client_close fc.

Definition ipc_window_center (d : list Z) : wm unit :=
  fc ← read f_client;
  client_center fc.

Definition ipc_switch_ws (d : list Z) : wm unit :=
  switch_ws (arg d 1 -i 1).

Definition ipc_send_to_ws (d : list Z) : wm unit :=
  fc ← read f_client;
  if ptr_eqb fc None then mret tt
  else client_send_to_ws fc (arg d 1 -i 1).

Definition ipc_fullscreen (d : list Z) : wm unit :=
  fc ← read f_client;
  if ptr_eqb fc None then mret tt else client_fullscreen fc.

Definition ipc_snap_left (d : list Z) : wm unit :=
  fc ← read f_client;
  if ptr_eqb fc None then mret tt else client_snap_left fc.

Definition ipc_snap_right (d : list Z) : wm unit :=
  fc ← read f_client;
  if ptr_eqb fc None then mret tt else client_snap_right fc.

Definition ipc_cardinal_focus (d : list Z) : wm unit :=
  fc ← read f_client;
  client_cardinal_focus fc (arg d 1).

Definition ipc_cycle_focus (d : list Z) : wm unit :=
  fc ← read f_client;
  focus_next fc.

Definition ipc_save_monitor (d : list Z) : wm unit :=
  let w := arg d 1 in
  let mon := arg d 2 in
  mc ← read m_count;
  if mon >=? mc then mret tt
  else ws_m_list_set w mon.

(** *** Monitor table *)

(** [free (m_list); m_list = NULL;] the table of monitors is a list, and the
    null table is the empty one: indexing it is a fault. *)
Definition monitors_free : wm unit := put_state (set_m_list []).

(** [setup_monitors], given the reply of the Display Surface: [None] when
    Xinerama is not active, otherwise the screens it reports, each with the
    five fields that the loop copies into [m_list]. *)
Definition setup_monitors (screens : option (list monitor)) : wm unit :=
  match screens with
  | None => mret tt
  | Some m_info =>
      put_state (set_m_count (Z.of_nat (length m_info)));;
      put_state (set_m_list
        (map (λ mi, Monitor (mx mi) (my mi) (mwidth mi) (mheight mi) (mscreen mi)) m_info))
  end.

(** [handle_configure_notify], given the window of the event. *)
Definition handle_configure_notify (w : Z) (screens : option (list monitor)) : wm unit :=
  r ← read root;
  if w =? r then mret tt
  else monitors_free;; setup_monitors screens.

(** *** Configuration *)

(* [unsigned long nc = d[1]] with [d] an array of [long]. *)
Definition ulong_of_long (z : Z) : Z := z mod 18446744073709551616.

(** [conf.field = v], given as the update [f] of the record. *)
Definition conf_assign (f : config → config) : wm unit :=
  put_state (λ st, set_conf (f (conf st)) st).

(** The body of the loops of [refresh_config], for the client [tmp] of the
    workspace [i]. *)
Definition refresh_config_client (i : Z) (tmp : option addr) : wm unit :=
  tc ← deref tmp;
  (if decorated tc then
     client_decorations_destroy tmp;;
     client_decorations_create tmp
   else mret tt);;
  client_refresh tmp;;
  client_show tmp;;
  fc ← read f_client; cf ← read conf;
  (if negb (ptr_eqb fc tmp)
   then client_set_color tmp (iu_color cf) (bu_color cf)
   else client_set_color tmp (if_color cf) (bf_color cf));;
  cw ← read curr_ws;
  if negb (i =? cw) then client_hide tmp
  else client_show tmp;; client_raise tmp.

Definition refresh_config : wm unit :=
  fuel ← traversal_bound;
  for_range (λ i,
    hd ← c_list_get i;
    for_clients fuel (refresh_config_client i) hd) 0 WORKSPACE_NUMBER.

Definition ipc_bf_color (d : list Z) : wm unit :=
  conf_assign (set_bf_color (ulong_of_long (nth 1 d 0)));;
  refresh_config.

Definition ipc_bu_color (d : list Z) : wm unit :=
  conf_assign (set_bu_color (ulong_of_long (nth 1 d 0)));;
  refresh_config.

Definition ipc_if_color (d : list Z) : wm unit :=
  conf_assign (set_if_color (ulong_of_long (nth 1 d 0)));;
  refresh_config.

Definition ipc_iu_color (d : list Z) : wm unit :=
  conf_assign (set_iu_color (ulong_of_long (nth 1 d 0)));;
  refresh_config.

Definition ipc_b_width (d : list Z) : wm unit :=
  conf_assign (set_b_width (arg d 1));;
  refresh_config;;
  fc ← read f_client;
  client_raise fc.

Definition ipc_i_width (d : list Z) : wm unit :=
  conf_assign (set_i_width (arg d 1));;
  refresh_config.

Definition ipc_t_height (d : list Z) : wm unit :=
  conf_assign (set_t_height (arg d 1));;
  refresh_config.

Definition ipc_top_gap (d : list Z) : wm unit :=
  conf_assign (set_top_gap (arg d 1));;
  refresh_config.

(** *** New windows *)

(** [malloc (sizeof (struct client))]: the block is at an address that is
    not allocated, and holds [junk] until it is written.  The source does
    not test the result; the allocation is taken to succeed. *)
Definition malloc (junk : client) : wm (option addr) := λ st,
  let a := fresh (dom (heap st)) in
  Done (Some a) (set_heap (<[a := junk]> (heap st)) st).

(** [manage_new_window], given the window, its attributes [wa] and the reply
    [prop] of the Display Surface to the request for the type of the window
    ([None]: the request failed or the window has no such property). *)
Definition manage_new_window (w : Z) (wa : geometry) (prop : option window_type)
    (junk : client) : wm unit :=
  let unmanaged :=
    match prop with
    | Some NetWMWindowTypeDock | Some NetWMWindowTypeToolbar
    | Some NetWMWindowTypeUtility | Some NetWMWindowTypeMenu => true
    | _ => false
    end in
  if unmanaged then xsend (XMapWindow w)
  else
    c ← malloc junk;
    cw ← read curr_ws;
    assign c (λ cl, Client w (dec cl) cw (x_hide cl) wa false (decorated cl) false
                      (next cl) (f_next cl));;
    client_decorate_new c;;
    cl ← deref c;
    xsend (XMapWindow (window cl));;
    client_refresh c;;
    cw' ← read curr_ws;
    client_save c cw';;
    client_manage_focus c;;
    client_center c;;
    update_c_list.


(** ** Specification predicates *)

(** [returns m st Q]: run from [st], [m] terminates without fault in a
    result and a state that satisfy [Q]. *)
Definition returns {A} (m : wm A) (st : wm_state) (Q : A → wm_state → Prop) : Prop :=
  match m st with
  | Done a st' => Q a st'
  | Fault | Diverge => False
  end.

(** [reachable k h p a]: following the link [k] from the pointer [p] through
    the heap [h] arrives at the client [a]. *)
Inductive reachable (k : link) (h : gmap addr client) : option addr → addr → Prop :=
| reachable_here a : reachable k h (Some a) a
| reachable_step b c a :
    h !! b = Some c → reachable k h (link_get k c) a → reachable k h (Some b) a.

(** [is_seg k h p l q]: the cells chained through [k] from [p] up to, and not
    including, [q] are the addresses [l], in order. *)
Fixpoint is_seg (k : link) (h : gmap addr client) (p : option addr) (l : list addr)
    (q : option addr) : Prop :=
  match l with
  | [] => p = q
  | a :: l' => p = Some a ∧ ∃ c, h !! a = Some c ∧ is_seg k h (link_get k c) l' q
  end.

(** [is_list k h p l]: the list that starts at [p] ends in [NULL] and its
    cells are [l]. *)
Definition is_list (k : link) (h : gmap addr client) (p : option addr) (l : list addr)
    : Prop :=
  is_seg k h p l None.

(** The registry is well formed, with [cl i] the stacking order and [fl i]
    the focus order of workspace [i]: the arrays of heads have
    [WORKSPACE_NUMBER] entries, every list ends in [NULL], the two lists of a
    workspace hold the same clients, no client is in two lists of the same
    kind or twice in one, and the [ws] field of a client is the workspace
    whose lists hold it. *)
Record registry (st : wm_state) (cl fl : nat → list addr) : Prop := Registry {
  reg_c_len : length (c_list st) = WORKSPACE_NUMBER;
  reg_f_len : length (f_list st) = WORKSPACE_NUMBER;
  reg_stack : ∀ i p, c_list st !! i = Some p → is_list Next (heap st) p (cl i);
  reg_focus : ∀ i p, f_list st !! i = Some p → is_list FNext (heap st) p (fl i);
  reg_perm : ∀ i, (i < WORKSPACE_NUMBER)%nat → cl i ≡ₚ fl i;
  reg_nodup : ∀ i, (i < WORKSPACE_NUMBER)%nat → NoDup (cl i);
  reg_disjoint : ∀ i j a,
    (i < WORKSPACE_NUMBER)%nat → (j < WORKSPACE_NUMBER)%nat →
    a ∈ cl i → a ∈ cl j → i = j;
  reg_ws : ∀ i a c,
    (i < WORKSPACE_NUMBER)%nat → a ∈ cl i → heap st !! a = Some c →
    ws c = Z.of_nat i
}.

(** The membership invariant of the client registry, on the pointers
    themselves: in every workspace the stacking list and the focus list
    reach the same clients, and no client is reached from the lists of two
    workspaces. *)
Definition dual_membership (st : wm_state) : Prop :=
  (∀ (i : nat) p q a, c_list st !! i = Some p → f_list st !! i = Some q →
     (reachable Next (heap st) p a ↔ reachable FNext (heap st) q a)) ∧
  (∀ (i j : nat) p q a, c_list st !! i = Some p → c_list st !! j = Some q →
     reachable Next (heap st) p a → reachable Next (heap st) q a → i = j) ∧
  (∀ (i j : nat) p q a, f_list st !! i = Some p → f_list st !! j = Some q →
     reachable FNext (heap st) p a → reachable FNext (heap st) q a → i = j).

(** *** Geometry *)

(** The requests [client_move_absolute] issues. *)
Definition move_calls (cf : config) (cl : client) (x y : Z) : list xcall :=
  if decorated cl
  then [XMoveWindow (window cl) (x +i i_width cf +i b_width cf)
          (y +i i_width cf +i b_width cf +i t_height cf);
        XMoveWindow (dec cl) x y]
  else [XMoveWindow (window cl) x y].

(** The requests [client_resize_absolute] issues. *)
Definition resize_calls (cf : config) (cl : client) (w h : Z) : list xcall :=
  if decorated cl
  then [XResizeWindow (window cl)
          (MAX (w -i 2 *i i_width cf -i 2 *i b_width cf) MINIMUM_DIM)
          (MAX (h -i 2 *i i_width cf -i 2 *i b_width cf -i t_height cf) MINIMUM_DIM);
        XResizeWindow (dec cl)
          (MAX (w -i 2 *i b_width cf) MINIMUM_DIM)
          (MAX (h -i 2 *i b_width cf) MINIMUM_DIM)]
  else [XResizeWindow (window cl) (MAX w MINIMUM_DIM) (MAX h MINIMUM_DIM)].

(** The state [client_move_absolute] and [client_resize_absolute] leave. *)
Definition moved (a : addr) (cl : client) (x y : Z) (st : wm_state) : wm_state :=
  set_heap
    (<[a := set_geom (Geometry x y (gwidth (geom cl)) (gheight (geom cl))) cl]> (heap st))
    (set_xlog (xlog st ++ move_calls (conf st) cl x y) st).

Definition resized (a : addr) (cl : client) (w h : Z) (st : wm_state) : wm_state :=
  set_heap
    (<[a := set_geom (Geometry (gx (geom cl)) (gy (geom cl))
                        (MAX w MINIMUM_DIM) (MAX h MINIMUM_DIM)) cl]> (heap st))
    (set_xlog (xlog st ++ resize_calls (conf st) cl w h) st).

(** Workspace [w] is mapped to a monitor of the table, and that monitor is
    [m]. *)
Definition monitor_at (st : wm_state) (w : Z) (m : monitor) : Prop :=
  ∃ mon, 0 <= w ∧ ws_m_list st !! Z.to_nat w = Some mon ∧
         0 <= mon ∧ m_list st !! Z.to_nat mon = Some m.

(** None of the sums and differences [client_move_relative] forms for the
    client geometry [g], the monitor [m] and the delta [(x, y)] leaves the
    range of [int]. *)
Definition move_in_range (g : geometry) (m : monitor) (cf : config) (x y : Z) : Prop :=
  (in_int (gx g + gwidth g) ∧ in_int (gx g + gwidth g + x) ∧
   in_int (mwidth m + mx m) ∧ in_int (mwidth m + mx m - gwidth g) ∧
   in_int (gx g + x)) ∧
  (in_int (gy g + gheight g) ∧ in_int (gy g + gheight g + y) ∧
   in_int (mheight m + my m) ∧ in_int (mheight m + my m - gheight g) ∧
   in_int (gy g + y) ∧ in_int (my m + top_gap cf)).

(** *** Heads of the lists *)

(** The front client of the stacking list of workspace [i] exists and is not
    hidden. *)
Definition head_shown (st : wm_state) (i : nat) : Prop :=
  ∃ a c, c_list st !! i = Some (Some a) ∧ heap st !! a = Some c ∧ hidden c = false.

(** Every non-null head of a stacking list is an allocated client. *)
Definition heads_allocated (st : wm_state) : Prop :=
  ∀ (i : nat) a, c_list st !! i = Some (Some a) → is_Some (heap st !! a).

(** The array of heads of the lists chained through [k]. *)
Definition heads (k : link) (st : wm_state) : list (option addr) :=
  match k with Next => c_list st | FNext => f_list st end.
Definition set_heads (k : link) (l : list (option addr)) (st : wm_state) : wm_state :=
  match k with Next => set_c_list l st | FNext => set_f_list l st end.

(** [l] without the client [a]. *)
Definition remove_client (a : addr) (l : list addr) : list addr :=
  filter (λ x, x ≠ a) l.

(** [same_links st st']: from [st] to [st'] only the log of requests and the
    fields of clients other than [next], [f_next] and [ws] may have changed. *)
Record same_links (st st' : wm_state) : Prop := SameLinks {
  sl_f_client : f_client st' = f_client st;
  sl_c_list : c_list st' = c_list st;
  sl_f_list : f_list st' = f_list st;
  sl_m_list : m_list st' = m_list st;
  sl_conf : conf st' = conf st;
  sl_ws_m_list : ws_m_list st' = ws_m_list st;
  sl_curr_ws : curr_ws st' = curr_ws st;
  sl_m_count : m_count st' = m_count st;
  sl_root : root st' = root st;
  sl_display_width : display_width st' = display_width st;
  sl_heap : ∀ a,
    option_Forall2 (λ c c', next c' = next c ∧ f_next c' = f_next c ∧ ws c' = ws c)
      (heap st !! a) (heap st' !! a)
}.

(** The client [a] is allocated and its workspace is mapped to a monitor of
    the table. *)
Definition client_ok (st : wm_state) (a : addr) : Prop :=
  ∃ c m, heap st !! a = Some c ∧ monitor_at st (ws c) m.

(** [same_shape st st']: the monitor table, the workspace mapping, the
    configuration and the current workspace are those of [st], the same
    clients are allocated and each is on the workspace it was on. *)
Record same_shape (st st' : wm_state) : Prop := SameShape {
  ss_m_list : m_list st' = m_list st;
  ss_ws_m_list : ws_m_list st' = ws_m_list st;
  ss_conf : conf st' = conf st;
  ss_curr_ws : curr_ws st' = curr_ws st;
  ss_heap : ∀ a,
    option_Forall2 (λ c c', ws c' = ws c) (heap st !! a) (heap st' !! a)
}.

(** *** Operations of the registry *)

(** The operations of the client registry. *)
Inductive registry_op :=
| OpSave (a : addr) (w : nat)
| OpDelete (a : addr)
| OpMoveToFront (a : addr).

Definition run_op (op : registry_op) : wm unit :=
  match op with
  | OpSave a w => client_save (Some a) (Z.of_nat w)
  | OpDelete a => client_delete (Some a)
  | OpMoveToFront a => client_move_to_front (Some a)
  end.

(** What the callers of the operations establish: the client saved is
    allocated, carries the workspace in its [ws] field and is in no list; the
    client deleted or moved to the front is in the registry. *)
Definition op_ready (st : wm_state) (cl : nat → list addr) (op : registry_op) : Prop :=
  match op with
  | OpSave a w =>
      (w < WORKSPACE_NUMBER)%nat ∧
      (∃ ca, heap st !! a = Some ca ∧ ws ca = Z.of_nat w) ∧
      ∀ i, (i < WORKSPACE_NUMBER)%nat → a ∉ cl i
  | OpDelete a | OpMoveToFront a =>
      ∃ w, (w < WORKSPACE_NUMBER)%nat ∧ a ∈ cl w
  end.

(** The registry lists after an operation. *)
Definition stack_after (cl : nat → list addr) (op : registry_op) : nat → list addr :=
  λ i, match op with
       | OpSave a w => if decide (w = i) then a :: cl i else cl i
       | OpDelete a => remove_client a (cl i)
       | OpMoveToFront a => if decide (a ∈ cl i) then a :: remove_client a (cl i) else cl i
       end.
Definition focus_after (fl : nat → list addr) (op : registry_op) : nat → list addr :=
  λ i, match op with
       | OpSave a w => if decide (w = i) then a :: fl i else fl i
       | OpDelete a => remove_client a (fl i)
       | OpMoveToFront a => fl i
       end.

(** [later a st st']: [st'] is reached from [st] by operations of the
    registry, each called as its callers do, none of which deletes [a]. *)
Inductive later (a : addr) : wm_state → wm_state → Prop :=
| later_now st : later a st st
| later_step st op st1 st2 cl fl :
    registry st cl fl → op_ready st cl op → op ≠ OpDelete a →
    run_op op st = Done tt st1 → later a st1 st2 → later a st st2.

(** *** The focused client *)

(** The focused-client reference, when not null, is a client of the
    registry. *)
Definition focus_registered (st : wm_state) (cl : nat → list addr) : Prop :=
  ∀ a, f_client st = Some a → ∃ i, (i < WORKSPACE_NUMBER)%nat ∧ a ∈ cl i.

(** Every workspace is mapped to a monitor of the table. *)
Definition monitors_ok (st : wm_state) : Prop :=
  length (ws_m_list st) = WORKSPACE_NUMBER ∧
  ∀ (i : nat) mon, ws_m_list st !! i = Some mon →
    0 <= mon ∧ is_Some (m_list st !! Z.to_nat mon).

(** The invariant of the specification: the focused client, when there is
    one, is reached from the stacking list of the current workspace. *)
Definition focus_in_current (st : wm_state) : Prop :=
  ∀ a, f_client st = Some a →
    ∃ p, 0 <= curr_ws st ∧ c_list st !! Z.to_nat (curr_ws st) = Some p ∧
         reachable Next (heap st) p a.

(** The invariant the code keeps: the focused client, when there is one, is
    allocated and reached from the stacking list of the workspace recorded in
    its own [ws] field. *)
Definition focus_in_own_list (st : wm_state) : Prop :=
  ∀ a, f_client st = Some a →
    ∃ c (i : nat) p, heap st !! a = Some c ∧ ws c = Z.of_nat i ∧
                     c_list st !! i = Some p ∧ reachable Next (heap st) p a.

(** The operations that the invariant is stated for. *)
Inductive focus_op :=
| FSave (a : addr) (w : nat)
| FDelete (a : addr)
| FManageFocus (p : option addr)
| FSendToWs (a : addr) (w : nat)
| FSwitchWs (w : nat).

Definition run_focus_op (op : focus_op) : wm unit :=
  match op with
  | FSave a w => client_save (Some a) (Z.of_nat w)
  | FDelete a => client_delete (Some a)
  | FManageFocus p => client_manage_focus p
  | FSendToWs a w => client_send_to_ws (Some a) (Z.of_nat w)
  | FSwitchWs w => switch_ws (Z.of_nat w)
  end.

(** How the operations are called: on clients of the registry (for
    [client_save], on an allocated client in no list yet), with workspaces of
    the table; [client_delete] of the focused client only when it is the
    last client of its workspace, as after the focus advance of the unmap
    handler. *)
Definition focus_op_ready (st : wm_state) (cl : nat → list addr) (op : focus_op) : Prop :=
  match op with
  | FSave a w => op_ready st cl (OpSave a w)
  | FDelete a =>
      ∃ w, (w < WORKSPACE_NUMBER)%nat ∧ a ∈ cl w ∧
           (f_client st = Some a → remove_client a (cl w) = [])
  | FManageFocus p =>
      ∀ a, p = Some a → ∃ w, (w < WORKSPACE_NUMBER)%nat ∧ a ∈ cl w
  | FSendToWs a w =>
      (w < WORKSPACE_NUMBER)%nat ∧ ∃ prev, (prev < WORKSPACE_NUMBER)%nat ∧ a ∈ cl prev
  | FSwitchWs w => (w < WORKSPACE_NUMBER)%nat
  end.

(** *** Directional focus *)

(** The four directions, and the constant of [globals.h] each stands for. *)
Inductive direction := DirEast | DirSouth | DirWest | DirNorth.

Definition dir_code (d : direction) : Z :=
  match d with
  | DirEast => EAST | DirSouth => SOUTH | DirWest => WEST | DirNorth => NORTH
  end.

(** [tc] is strictly on the side [d] of [cc]. *)
Definition on_side (d : direction) (cc tc : client) : bool :=
  match d with
  | DirEast => gx (geom tc) >? gx (geom cc)
  | DirSouth => gy (geom tc) >? gy (geom cc)
  | DirWest => gx (geom tc) <? gx (geom cc)
  | DirNorth => gy (geom tc) <? gy (geom cc)
  end.

(** [r] is the choice among the clients [l]: no client when none is on the
    side [d] of [cc]; otherwise a client on that side at minimum distance,
    strictly nearer than every client on that side before it in [l]. *)
Definition nearest_first (h : gmap addr client) (cc : client) (d : direction)
    (l : list addr) (r : option addr) : Prop :=
  match r with
  | None => ∀ x cx, x ∈ l → h !! x = Some cx → on_side d cc cx = false
  | Some b =>
      ∃ l1 l2 cb,
        l = l1 ++ b :: l2 ∧ h !! b = Some cb ∧ on_side d cc cb = true ∧
        (∀ x cx, x ∈ l1 → h !! x = Some cx → on_side d cc cx = true →
                 euclidean_distance cc cb < euclidean_distance cc cx) ∧
        (∀ x cx, x ∈ l2 → h !! x = Some cx → on_side d cc cx = true →
                 euclidean_distance cc cb <= euclidean_distance cc cx)
  end.

(** *** Claims of the specification that the code does not meet as stated *)

(** C2 as stated: [client_manage_focus] with a null client repaints the
    previously focused (decorated) client with the unfocused colours, and
    neither deletes the active-window property nor clears [f_client]. *)
Definition manage_focus_null_claim (st : wm_state) : Prop :=
  ∀ a c, f_client st = Some a → heap st !! a = Some c → decorated c = true →
    ∃ st', client_manage_focus None st = Done tt st' ∧
           XSetWindowBackground (dec c) (iu_color (conf st))
             ∈ drop (length (xlog st)) (xlog st') ∧
           XSetWindowBorder (dec c) (bu_color (conf st))
             ∈ drop (length (xlog st)) (xlog st') ∧
           (XDeleteProperty (root st) NetActiveWindow
              ∉ drop (length (xlog st)) (xlog st')) ∧
           f_client st' = f_client st.

(** C7 as stated: with edge-lock enabled, [client_move_relative] leaves the
    stored box of every client within the left, right and bottom edges of
    the monitor and below its top edge offset by the top gap. *)
Definition edge_lock_claim (st : wm_state) (a : addr) (x y : Z) : Prop :=
  ∀ c m, heap st !! a = Some c → monitor_at st (ws c) m →
    edge_lock (conf st) = true →
    ∃ st' c', client_move_relative (Some a) x y st = Done tt st' ∧
              heap st' !! a = Some c' ∧
              mx m <= gx (geom c') ∧
              gx (geom c') + gwidth (geom c') <= mx m + mwidth m ∧
              my m + top_gap (conf st) <= gy (geom c') ∧
              gy (geom c') + gheight (geom c') <= my m + mheight m.

(** C8 as stated: [safe_to_focus] returns false exactly when some other
    workspace mapped to the same monitor has a stacking list that contains a
    client that is not hidden. *)
Definition safe_to_focus_claim (st : wm_state) (w : nat) : Prop :=
  ∃ b, safe_to_focus (Z.of_nat w) st = Done b st ∧
       (b = false ↔
        ∃ (j : nat) p a c,
          j ≠ w ∧ ws_m_list st !! j = ws_m_list st !! w ∧
          c_list st !! j = Some p ∧ reachable Next (heap st) p a ∧
          heap st !! a = Some c ∧ hidden c = false).

(** *** Screen coordinates *)

(** The Display Surface carries positions and sizes as 16-bit quantities. *)
Definition coord (z : Z) : Prop := -32768 <= z <= 32767.

Definition geometry_coord (g : geometry) : Prop :=
  coord (gx g) ∧ coord (gy g) ∧ coord (gwidth g) ∧ coord (gheight g).

Definition monitor_coord (m : monitor) : Prop :=
  coord (mx m) ∧ coord (my m) ∧ coord (mwidth m) ∧ coord (mheight m).

(** The state [client_move_absolute] to [(x, y)] followed by
    [client_resize_absolute] to [(w, h)] leave. *)
Definition placed (a : addr) (cl : client) (x y w h : Z) (st : wm_state) : wm_state :=
  set_heap
    (<[a := set_geom (Geometry x y (MAX w MINIMUM_DIM) (MAX h MINIMUM_DIM)) cl]> (heap st))
    (set_xlog (xlog st ++ move_calls (conf st) cl x y ++ resize_calls (conf st) cl w h) st).

(** The stored box [g] is a fixed point of [client_refresh] on the monitor
    [m]: it is inside the monitor and below the top gap, its title bar fits
    above the bottom edge, and its sides are not below the minimum. *)
Definition settled (cf : config) (m : monitor) (g : geometry) : Prop :=
  mx m <= gx g ∧ gx g + gwidth g <= mx m + mwidth m ∧
  my m + top_gap cf <= gy g ∧ gy g + gheight g <= my m + mheight m ∧
  gy g + gheight g + t_height cf <= my m + mheight m.

(** The client [cl] is left as it is by [client_refresh]: its stored sides
    are not below the minimum and, when edge-lock is on, its box is
    [settled] on the monitor of its workspace. *)
Definition refresh_stable (st : wm_state) (cl : client) : Prop :=
  geometry_coord (geom cl) ∧
  MINIMUM_DIM <= gwidth (geom cl) ∧ MINIMUM_DIM <= gheight (geom cl) ∧
  (edge_lock (conf st) = true →
   ∃ m, monitor_at st (ws cl) m ∧ monitor_coord m ∧
        coord (top_gap (conf st)) ∧ coord (t_height (conf st)) ∧
        settled (conf st) m (geom cl)).

(** *** Visibility *)



(** *** Frames *)

(** [keeps S f st st']: every client allocated in [st] at an address of [S]
    is allocated in [st'], with the same value of [f]. *)
Definition keeps {T} (S : addr → Prop) (f : client → T) (st st' : wm_state) : Prop :=
  ∀ a c, S a → heap st !! a = Some c → ∃ c', heap st' !! a = Some c' ∧ f c' = f c.

(** [preserves S f m]: whenever [m] returns, it [keeps S f]. *)
Definition preserves {A T} (S : addr → Prop) (f : client → T) (m : wm A) : Prop :=
  ∀ st r st', m st = Done r st' → keeps S f st st'.

(** The value of [hidden] that [switch_ws] to the workspace [w] leaves in a
    client of the workspace [i] whose value was [old]. *)
Definition hidden_after_switch (st : wm_state) (w i : nat) (old : bool) : bool :=
  if decide (i = w) then false
  else if decide (ws_m_list st !! i = ws_m_list st !! w) then true
  else old.

(** *** The clients of the registry, in the order of the traversals *)

(** The clients of all workspaces: workspace 0 first, each workspace in
    stacking order. *)
Definition registered (cl : nat → list addr) : list addr :=
  mjoin (cl <$> seq 0 WORKSPACE_NUMBER).

(** The entry of the exported client list for the client at [a]. *)
Definition client_list_entry (st : wm_state) (a : addr) : xcall :=
  XChangeProperty (root st) NetClientList PropModeAppend
    (DataWindows [from_option (λ c, gwidth (geom c)) 0 (heap st !! a)]).

(** The test of [get_client_from_window] on one client. *)
Definition window_match (w : Z) (c : client) : bool :=
  (window c =? w) || ((dec c =? 0) && (dec c =? w)).

(** The first client of [l] that passes the test. *)
Fixpoint first_match (h : gmap addr client) (w : Z) (l : list addr) : option addr :=
  match l with
  | [] => None
  | a :: l' =>
      if from_option (window_match w) false (h !! a) then Some a
      else first_match h w l'
  end.

(** ** Reasoning rules *)

Section Rules.
Context {A B : Type}.

Lemma returns_bind (m : wm A) (f : A → wm B) st Q :
  returns m st (λ a st', returns (f a) st' Q) → returns (m ≫= f) st Q.
Proof.
  unfold returns, mbind, wm_bind. destruct (m st); auto.
Qed.

Lemma returns_conseq (m : wm A) st (Q Q' : A → wm_state → Prop) :
  returns m st Q → (∀ a st', Q a st' → Q' a st') → returns m st Q'.
Proof.
  unfold returns. destruct (m st); auto.
Qed.

Lemma returns_done (m : wm A) st Q :
  returns m st Q ↔ ∃ a st', m st = Done a st' ∧ Q a st'.
Proof.
  forget_parameters.
  unfold returns. split.
  - destruct (m st) as [a st'| |]; [eauto | tauto | tauto].
  - intros (a & st' & -> & HQ). exact HQ.
Qed.

Lemma bind_done (m : wm A) (f : A → wm B) st a st' :
  m st = Done a st' → (m ≫= f) st = f a st'.
Proof. unfold mbind, wm_bind. intros ->. reflexivity. Qed.

Lemma bind_fault (m : wm A) (f : A → wm B) st :
  m st = Fault → (m ≫= f) st = Fault.
Proof. unfold mbind, wm_bind. intros ->. reflexivity. Qed.

End Rules.

Lemma returns_ret {A} (a : A) st (Q : A → wm_state → Prop) :
  Q a st → returns (mret a) st Q.
Proof. exact id. Qed.

Lemma returns_read {A} (g : wm_state → A) st Q : Q (g st) st → returns (read g) st Q.
Proof. exact id. Qed.

Lemma returns_put f st Q : Q tt (f st) → returns (put_state f) st Q.
Proof. exact id. Qed.

Lemma returns_xsend e st Q :
  Q tt (set_xlog (xlog st ++ [e]) st) → returns (xsend e) st Q.
Proof. exact id. Qed.

Lemma returns_deref a c st Q :
  heap st !! a = Some c → Q c st → returns (deref (Some a)) st Q.
Proof. unfold returns, deref. intros ->. exact id. Qed.

Lemma returns_assign a c f st Q :
  heap st !! a = Some c →
  Q tt (set_heap (<[a := f c]> (heap st)) st) →
  returns (assign (Some a) f) st Q.
Proof. unfold returns, assign. intros ->. exact id. Qed.

Lemma returns_index {A} (arr : list A) (i : nat) v st Q :
  arr !! i = Some v → Q v st → returns (index arr (Z.of_nat i)) st Q.
Proof.
  unfold returns, index. intros Hv HQ.
  destruct (Z.ltb_spec (Z.of_nat i) 0); [lia |].
  rewrite Nat2Z.id, Hv. exact HQ.
Qed.

(** Equations of the primitive commands under a bind. *)

Lemma bind_ret {A B} (a : A) (f : A → wm B) st : ((mret a : wm A) ≫= f) st = f a st.
Proof. reflexivity. Qed.

Lemma bind_read {A B} (g : wm_state → A) (f : A → wm B) st :
  (read g ≫= f) st = f (g st) st.
Proof. reflexivity. Qed.

Lemma bind_put {B} g (f : unit → wm B) st : (put_state g ≫= f) st = f tt (g st).
Proof. reflexivity. Qed.

Lemma bind_xsend {B} e (f : unit → wm B) st :
  (xsend e ≫= f) st = f tt (set_xlog (xlog st ++ [e]) st).
Proof. reflexivity. Qed.

Lemma bind_assoc {A B C} (m : wm A) (f : A → wm B) (g : B → wm C) st :
  ((m ≫= f) ≫= g) st = (m ≫= λ a, f a ≫= g) st.
Proof. unfold mbind, wm_bind. destruct (m st); reflexivity. Qed.

Lemma bind_deref {B} a c (f : client → wm B) st :
  heap st !! a = Some c → (deref (Some a) ≫= f) st = f c st.
Proof. intros H. apply bind_done. unfold deref. rewrite H. reflexivity. Qed.

Lemma bind_assign {B} a c g (f : unit → wm B) st :
  heap st !! a = Some c →
  (assign (Some a) g ≫= f) st = f tt (set_heap (<[a := g c]> (heap st)) st).
Proof. intros H. apply bind_done. unfold assign. rewrite H. reflexivity. Qed.

Lemma run_deref a c st : heap st !! a = Some c → deref (Some a) st = Done c st.
Proof. unfold deref. intros ->. reflexivity. Qed.

Lemma run_assign a c g st :
  heap st !! a = Some c →
  assign (Some a) g st = Done tt (set_heap (<[a := g c]> (heap st)) st).
Proof. unfold assign. intros ->. reflexivity. Qed.

Lemma run_xsend e st : xsend e st = Done tt (set_xlog (xlog st ++ [e]) st).
Proof. reflexivity. Qed.

Lemma run_ret {A} (a : A) st : (mret a : wm A) st = Done a st.
Proof. reflexivity. Qed.

Ltac heap_solve :=
  cbn; rewrite ?lookup_insert_eq; first [eassumption | reflexivity].

Ltac wm_step :=
  first
    [ rewrite bind_ret | rewrite bind_read | rewrite bind_put | rewrite bind_xsend
    | rewrite bind_assoc
    | erewrite bind_deref by heap_solve
    | erewrite bind_assign by heap_solve
    | erewrite run_deref by heap_solve
    | erewrite run_assign by heap_solve
    | rewrite run_xsend | rewrite run_ret ].

Ltac wm_run := repeat wm_step; cbn.

(** ** The geometry engine, step by step *)

Lemma MAX_max a b : MAX a b = Z.max a b.
Proof. unfold MAX. destruct (Z.gtb_spec a b); lia. Qed.

Lemma client_move_absolute_exec a cl x y st :
  heap st !! a = Some cl →
  client_move_absolute (Some a) x y st =
  Done tt (set_heap
             (<[a := set_geom (Geometry x y (gwidth (geom cl)) (gheight (geom cl))) cl]>
                (heap st))
             (set_xlog (xlog st ++ move_calls (conf st) cl x y) st)).
Proof.
  intros Ha. unfold client_move_absolute, move_calls.
  do 2 wm_step. destruct (decorated cl); wm_run; rewrite <- ?app_assoc; reflexivity.
Qed.

Lemma client_resize_absolute_exec a cl w h st :
  heap st !! a = Some cl →
  client_resize_absolute (Some a) w h st =
  Done tt (set_heap
             (<[a := set_geom (Geometry (gx (geom cl)) (gy (geom cl))
                                 (MAX w MINIMUM_DIM) (MAX h MINIMUM_DIM)) cl]>
                (heap st))
             (set_xlog (xlog st ++ resize_calls (conf st) cl w h) st)).
Proof.
  intros Ha. unfold client_resize_absolute, resize_calls.
  do 2 wm_step. destruct (decorated cl); wm_run; rewrite <- ?app_assoc; reflexivity.
Qed.

Lemma index_exec {A} (arr : list A) (i : Z) v st :
  0 <= i → arr !! Z.to_nat i = Some v → index arr i st = Done v st.
Proof.
  intros Hi Hv. unfold index.
  destruct (Z.ltb_spec i 0); [lia |]. rewrite Hv. reflexivity.
Qed.

Lemma monitor_of_exec st w m : monitor_at st w m → monitor_of w st = Done m st.
Proof.
  intros (mon & Hw & Hmon & Hm & Hml). unfold monitor_of.
  rewrite bind_read. rewrite (bind_done _ _ _ mon st) by (by apply index_exec).
  rewrite bind_read. by apply index_exec.
Qed.

Lemma int_wrap_id z : in_int z → int_wrap z = z.
Proof.
  unfold in_int, INT_MIN, INT_MAX, int_wrap. intros H.
  rewrite Z.mod_small by lia. lia.
Qed.

Lemma int_wrap_in_int z : in_int (int_wrap z).
Proof.
  unfold in_int, INT_MIN, INT_MAX, int_wrap.
  pose proof (Z.mod_pos_bound (z + 2147483648) 4294967296). lia.
Qed.

(** C6 — geometry round trip.  For a decorated client and all integers
    [x], [y], [w], [h], [client_move_absolute] followed by
    [client_resize_absolute] terminates and leaves the stored geometry
    exactly [(x, y, max w MINIMUM_DIM, max h MINIMUM_DIM)]; the offsets of
    the decoration (border widths, title height) appear only in the requests
    sent to the Display Surface. *)
Theorem geometry_round_trip (a : addr) (cl : client) (x y w h : Z) (st : wm_state) :
  heap st !! a = Some cl →
  decorated cl = true →
  ∃ st' cl',
    (client_move_absolute (Some a) x y;; client_resize_absolute (Some a) w h) st
      = Done tt st' ∧
    heap st' !! a = Some cl' ∧
    geom cl' = Geometry x y (Z.max w MINIMUM_DIM) (Z.max h MINIMUM_DIM) ∧
    xlog st' = xlog st ++
      [XMoveWindow (window cl)
         (x +i i_width (conf st) +i b_width (conf st))
         (y +i i_width (conf st) +i b_width (conf st) +i t_height (conf st));
       XMoveWindow (dec cl) x y;
       XResizeWindow (window cl)
         (Z.max (w -i 2 *i i_width (conf st) -i 2 *i b_width (conf st)) MINIMUM_DIM)
         (Z.max (h -i 2 *i i_width (conf st) -i 2 *i b_width (conf st)
                 -i t_height (conf st)) MINIMUM_DIM);
       XResizeWindow (dec cl)
         (Z.max (w -i 2 *i b_width (conf st)) MINIMUM_DIM)
         (Z.max (h -i 2 *i b_width (conf st)) MINIMUM_DIM)].
Proof.
  intros Ha Hdec.
  eexists _, _. split; [| split; [| split]].
  - erewrite bind_done by (by apply client_move_absolute_exec).
    apply client_resize_absolute_exec. cbn. apply lookup_insert_eq.
  - cbn. apply lookup_insert_eq.
  - cbn. by rewrite !MAX_max.
  - cbn. unfold move_calls, resize_calls. cbn. rewrite Hdec, <- !MAX_max.
    by rewrite <- app_assoc.
Qed.

(** C10 — [client_fullscreen] in both directions.  Whatever the fullscreen
    flag of the client is, the function moves the client to the origin of the
    monitor of its workspace and resizes it to the bounds of that monitor
    (each dimension floored at [MINIMUM_DIM]); nothing of the previous
    geometry is restored when fullscreen is turned off.  The two directions
    differ only in the flag, which is negated, and in the data of the
    [_NET_WM_STATE] property: the fullscreen atom when turning on, no atom
    when turning off. *)
Theorem client_fullscreen_toggle (a : addr) (cl : client) (m : monitor) (st : wm_state) :
  heap st !! a = Some cl →
  monitor_at st (ws cl) m →
  let g' := Geometry (mx m) (my m)
              (Z.max (mwidth m) MINIMUM_DIM) (Z.max (mheight m) MINIMUM_DIM) in
  client_fullscreen (Some a) st =
    Done tt
      (set_heap (<[a := set_fullscreen (negb (fullscreen cl)) (set_geom g' cl)]> (heap st))
         (set_xlog
            (xlog st ++ move_calls (conf st) cl (mx m) (my m)
                     ++ resize_calls (conf st) cl (mwidth m) (mheight m)
                     ++ [XChangeProperty (window cl) NetWMState PropModeReplace
                           (DataAtoms (if fullscreen cl then []
                                       else [NetWMStateFullscreen]))]) st)) ∧
  (MINIMUM_DIM <= mwidth m → MINIMUM_DIM <= mheight m →
   g' = Geometry (mx m) (my m) (mwidth m) (mheight m)).
Proof.
  intros Ha Hm g'. split.
  - unfold client_fullscreen.
    erewrite bind_deref by eassumption.
    erewrite bind_done by (by apply monitor_of_exec).
    erewrite bind_done by (by apply client_move_absolute_exec).
    erewrite bind_done by (apply client_resize_absolute_exec; apply lookup_insert_eq).
    erewrite bind_deref by apply lookup_insert_eq.
    unfold g'. rewrite <- !MAX_max. cbn.
    destruct (fullscreen cl) eqn:Hfs; cbn; wm_run; rewrite !insert_insert_eq;
      unfold resize_calls, move_calls, set_heap, set_xlog, set_fullscreen, set_geom; cbn;
      rewrite <- ?app_assoc, Hfs; reflexivity.
  - intros Hw Hh. unfold g'. f_equal; lia.
Qed.

(** ** Edge lock *)

(** C7 (amended) — edge lock of [client_move_relative].  With edge-lock
    enabled, for a client whose stored width and height do not exceed those
    of the monitor of its workspace, a non-negative top gap, and deltas for
    which the int sums the function forms do not overflow, the move
    terminates, keeps the stored size, and leaves the stored box inside the
    monitor: left edge at or right of the monitor's, right edge at or left of
    the monitor's, top edge at or below the monitor's, bottom edge at or
    above the monitor's.  In particular on a monitor of width [W] at origin 0
    the stored x of a client of width [w <= W] ends within [0, W - w]. *)
Theorem move_relative_edge_lock (a : addr) (cl : client) (m : monitor) (x y : Z)
    (st : wm_state) :
  heap st !! a = Some cl →
  edge_lock (conf st) = true →
  monitor_at st (ws cl) m →
  gwidth (geom cl) <= mwidth m →
  gheight (geom cl) <= mheight m →
  0 <= top_gap (conf st) →
  move_in_range (geom cl) m (conf st) x y →
  ∃ st' cl',
    client_move_relative (Some a) x y st = Done tt st' ∧
    heap st' !! a = Some cl' ∧
    gwidth (geom cl') = gwidth (geom cl) ∧
    gheight (geom cl') = gheight (geom cl) ∧
    mx m <= gx (geom cl') ∧
    gx (geom cl') + gwidth (geom cl') <= mx m + mwidth m ∧
    my m <= gy (geom cl') ∧
    gy (geom cl') + gheight (geom cl') <= my m + mheight m ∧
    (mx m = 0 → 0 <= gx (geom cl') <= mwidth m - gwidth (geom cl)).
Proof.
  intros Ha Hlock Hm Hw Hh Hgap [(X1 & X2 & X3 & X4 & X5) (Y1 & Y2 & Y3 & Y4 & Y5 & Y6)].
  unfold client_move_relative.
  rewrite bind_read, Hlock.
  erewrite bind_deref by eassumption.
  erewrite bind_done by (by apply monitor_of_exec).
  erewrite client_move_absolute_exec by eassumption.
  eexists _, _. split; [reflexivity |].
  split; [apply lookup_insert_eq |]. cbn.
  unfold int_add, int_sub.
  rewrite !(int_wrap_id (gx (geom cl) + gwidth (geom cl))) by assumption.
  rewrite !(int_wrap_id (gy (geom cl) + gheight (geom cl))) by assumption.
  rewrite !(int_wrap_id (mwidth m + mx m)), !(int_wrap_id (mheight m + my m))
    by assumption.
  rewrite !(int_wrap_id (my m + top_gap (conf st))) by assumption.
  rewrite !(int_wrap_id (gx (geom cl) + gwidth (geom cl) + x)),
    !(int_wrap_id (gy (geom cl) + gheight (geom cl) + y)),
    !(int_wrap_id (gx (geom cl) + x)), !(int_wrap_id (gy (geom cl) + y)),
    !(int_wrap_id (mwidth m + mx m - gwidth (geom cl))),
    !(int_wrap_id (mheight m + my m - gheight (geom cl))) by assumption.
  destruct (Z.gtb_spec (gx (geom cl) + gwidth (geom cl) + x) (mwidth m + mx m));
    destruct (Z.ltb_spec (gx (geom cl) + x) (mx m));
    destruct (Z.gtb_spec (gy (geom cl) + gheight (geom cl) + y) (mheight m + my m));
    destruct (Z.ltb_spec (gy (geom cl) + y) (my m + top_gap (conf st)));
    repeat split; lia.
Qed.

(** ** Workspace/monitor mapper *)

Lemma safe_to_focus_from_spec (st : wm_state) (w : nat) (mon : Z) (n i : nat) :
  (i + n ≤ length (c_list st))%nat →
  (i + n ≤ length (ws_m_list st))%nat →
  heads_allocated st →
  ∃ b, safe_to_focus_from (Z.of_nat w) mon (Z.of_nat i) n st = Done b st ∧
       (b = false ↔
        ∃ j, (i ≤ j < i + n)%nat ∧ j ≠ w ∧ ws_m_list st !! j = Some mon ∧
             head_shown st j).
Proof.
  revert i. induction n as [|n IH]; intros i Hc Hm Hal.
  - exists true. split; [reflexivity |]. split; [done |].
    intros (j & ? & _). lia.
  - cbn [safe_to_focus_from].
    rewrite bind_read.
    destruct (lookup_lt_is_Some_2 (ws_m_list st) i ltac:(lia)) as [mi Hmi].
    destruct (lookup_lt_is_Some_2 (c_list st) i ltac:(lia)) as [hd Hhd].
    destruct (IH (S i) ltac:(lia) ltac:(lia) Hal) as (b & Hrun & Hb).
    replace (Z.of_nat i + 1) with (Z.of_nat (S i)) by lia.
    assert (Hnext : (∃ j, (S i ≤ j < S i + n)%nat ∧ j ≠ w ∧
                          ws_m_list st !! j = Some mon ∧ head_shown st j) →
                    ∃ j, (i ≤ j < i + S n)%nat ∧ j ≠ w ∧
                          ws_m_list st !! j = Some mon ∧ head_shown st j).
    { intros (j & ? & ?). exists j. split; [lia | done]. }
    assert (Hstep : ¬ (i ≠ w ∧ ws_m_list st !! i = Some mon ∧ head_shown st i) →
                    (∃ j, (i ≤ j < i + S n)%nat ∧ j ≠ w ∧
                          ws_m_list st !! j = Some mon ∧ head_shown st j) →
                    ∃ j, (S i ≤ j < S i + n)%nat ∧ j ≠ w ∧
                          ws_m_list st !! j = Some mon ∧ head_shown st j).
    { intros Hno (j & Hj & Hjw & Hjm & Hjs).
      destruct (decide (j = i)) as [-> | Hne]; [destruct Hno; done |].
      exists j. split; [lia | done]. }
    destruct (Z.eqb_spec (Z.of_nat i) (Z.of_nat w)) as [Heq | Hne]; cbn [negb].
    { rewrite bind_ret. cbn. rewrite Hrun. exists b. split; [done |].
      rewrite Hb. split; [exact Hnext |]. apply Hstep. intros (? & _). lia. }
    rewrite bind_assoc.
    erewrite (bind_done (index _ _)) by
      (unfold index; destruct (Z.ltb_spec (Z.of_nat i) 0); [lia |];
       by rewrite Nat2Z.id, Hmi).
    destruct (Z.eqb_spec mi mon) as [-> | Hmne].
    2:{ rewrite bind_ret. cbn. rewrite Hrun. exists b. split; [done |].
        rewrite Hb. split; [exact Hnext |]. apply Hstep.
        intros (_ & Hx & _). congruence. }
    rewrite bind_assoc. unfold c_list_get at 1. rewrite bind_assoc, bind_read.
    erewrite (bind_done (index _ _)) by
      (unfold index; destruct (Z.ltb_spec (Z.of_nat i) 0); [lia |];
       by rewrite Nat2Z.id, Hhd).
    destruct hd as [a |]; unfold ptr_eqb.
    2:{ rewrite bool_decide_eq_true_2 by done. cbn [negb].
        rewrite bind_ret. cbn. rewrite Hrun. exists b. split; [done |].
        rewrite Hb. split; [exact Hnext |]. apply Hstep.
        intros (_ & _ & (a & c & Hx & _)). congruence. }
    rewrite bool_decide_eq_false_2 by done. cbn [negb].
    destruct (Hal i a Hhd) as [c Hc'].
    rewrite bind_assoc. erewrite bind_deref by eassumption.
    rewrite bind_ret.
    destruct (hidden c) eqn:Hhid; cbn [negb].
    + cbn. rewrite Hrun. exists b. split; [done |].
      rewrite Hb. split; [exact Hnext |]. apply Hstep.
      intros (_ & _ & (a' & c' & Hx & Hy & Hz)). congruence.
    + exists false. split; [reflexivity |]. split; [| done].
      intros _. exists i. split; [lia |]. split; [lia |]. split; [done |].
      exists a, c. done.
Qed.

(** C8 (amended) — [safe_to_focus].  For a workspace [w] within range, on a
    state whose arrays have [WORKSPACE_NUMBER] entries, [safe_to_focus]
    terminates without changing the state, and returns false exactly when
    some other workspace mapped to the same monitor has a non-empty stacking
    list whose front client is not hidden; clients behind the front one are
    never inspected. *)
Theorem safe_to_focus_front_client (w : nat) (st : wm_state) :
  length (c_list st) = WORKSPACE_NUMBER →
  length (ws_m_list st) = WORKSPACE_NUMBER →
  (w < WORKSPACE_NUMBER)%nat →
  heads_allocated st →
  ∃ b, safe_to_focus (Z.of_nat w) st = Done b st ∧
       (b = false ↔
        ∃ j, (j < WORKSPACE_NUMBER)%nat ∧ j ≠ w ∧
             ws_m_list st !! j = ws_m_list st !! w ∧ head_shown st j).
Proof.
  intros Hc Hm Hw Hal. unfold safe_to_focus.
  rewrite bind_read.
  destruct (lookup_lt_is_Some_2 (ws_m_list st) w ltac:(lia)) as [mon Hmon].
  erewrite (bind_done (index _ _)) by
    (unfold index; destruct (Z.ltb_spec (Z.of_nat w) 0); [lia |];
     by rewrite Nat2Z.id, Hmon).
  destruct (safe_to_focus_from_spec st w mon WORKSPACE_NUMBER 0
              ltac:(lia) ltac:(lia) Hal) as (b & Hrun & Hb).
  exists b. split; [exact Hrun |]. rewrite Hb, Hmon.
  split; intros (j & Hj & Hrest); exists j; (split; [lia | exact Hrest]).
Qed.

(** ** Handlers and focus transfer without a focused client *)

Lemma ptr_eqb_refl p : ptr_eqb p p = true.
Proof. unfold ptr_eqb. by apply bool_decide_eq_true_2. Qed.

Lemma ptr_eqb_true p q : ptr_eqb p q = true ↔ p = q.
Proof. unfold ptr_eqb. apply bool_decide_eq_true. Qed.

Lemma ptr_eqb_false p q : ptr_eqb p q = false ↔ p ≠ q.
Proof. unfold ptr_eqb. apply bool_decide_eq_false. Qed.

Lemma ptr_eqb_neq p q : p ≠ q → ptr_eqb p q = false.
Proof. apply ptr_eqb_false. Qed.

(** The handlers that test [f_client == NULL] first are no-ops when no
    client is focused. *)
Lemma guarded_handlers_no_focus (d : list Z) (st : wm_state) :
  f_client st = None →
  Forall (λ handler : list Z → wm unit, handler d st = Done tt st)
    [ipc_move_absolute; ipc_move_relative; ipc_monocle; ipc_raise;
     ipc_resize_absolute; ipc_resize_relative; ipc_toggle_decorations;
     ipc_window_close; ipc_send_to_ws; ipc_fullscreen; ipc_snap_left;
     ipc_snap_right; ipc_cycle_focus].
Proof.
  intros Hf.
  repeat apply Forall_cons_2; try apply Forall_nil_2;
    match goal with
    | |- ?h d st = _ => unfold h; rewrite bind_read, Hf; reflexivity
    end.
Qed.

(** C1 — the handler [ipc_window_center] without a focused client.  It does
    not test [f_client] and passes [NULL] to [client_center], which reads
    [c->ws]: the handler faults instead of returning with the state
    unchanged. *)
Theorem ipc_window_center_no_focus (d : list Z) (st : wm_state) :
  f_client st = None → ipc_window_center d st = Fault.
Proof.
  intros Hf. unfold ipc_window_center. rewrite bind_read, Hf. reflexivity.
Qed.

(** [ipc_cardinal_focus] without a focused client: a no-op when the current
    workspace is empty, a fault as soon as it has a client. *)
Lemma ipc_cardinal_focus_no_focus (d : list Z) (st : wm_state) (hd : option addr) :
  f_client st = None →
  0 <= curr_ws st →
  c_list st !! Z.to_nat (curr_ws st) = Some hd →
  ipc_cardinal_focus d st = match hd with None => Done tt st | Some _ => Fault end.
Proof.
  intros Hf Hws Hhd. unfold ipc_cardinal_focus, client_cardinal_focus.
  rewrite bind_read, Hf, bind_read. unfold c_list_get.
  rewrite bind_assoc, bind_read.
  erewrite (bind_done (index _ _)) by (by apply index_exec).
  unfold traversal_bound.
  destruct hd; reflexivity.
Qed.

(** C2 (amended) — [client_manage_focus] with a null client.  Both branches
    of the function are guarded by [c != NULL], so the call returns with the
    whole state unchanged: no request is sent to the Display Surface (the
    previously focused client is not repainted), the active-window property
    is not touched and the focused-client reference keeps its value. *)
Theorem client_manage_focus_null (st : wm_state) :
  client_manage_focus None st = Done tt st.
Proof. reflexivity. Qed.

(** ** Linked lists in the heap *)

Section Lists.
Context (k : link).

Lemma is_seg_app h p l1 l2 q :
  is_seg k h p (l1 ++ l2) q ↔ ∃ r, is_seg k h p l1 r ∧ is_seg k h r l2 q.
Proof.
  revert p. induction l1 as [|a l1 IH]; intros p; cbn.
  - split; [intros H; by exists p | by intros (r & -> & H)].
  - split.
    + intros (-> & c & Hc & Hl). apply IH in Hl as (r & H1 & H2).
      exists r. split; [| done]. split; [done |]. by exists c.
    + intros (r & (-> & c & Hc & H1) & H2). split; [done |].
      exists c. split; [done |]. apply IH. by exists r.
Qed.

Lemma is_seg_alloc h p l q a : is_seg k h p l q → a ∈ l → is_Some (h !! a).
Proof.
  revert p. induction l as [|b l IH]; intros p Hl Ha; [by inversion Ha |].
  destruct Hl as (-> & c & Hc & Hl).
  apply elem_of_cons in Ha as [-> | Ha]; [by exists c | by eapply IH].
Qed.

Lemma is_list_inj h p l1 l2 : is_list k h p l1 → is_list k h p l2 → l1 = l2.
Proof.
  unfold is_list. revert p l2. induction l1 as [|a l1 IH]; intros p [|b l2]; cbn.
  - done.
  - intros -> (? & _). done.
  - intros (-> & _) ?. done.
  - intros (-> & c & Hc & H1) (Heq & c' & Hc' & H2).
    injection Heq as <-. rewrite Hc in Hc'. injection Hc' as <-.
    f_equal. by eapply IH.
Qed.

Lemma is_list_NoDup h p l : is_list k h p l → NoDup l.
Proof.
  unfold is_list. revert p. induction l as [|a l IH]; intros p; [constructor |].
  intros (-> & c & Hc & Hl). constructor; [| by eapply IH].
  intros Ha. apply list_elem_of_split in Ha as (l1 & l2 & ->).
  pose proof Hl as Hl'. apply is_seg_app in Hl' as (r & _ & (-> & c' & Hc' & H2)).
  rewrite Hc in Hc'. injection Hc' as <-.
  pose proof (is_list_inj _ _ _ _ Hl H2) as Heq.
  apply (f_equal length) in Heq. rewrite length_app in Heq. cbn in Heq. lia.
Qed.

Lemma is_list_length h p l : is_list k h p l → (length l ≤ size h)%nat.
Proof.
  intros Hl. rewrite <- length_map_to_list, <- (length_fmap fst).
  apply submseteq_length, NoDup_submseteq; [by eapply is_list_NoDup |].
  intros a Ha. destruct (is_seg_alloc _ _ _ _ _ Hl Ha) as [c Hc].
  apply list_elem_of_fmap. exists (a, c). split; [done |].
  by apply elem_of_map_to_list.
Qed.

Lemma is_list_reachable h p l a : is_list k h p l → (reachable k h p a ↔ a ∈ l).
Proof.
  unfold is_list. intros Hl. split.
  - intros Hr. revert l Hl. induction Hr as [a | b c a Hb Hr IH]; intros l Hl.
    + destruct l as [|x l]; [done |]. destruct Hl as (Heq & _).
      injection Heq as <-. apply elem_of_cons. by left.
    + destruct l as [|x l]; [done |]. destruct Hl as (Heq & c' & Hc' & Hl).
      injection Heq as <-. rewrite Hb in Hc'. injection Hc' as <-.
      apply elem_of_cons. right. by apply IH.
  - revert p Hl. induction l as [|x l IH]; intros p Hl Ha; [by inversion Ha |].
    destruct Hl as (-> & c & Hc & Hl).
    apply elem_of_cons in Ha as [-> | Ha]; [constructor |].
    eapply reachable_step; [done |]. by apply IH.
Qed.

(** Writing a cell outside the segment, or writing it without touching the
    link [k], keeps the segment. *)
Lemma is_seg_update h p l q b cb (c' : client) :
  h !! b = Some cb →
  (b ∈ l → link_get k c' = link_get k cb) →
  is_seg k h p l q → is_seg k (<[b := c']> h) p l q.
Proof.
  intros Hb. revert p. induction l as [|a l IH]; intros p Hk; [done |].
  intros (-> & c & Hc & Hl). split; [done |].
  destruct (decide (a = b)) as [-> | Hne].
  - exists c'. rewrite lookup_insert_eq. split; [done |].
    rewrite Hb in Hc. injection Hc as <-.
    rewrite Hk by (apply elem_of_cons; by left).
    apply IH; [| done]. intros Hin. apply Hk. apply elem_of_cons. by right.
  - exists c. rewrite lookup_insert_ne by done. split; [done |].
    apply IH; [| done]. intros Hin. apply Hk. apply elem_of_cons. by right.
Qed.

(** The last cell of a non-empty segment points to the end of the segment. *)
Lemma is_seg_snoc h p l b q :
  is_seg k h p (l ++ [b]) q ↔
  ∃ cb, is_seg k h p l (Some b) ∧ h !! b = Some cb ∧ link_get k cb = q.
Proof.
  rewrite is_seg_app. cbn. split.
  - intros (r & H1 & -> & c & Hc & Hq). by exists c.
  - intros (cb & H1 & Hc & Hq). exists (Some b). split; [done |].
    split; [done |]. by exists cb.
Qed.

Lemma delete_scan_spec (fuel : nat) a b l p st :
  is_seg k (heap st) p (l ++ [b]) (Some a) →
  a ∉ l ++ [b] →
  (length l < fuel)%nat →
  delete_scan k fuel (Some a) p st = Done (Some b) st.
Proof.
  revert fuel p. induction l as [|x l IH]; intros fuel p Hseg Hnot Hfuel;
    (destruct fuel as [|fuel]; [cbn in Hfuel; lia |]).
  - destruct Hseg as (-> & cb & Hcb & Hq). cbn in Hq. cbn [delete_scan].
    erewrite bind_deref by eassumption. rewrite Hq, ptr_eqb_refl. reflexivity.
  - destruct Hseg as (-> & cx & Hcx & Hrest). cbn [delete_scan].
    erewrite bind_deref by eassumption.
    assert (Hne : link_get k cx ≠ Some a).
    { destruct (l ++ [b]) as [|y l'] eqn:Hl; [by destruct l |].
      destruct Hrest as (-> & _). intros [= ->].
      apply Hnot. cbn. rewrite Hl. apply elem_of_cons. right.
      apply elem_of_cons. by left. }
    rewrite (ptr_eqb_neq _ _ Hne). cbn [negb].
    apply IH; [done | | cbn in Hfuel; lia].
    intros Hin. apply Hnot. cbn. apply elem_of_cons. by right.
Qed.

End Lists.

(** ** The registry operations on one list *)

Lemma remove_client_notin a l : a ∉ l → remove_client a l = l.
Proof.
  unfold remove_client. induction l as [|x l IH]; intros Ha; [done |].
  apply not_elem_of_cons in Ha as [Hne Ha].
  rewrite filter_cons_True by done. f_equal. by apply IH.
Qed.

Lemma remove_client_split a l1 l2 :
  a ∉ l1 → a ∉ l2 → remove_client a (l1 ++ a :: l2) = l1 ++ l2.
Proof.
  intros H1 H2. unfold remove_client.
  rewrite filter_app, filter_cons_False by (intros H; by apply H).
  fold (remove_client a l1). fold (remove_client a l2).
  by rewrite !remove_client_notin.
Qed.

Lemma remove_client_elem a l x : x ∈ remove_client a l ↔ x ≠ a ∧ x ∈ l.
Proof. unfold remove_client. by rewrite list_elem_of_filter. Qed.

Lemma remove_client_perm a l l' : l ≡ₚ l' → remove_client a l ≡ₚ remove_client a l'.
Proof. unfold remove_client. by intros ->. Qed.

Lemma remove_client_NoDup a l : NoDup l → NoDup (remove_client a l).
Proof. apply NoDup_filter; apply _. Qed.

Lemma NoDup_split_at (a : addr) l1 l2 :
  NoDup (l1 ++ a :: l2) → (a ∉ l1) ∧ (a ∉ l2).
Proof.
  intros H. apply NoDup_app in H as (_ & H1 & H2).
  apply NoDup_cons in H2 as [H2 _]. split; [| done].
  intros Hin. apply (H1 a Hin). apply elem_of_cons. by left.
Qed.

Lemma link_set_get k c : link_set k (link_get k c) c = c.
Proof. by destruct k, c. Qed.

Lemma link_get_set k p c : link_get k (link_set k p c) = p.
Proof. by destruct k. Qed.

Lemma link_get_set_other k k' p c : k' ≠ k → link_get k' (link_set k p c) = link_get k' c.
Proof. by destruct k, k'. Qed.

Lemma ws_link_set k p c : ws (link_set k p c) = ws c.
Proof. by destruct k. Qed.

Lemma set_heap_id st : set_heap (heap st) st = st.
Proof. by destruct st. Qed.

Lemma heads_set_heap k h st : heads k (set_heap h st) = heads k st.
Proof. by destruct k. Qed.

Lemma heads_set_heads k l st : heads k (set_heads k l st) = l.
Proof. by destruct k. Qed.

Lemma heads_set_heads_other k k' l st : k' ≠ k → heads k' (set_heads k l st) = heads k' st.
Proof. by destruct k, k'. Qed.

Lemma heap_set_heads k l st : heap (set_heads k l st) = heap st.
Proof. by destruct k. Qed.

Lemma head_get_exec k (w : nat) hd st :
  heads k st !! w = Some hd → head_get k (Z.of_nat w) st = Done hd st.
Proof.
  intros H. destruct k; cbn in *; unfold c_list_get, f_list_get;
    rewrite bind_read; apply index_exec; rewrite ?Nat2Z.id; (lia || done).
Qed.

Lemma head_set_exec k (w : nat) p st :
  (w < length (heads k st))%nat →
  head_set k (Z.of_nat w) p st = Done tt (set_heads k (<[w := p]> (heads k st)) st).
Proof.
  intros H.
  destruct k; cbn in *; unfold c_list_set, f_list_set, in_bounds;
    (rewrite (proj2 (Z.leb_le _ _)), (proj2 (Z.ltb_lt _ _)) by lia);
    rewrite Nat2Z.id; reflexivity.
Qed.

Lemma traversal_bound_exec {B} (f : nat → wm B) st :
  (traversal_bound ≫= f) st = f (S (size (heap st))) st.
Proof. reflexivity. Qed.

(** One block of [client_delete], on a list that holds the client: the list
    loses the client, by the update of one link or of the head, and the head
    is replaced only when the client was the first of the list. *)
Lemma delete_in_spec k a ca (w : nat) hd l st :
  heads k st !! w = Some hd →
  is_list k (heap st) hd l →
  a ∈ l →
  heap st !! a = Some ca →
  ∃ b cb hd',
    heap st !! b = Some cb ∧ b ∈ l ∧
    delete_in k (Some a) (Z.of_nat w) st =
      Done tt (set_heads k (<[w := hd']> (heads k st))
                 (set_heap (<[b := link_set k (link_get k ca) cb]> (heap st)) st)) ∧
    is_list k (<[b := link_set k (link_get k ca) cb]> (heap st)) hd'
      (remove_client a l) ∧
    (hd ≠ Some a → hd' = hd).
Proof.
  forget_parameters.
  intros Hhd Hl Ha Hca.
  pose proof (is_list_NoDup _ _ _ _ Hl) as Hnd.
  pose proof (is_list_length _ _ _ _ Hl) as Hlen.
  assert (Hw : (w < length (heads k st))%nat) by (by eapply lookup_lt_Some).
  apply list_elem_of_split in Ha as (l0 & l2 & ->).
  destruct (NoDup_split_at _ _ _ Hnd) as [Hn0 Hn2].
  rewrite remove_client_split by done.
  unfold delete_in. erewrite bind_done by (by apply head_get_exec).
  destruct l0 as [|b l1 _] using rev_ind.
  - (* the client is the head *)
    destruct Hl as (-> & c & Hc & Hl2). rewrite Hca in Hc. injection Hc as <-.
    exists a, ca, (link_get k ca). rewrite link_set_get, insert_id, set_heap_id by done.
    split; [done |]. split; [apply elem_of_cons; by left |].
    rewrite ptr_eqb_refl. erewrite bind_deref by eassumption.
    split; [by apply head_set_exec |]. split; [done |]. by intros [].
  - (* the client follows [b] *)
    rewrite <- app_assoc in Hl, Hlen. cbn in Hl.
    apply (is_seg_app k) in Hl as (r & Hseg1 & Hrest).
    destruct Hrest as (-> & cb & Hcb & Hrest).
    destruct Hrest as (Hnext & c & Hc & Hl2).
    rewrite Hca in Hc. injection Hc as <-.
    assert (Hb1 : b ∉ l1).
    { apply NoDup_app in Hnd as (Hnd & _). apply NoDup_app in Hnd as (_ & Hd & _).
      intros Hin. apply (Hd b Hin). apply elem_of_cons. by left. }
    assert (Hb2 : b ∉ l2).
    { apply NoDup_app in Hnd as (_ & Hd & _). intros Hin.
      apply (Hd b); [apply elem_of_app; right; apply elem_of_cons; by left |].
      apply elem_of_cons. by right. }
    assert (Hhda : hd ≠ Some a).
    { destruct l1; cbn in Hseg1; [rewrite Hseg1 | destruct Hseg1 as (-> & _)];
        intros [= ->]; apply Hn0; rewrite elem_of_app, !elem_of_cons; tauto. }
    exists b, cb, hd. split; [done |].
    split; [rewrite !elem_of_app, !elem_of_cons; tauto |].
    rewrite (ptr_eqb_neq _ _ Hhda). rewrite traversal_bound_exec.
    erewrite bind_done by
      (apply delete_scan_spec with (l := l1);
       [by apply is_seg_snoc; exists cb | done |
        rewrite !length_app in Hlen; cbn in Hlen; lia]).
    split.
    + unfold unlink_after. erewrite bind_deref by eassumption.
      rewrite Hnext. erewrite bind_deref by eassumption.
      erewrite run_assign by eassumption.
      rewrite list_insert_id by done.
      by destruct k, st.
    + split; [| done].
      rewrite <- app_assoc. apply is_seg_app. exists (Some b). split.
      * (eapply is_seg_update; [exact Hcb | by intros ? | done]).
      * cbn. split; [done |]. eexists. rewrite lookup_insert_eq. split; [done |].
        rewrite link_get_set. (eapply is_seg_update; [exact Hcb | by intros ? | done]).
Qed.

(** ** Operations that leave the registry alone *)

Lemma same_links_refl st : same_links st st.
Proof.
  split; try done. intros a. destruct (heap st !! a); by constructor.
Qed.

Lemma same_links_trans st1 st2 st3 :
  same_links st1 st2 → same_links st2 st3 → same_links st1 st3.
Proof.
  intros [] []. split; try congruence.
  intros a. specialize (sl_heap0 a). specialize (sl_heap1 a).
  destruct sl_heap0 as [c1 c2 (? & ? & ?) |]; inversion sl_heap1 as [? c3 (? & ? & ?) |];
    subst; constructor. repeat split; congruence.
Qed.

Lemma same_links_xlog l st : same_links st (set_xlog l st).
Proof.
  split; try done. intros a. cbn. destruct (heap st !! a); by constructor.
Qed.

Lemma same_links_insert a c c' st :
  heap st !! a = Some c →
  next c' = next c → f_next c' = f_next c → ws c' = ws c →
  same_links st (set_heap (<[a := c']> (heap st)) st).
Proof.
  intros Ha Hn Hf Hw. split; try done. intros b. cbn.
  destruct (decide (a = b)) as [<- | Hne].
  - rewrite lookup_insert_eq, Ha. by constructor.
  - rewrite lookup_insert_ne by done. destruct (heap st !! b); by constructor.
Qed.

Lemma same_links_lookup st st' a c :
  same_links st st' → heap st !! a = Some c →
  ∃ c', heap st' !! a = Some c' ∧
        next c' = next c ∧ f_next c' = f_next c ∧ ws c' = ws c.
Proof.
  intros [] Ha. specialize (sl_heap0 a). rewrite Ha in sl_heap0.
  inversion sl_heap0 as [? c' ? |]; subst. by exists c'.
Qed.

Lemma same_links_lookup_inv st st' a c' :
  same_links st st' → heap st' !! a = Some c' →
  ∃ c, heap st !! a = Some c ∧
       next c' = next c ∧ f_next c' = f_next c ∧ ws c' = ws c.
Proof.
  intros [] Ha. specialize (sl_heap0 a). rewrite Ha in sl_heap0.
  inversion sl_heap0 as [c ? ? |]; subst. by exists c.
Qed.

Lemma same_links_is_seg k st st' p l q :
  same_links st st' → is_seg k (heap st) p l q → is_seg k (heap st') p l q.
Proof.
  intros Hsl. revert p. induction l as [|a l IH]; intros p; [done |].
  intros (-> & c & Hc & Hl). split; [done |].
  destruct (same_links_lookup _ _ _ _ Hsl Hc) as (c' & Hc' & Hn & Hf & _).
  exists c'. split; [done |].
  replace (link_get k c') with (link_get k c) by (by destruct k). by apply IH.
Qed.

Lemma same_links_monitor_at st st' w m :
  same_links st st' → monitor_at st w m → monitor_at st' w m.
Proof.
  intros [] (mon & ? & ? & ? & ?). exists mon. by rewrite sl_ws_m_list0, sl_m_list0.
Qed.

Lemma same_links_client_ok st st' a :
  same_links st st' → client_ok st a → client_ok st' a.
Proof.
  intros Hsl (c & m & Hc & Hm).
  destruct (same_links_lookup _ _ _ _ Hsl Hc) as (c' & Hc' & _ & _ & Hws).
  exists c', m. split; [done |]. rewrite Hws. by eapply same_links_monitor_at.
Qed.

Lemma same_links_registry st st' cl fl :
  same_links st st' → registry st cl fl → registry st' cl fl.
Proof.
  intros Hsl []. pose proof Hsl as [].
  split; rewrite ?sl_c_list0, ?sl_f_list0; try done.
  - intros i p Hp. eapply same_links_is_seg; [done |]. by eapply reg_stack0.
  - intros i p Hp. eapply same_links_is_seg; [done |]. by eapply reg_focus0.
  - intros i a c' Hi Ha Hc'.
    destruct (same_links_lookup_inv _ _ _ _ Hsl Hc') as (c & Hc & _ & _ & ->).
    eauto.
Qed.

(** Hoare-style use of a lemma on a command in front of a bind. *)
Lemma returns_bind_with {A B} (m : wm A) (f : A → wm B) st Qm Q :
  returns m st Qm → (∀ a st', Qm a st' → returns (f a) st' Q) →
  returns (m ≫= f) st Q.
Proof. intros Hm Hf. apply returns_bind. eapply returns_conseq; eauto. Qed.

Lemma returns_run {A} (m : wm A) st a st' (Q : A → wm_state → Prop) :
  m st = Done a st' → Q a st' → returns m st Q.
Proof. unfold returns. by intros ->. Qed.

Lemma returns_bind_run {A B} (m : wm A) (f : A → wm B) st a st' Q :
  m st = Done a st' → returns (f a) st' Q → returns (m ≫= f) st Q.
Proof. intros Hm Hf. unfold returns. by rewrite (bind_done _ _ _ _ _ Hm). Qed.

(** A command that keeps the links, followed by the rest of the program. *)
Lemma returns_bind_same_links {A B} (m : wm A) (f : A → wm B) st st0 Q :
  same_links st0 st →
  returns m st (λ _ st', same_links st st') →
  (∀ a st', same_links st0 st' → returns (f a) st' Q) →
  returns (m ≫= f) st Q.
Proof.
  intros H0 Hm Hf. eapply returns_bind_with; [exact Hm |].
  intros x st' Hsl. apply Hf. by eapply same_links_trans.
Qed.

Lemma client_move_absolute_same_links a x y st :
  is_Some (heap st !! a) →
  returns (client_move_absolute (Some a) x y) st (λ _ st', same_links st st').
Proof.
  intros [c Hc]. eapply returns_run; [by apply client_move_absolute_exec |].
  eapply same_links_trans; [apply (same_links_xlog (xlog st ++ move_calls (conf st) c x y)) |].
  by apply (same_links_insert a c _ (set_xlog (xlog st ++ move_calls (conf st) c x y) st)).
Qed.

Lemma client_resize_absolute_same_links a w h st :
  is_Some (heap st !! a) →
  returns (client_resize_absolute (Some a) w h) st (λ _ st', same_links st st').
Proof.
  intros [c Hc]. eapply returns_run; [by apply client_resize_absolute_exec |].
  eapply same_links_trans;
    [apply (same_links_xlog (xlog st ++ resize_calls (conf st) c w h)) |].
  by apply (same_links_insert a c _ (set_xlog (xlog st ++ resize_calls (conf st) c w h) st)).
Qed.

Lemma client_move_relative_same_links a x y st :
  client_ok st a →
  returns (client_move_relative (Some a) x y) st (λ _ st', same_links st st').
Proof.
  intros (c & m & Hc & Hm). unfold client_move_relative.
  apply returns_bind, returns_read.
  destruct (edge_lock (conf st)).
  - apply returns_bind. eapply returns_deref; [done |].
    eapply returns_bind_run; [by apply monitor_of_exec |].
    by apply client_move_absolute_same_links.
  - apply returns_bind. eapply returns_deref; [done |].
    by apply client_move_absolute_same_links.
Qed.

Lemma client_resize_relative_same_links a w h st :
  client_ok st a →
  returns (client_resize_relative (Some a) w h) st (λ _ st', same_links st st').
Proof.
  intros (c & m & Hc & Hm). unfold client_resize_relative.
  apply returns_bind, returns_read.
  destruct (edge_lock (conf st)).
  - apply returns_bind. eapply returns_deref; [done |].
    eapply returns_bind_run; [by apply monitor_of_exec |].
    by apply client_resize_absolute_same_links.
  - apply returns_bind. eapply returns_deref; [done |].
    by apply client_resize_absolute_same_links.
Qed.

Lemma returns_same_links_lift (m : wm unit) st0 st :
  same_links st0 st →
  returns m st (λ _ st', same_links st st') →
  returns m st (λ _ st', same_links st0 st').
Proof.
  intros H0 Hm. eapply returns_conseq; [exact Hm |].
  intros [] st' H. by eapply same_links_trans.
Qed.

Lemma returns_bind_deref {B} a (f : client → wm B) st Q :
  is_Some (heap st !! a) →
  (∀ c, heap st !! a = Some c → returns (f c) st Q) →
  returns (deref (Some a) ≫= f) st Q.
Proof.
  intros [c Hc] Hf. eapply returns_bind_run; [by apply run_deref |]. by apply Hf.
Qed.

Lemma same_links_alloc st st' a :
  same_links st st' → is_Some (heap st !! a) → is_Some (heap st' !! a).
Proof.
  intros Hsl [c Hc]. destruct (same_links_lookup _ _ _ _ Hsl Hc) as (c' & Hc' & _).
  by exists c'.
Qed.

Lemma client_ok_alloc st a : client_ok st a → is_Some (heap st !! a).
Proof. intros (c & _ & Hc & _). by exists c. Qed.

Lemma xsend_same_links e st : returns (xsend e) st (λ _ st', same_links st st').
Proof. apply returns_xsend, same_links_xlog. Qed.

Lemma assign_same_links a f st :
  is_Some (heap st !! a) →
  (∀ c, next (f c) = next c ∧ f_next (f c) = f_next c ∧ ws (f c) = ws c) →
  returns (assign (Some a) f) st (λ _ st', same_links st st').
Proof.
  intros [c Hc] Hf. eapply returns_assign; [done |].
  destruct (Hf c) as (? & ? & ?). by apply (same_links_insert a c).
Qed.

(** One step of a sequence of commands that keep the links. *)
Ltac sl_step tac :=
  eapply returns_bind_same_links;
  [first [eassumption | apply same_links_refl] | tac | intros _ ?st ?Hsl].
Ltac sl_last tac :=
  eapply returns_same_links_lift;
  [first [eassumption | apply same_links_refl] | tac].

Lemma client_refresh_same_links a st :
  client_ok st a →
  returns (client_refresh (Some a)) st (λ _ st', same_links st st').
Proof.
  intros Hok. unfold client_refresh.
  sl_step ltac:(by apply client_move_relative_same_links).
  sl_step ltac:(apply client_resize_relative_same_links; by eapply same_links_client_ok).
  sl_step ltac:(apply client_move_relative_same_links; by eapply same_links_client_ok).
  sl_last ltac:(apply client_resize_relative_same_links; by eapply same_links_client_ok).
Qed.

Lemma client_raise_same_links p st :
  (∀ a, p = Some a → is_Some (heap st !! a)) →
  returns (client_raise p) st (λ _ st', same_links st st').
Proof.
  intros Hp. destruct p as [a |]; [| apply returns_ret, same_links_refl].
  unfold client_raise. apply returns_bind_deref; [by apply Hp |]. intros c Hc.
  sl_step ltac:(destruct (decorated c);
                [apply xsend_same_links | apply returns_ret, same_links_refl]).
  sl_last ltac:(apply xsend_same_links).
Qed.

Lemma client_set_color_same_links a i_color b_color st :
  is_Some (heap st !! a) →
  returns (client_set_color (Some a) i_color b_color) st (λ _ st', same_links st st').
Proof.
  intros Ha. unfold client_set_color. apply returns_bind_deref; [done |].
  intros c Hc. destruct (decorated c); [| apply returns_ret, same_links_refl].
  sl_step ltac:(apply xsend_same_links).
  sl_step ltac:(apply xsend_same_links).
  sl_last ltac:(apply xsend_same_links).
Qed.

Lemma client_set_input_same_links a st :
  is_Some (heap st !! a) →
  returns (client_set_input (Some a)) st (λ _ st', same_links st st').
Proof.
  intros Ha. unfold client_set_input. apply returns_bind_deref; [done |].
  intros c Hc. apply xsend_same_links.
Qed.

Lemma manage_xsend_icccm_same_links a atm st :
  is_Some (heap st !! a) →
  returns (manage_xsend_icccm (Some a) atm) st (λ _ st', same_links st st').
Proof.
  intros Ha. unfold manage_xsend_icccm. apply returns_bind_deref; [done |].
  intros c Hc. apply returns_bind.
  destruct (x_wm_protocols (window c)) as [ps |];
    [destruct (bool_decide (atm ∈ ps)) |];
    first [apply returns_xsend | apply returns_ret];
    apply returns_ret; first [apply same_links_xlog | apply same_links_refl].
Qed.

Lemma client_hide_same_links a st :
  is_Some (heap st !! a) →
  returns (client_hide (Some a)) st (λ _ st', same_links st st').
Proof.
  intros Ha. unfold client_hide. apply returns_bind_deref; [done |].
  intros c Hc. destruct (hidden c); cbn [negb]; [apply returns_ret, same_links_refl |].
  sl_step ltac:(by apply assign_same_links).
  do 2 (apply returns_bind, returns_read).
  apply returns_bind_deref; [by eapply same_links_alloc |]. intros c' Hc'.
  sl_step ltac:(apply client_move_absolute_same_links; by eapply same_links_alloc).
  sl_last ltac:(apply assign_same_links; [by eapply same_links_alloc | done]).
Qed.

Lemma client_show_same_links a st :
  client_ok st a →
  returns (client_show (Some a)) st (λ _ st', same_links st st').
Proof.
  intros Hok. pose proof (client_ok_alloc _ _ Hok) as Ha.
  unfold client_show. apply returns_bind_deref; [done |].
  intros c Hc. destruct (hidden c); [| apply returns_ret, same_links_refl].
  sl_step ltac:(by apply client_move_absolute_same_links).
  sl_step ltac:(apply client_raise_same_links; intros ? [= <-];
                by eapply same_links_alloc).
  sl_step ltac:(apply assign_same_links; [by eapply same_links_alloc | done]).
  sl_last ltac:(apply client_refresh_same_links; by eapply same_links_client_ok).
Qed.

(** A loop over a stacking list whose body keeps the links. *)
Lemma for_clients_same_links (P : wm_state → addr → Prop) fuel body p l st :
  is_list Next (heap st) p l →
  (length l ≤ fuel)%nat →
  (∀ a st1 st2, same_links st1 st2 → P st1 a → P st2 a) →
  (∀ a, a ∈ l → P st a) →
  (∀ a st1, P st1 a → is_Some (heap st1 !! a) →
            returns (body (Some a)) st1 (λ _ st2, same_links st1 st2)) →
  returns (for_clients fuel body p) st (λ _ st', same_links st st').
Proof.
  intros Hl Hfuel HP Hall Hbody.
  assert (Hgen : ∀ st1, same_links st st1 →
            returns (for_clients fuel body p) st1 (λ _ st', same_links st st')).
  2:{ apply Hgen, same_links_refl. }
  revert p fuel Hl Hfuel Hall. induction l as [|a l IH]; intros p fuel Hl Hfuel Hall st1 H1.
  - cbn in Hl. subst p. destruct fuel; exact H1.
  - destruct Hl as (-> & c & Hc & Hl).
    destruct fuel as [|fuel]; [cbn in Hfuel; lia |]. cbn [for_clients].
    assert (Ha1 : is_Some (heap st1 !! a)) by (eapply same_links_alloc; eauto).
    eapply returns_bind_same_links; [exact H1 | |].
    { apply Hbody; [| done]. eapply HP; [exact H1 |]. apply Hall, elem_of_cons. by left. }
    intros _ st2 H2.
    destruct (same_links_lookup _ _ _ _ H2 Hc) as (c2 & Hc2 & Hn & _).
    eapply returns_bind_run; [by apply run_deref |]. rewrite Hn.
    apply (IH (next c) fuel); [done | cbn in Hfuel; lia | | done].
    intros b Hb. apply Hall, elem_of_cons. by right.
Qed.

(** A counting loop whose body keeps the links. *)
Lemma for_range_same_links body (i : nat) (n : nat) st :
  (∀ (j : nat) st1, (i ≤ j < i + n)%nat → same_links st st1 →
     returns (body (Z.of_nat j)) st1 (λ _ st2, same_links st1 st2)) →
  returns (for_range body (Z.of_nat i) n) st (λ _ st', same_links st st').
Proof.
  intros Hbody.
  assert (Hgen : ∀ st1, same_links st st1 →
            returns (for_range body (Z.of_nat i) n) st1 (λ _ st', same_links st st')).
  2:{ apply Hgen, same_links_refl. }
  revert i Hbody. induction n as [|n IH]; intros i Hbody st1 H1.
  - exact H1.
  - cbn [for_range].
    eapply returns_bind_same_links; [exact H1 | apply Hbody; [lia | done] |].
    intros _ st2 H2. replace (Z.of_nat i + 1) with (Z.of_nat (S i)) by lia.
    apply IH; [| done]. intros j st3 Hj. apply Hbody. lia.
Qed.

Lemma update_c_list_same_links st cl fl :
  registry st cl fl →
  returns update_c_list st (λ _ st', same_links st st').
Proof.
  intros Hreg. unfold update_c_list.
  apply returns_bind, returns_read.
  sl_step ltac:(apply xsend_same_links).
  eapply returns_bind_run; [reflexivity |].
  assert (Hreg0 : registry st0 cl fl) by (by eapply same_links_registry).
  eapply returns_same_links_lift; [done |].
  apply (for_range_same_links _ 0). intros j st1 Hj H1.
  assert (Hreg1 : registry st1 cl fl) by (by eapply same_links_registry).
  destruct (lookup_lt_is_Some_2 (c_list st1) j) as [hd Hhd];
    [rewrite (reg_c_len _ _ _ Hreg1); lia |].
  eapply returns_bind_run; [by apply (head_get_exec Next) |].
  pose proof (reg_stack _ _ _ Hreg1 _ _ Hhd) as Hl.
  apply (for_clients_same_links (λ _ _, True) _ _ _ (cl j)); try done.
  - destruct (lookup_lt_is_Some_2 (c_list st0) j) as [hd0 Hhd0];
      [rewrite (reg_c_len _ _ _ Hreg0); lia |].
    pose proof (is_list_length _ _ _ _ (reg_stack _ _ _ Hreg0 _ _ Hhd0)). lia.
  - intros a st2 _ Ha. apply returns_bind_deref; [done |]. intros c Hc.
    apply xsend_same_links.
Qed.

(** ** The registry operations on a well-formed registry *)

Lemma same_shape_refl st : same_shape st st.
Proof. split; try done. intros a. destruct (heap st !! a); by constructor. Qed.

Lemma same_shape_trans st1 st2 st3 :
  same_shape st1 st2 → same_shape st2 st3 → same_shape st1 st3.
Proof.
  intros [] []. split; try congruence.
  intros a. specialize (ss_heap0 a). specialize (ss_heap1 a).
  destruct ss_heap0; inversion ss_heap1; subst; constructor. congruence.
Qed.

Lemma same_links_shape st st' : same_links st st' → same_shape st st'.
Proof.
  intros []. split; try done. intros a. specialize (sl_heap0 a).
  destruct sl_heap0 as [? ? (_ & _ & ?) |]; by constructor.
Qed.

Lemma same_shape_lookup st st' a c :
  same_shape st st' → heap st !! a = Some c →
  ∃ c', heap st' !! a = Some c' ∧ ws c' = ws c.
Proof.
  intros [] Ha. specialize (ss_heap0 a). rewrite Ha in ss_heap0.
  inversion ss_heap0 as [? c' ? |]; subst. by exists c'.
Qed.

Lemma same_shape_insert a c c' st st' :
  heap st !! a = Some c → ws c' = ws c →
  m_list st' = m_list st → ws_m_list st' = ws_m_list st → conf st' = conf st →
  curr_ws st' = curr_ws st →
  heap st' = <[a := c']> (heap st) →
  same_shape st st'.
Proof.
  intros Ha Hw ? ? ? ? Hh. split; try done. intros b. rewrite Hh.
  destruct (decide (a = b)) as [<- | Hne].
  - rewrite lookup_insert_eq, Ha. by constructor.
  - rewrite lookup_insert_ne by done. destruct (heap st !! b); by constructor.
Qed.

Lemma is_list_relink k k' h b cb p' hd l :
  h !! b = Some cb → k' ≠ k ∨ b ∉ l →
  is_list k' h hd l → is_list k' (<[b := link_set k p' cb]> h) hd l.
Proof.
  intros Hb Hor. eapply is_seg_update; [exact Hb |].
  intros Hin. destruct Hor as [Hk | Hnot]; [by apply link_get_set_other | done].
Qed.

Lemma registry_alloc st cl fl (i : nat) a :
  registry st cl fl → (i < WORKSPACE_NUMBER)%nat → a ∈ cl i →
  ∃ c, heap st !! a = Some c ∧ ws c = Z.of_nat i.
Proof.
  intros Hreg Hi Ha.
  destruct (lookup_lt_is_Some_2 (c_list st) i) as [p Hp];
    [by rewrite (reg_c_len _ _ _ Hreg) |].
  destruct (is_seg_alloc _ _ _ _ _ _ (reg_stack _ _ _ Hreg _ _ Hp) Ha) as [c Hc].
  exists c. split; [done |]. by eapply reg_ws.
Qed.

Lemma registry_focus_disjoint st cl fl (i j : nat) a :
  registry st cl fl → (i < WORKSPACE_NUMBER)%nat → (j < WORKSPACE_NUMBER)%nat →
  a ∈ fl i → a ∈ fl j → i = j.
Proof.
  intros Hreg Hi Hj Hai Haj. eapply (reg_disjoint _ _ _ Hreg); eauto.
  - by rewrite (reg_perm _ _ _ Hreg i Hi).
  - by rewrite (reg_perm _ _ _ Hreg j Hj).
Qed.

(** [client_save] of an allocated client that is in no list yet, with its
    [ws] field already set to the workspace. *)
Lemma client_save_spec a ca (w : nat) st cl fl :
  registry st cl fl →
  (w < WORKSPACE_NUMBER)%nat →
  heap st !! a = Some ca →
  ws ca = Z.of_nat w →
  (∀ i, (i < WORKSPACE_NUMBER)%nat → a ∉ cl i) →
  ∃ st',
    client_save (Some a) (Z.of_nat w) st = Done tt st' ∧
    registry st' (<[w := a :: cl w]> cl) (<[w := a :: fl w]> fl) ∧
    same_shape st st' ∧ f_client st' = f_client st ∧ xlog st' = xlog st.
Proof.
  intros Hreg Hw Ha Hws Hfresh.
  destruct (lookup_lt_is_Some_2 (c_list st) w) as [hd Hhd];
    [by rewrite (reg_c_len _ _ _ Hreg) |].
  destruct (lookup_lt_is_Some_2 (f_list st) w) as [fhd Hfhd];
    [by rewrite (reg_f_len _ _ _ Hreg) |].
  assert (Hfresh' : ∀ i, (i < WORKSPACE_NUMBER)%nat → a ∉ fl i).
  { intros i Hi. rewrite <- (reg_perm _ _ _ Hreg i Hi). by apply Hfresh. }
  set (h1 := <[a := set_next hd ca]> (heap st)).
  set (h2 := <[a := set_f_next fhd (set_next hd ca)]> h1).
  eexists. split.
  { unfold client_save.
    erewrite bind_done by (by apply (head_get_exec Next)).
    erewrite bind_assign by eassumption.
    erewrite bind_done by
      (apply (head_set_exec Next); cbn; by rewrite (reg_c_len _ _ _ Hreg)).
    erewrite bind_done by (by apply (head_get_exec FNext)).
    erewrite bind_assign by apply lookup_insert_eq.
    apply (head_set_exec FNext). cbn. by rewrite (reg_f_len _ _ _ Hreg). }
  cbn. fold h1. fold h2.
  assert (H1 : h1 !! a = Some (set_next hd ca)) by apply lookup_insert_eq.
  assert (Hkeep : ∀ k p l, a ∉ l → is_list k (heap st) p l → is_list k h2 p l).
  { intros k p l Hnot Hl.
    apply (is_list_relink FNext k h1 a (set_next hd ca) fhd); [done | by right |].
    apply (is_list_relink Next k (heap st) a ca hd); [done | by right | done]. }
  split; [split |]; cbn.
  - by rewrite length_insert, (reg_c_len _ _ _ Hreg).
  - by rewrite length_insert, (reg_f_len _ _ _ Hreg).
  - intros i p Hp. destruct (decide (w = i)) as [<- | Hne].
    + rewrite list_lookup_insert_eq in Hp by (by eapply lookup_lt_Some).
      injection Hp as <-. rewrite fn_lookup_insert.
      split; [done |]. eexists. split; [apply lookup_insert_eq |]. cbn.
      apply Hkeep; [by apply Hfresh |]. by eapply reg_stack.
    + rewrite list_lookup_insert_ne in Hp by done.
      rewrite fn_lookup_insert_ne by done.
      assert (Hi : (i < WORKSPACE_NUMBER)%nat)
        by (rewrite <- (reg_c_len _ _ _ Hreg); by eapply lookup_lt_Some).
      apply Hkeep; [by apply Hfresh |]. by eapply reg_stack.
  - intros i p Hp. destruct (decide (w = i)) as [<- | Hne].
    + rewrite list_lookup_insert_eq in Hp by (by eapply lookup_lt_Some).
      injection Hp as <-. rewrite fn_lookup_insert.
      split; [done |]. eexists. split; [apply lookup_insert_eq |]. cbn.
      apply Hkeep; [by apply Hfresh' |]. by eapply reg_focus.
    + rewrite list_lookup_insert_ne in Hp by done.
      rewrite fn_lookup_insert_ne by done.
      assert (Hi : (i < WORKSPACE_NUMBER)%nat)
        by (rewrite <- (reg_f_len _ _ _ Hreg); by eapply lookup_lt_Some).
      apply Hkeep; [by apply Hfresh' |]. by eapply reg_focus.
  - intros i Hi. destruct (decide (w = i)) as [<- | Hne].
    + rewrite !fn_lookup_insert. f_equiv. by apply (reg_perm _ _ _ Hreg).
    + rewrite !fn_lookup_insert_ne by done. by apply (reg_perm _ _ _ Hreg).
  - intros i Hi. destruct (decide (w = i)) as [<- | Hne].
    + rewrite fn_lookup_insert. constructor; [by apply Hfresh |].
      by apply (reg_nodup _ _ _ Hreg).
    + rewrite fn_lookup_insert_ne by done. by apply (reg_nodup _ _ _ Hreg).
  - intros i j x Hi Hj.
    destruct (decide (w = i)) as [<- | Hni]; destruct (decide (w = j)) as [<- | Hnj];
      rewrite ?fn_lookup_insert, ?fn_lookup_insert_ne by done; try done.
    + intros [-> | Hx]%elem_of_cons Hx'; [by destruct (Hfresh j Hj) |].
      by eapply (reg_disjoint _ _ _ Hreg).
    + intros Hx' [-> | Hx]%elem_of_cons; [by destruct (Hfresh i Hi) |].
      by eapply (reg_disjoint _ _ _ Hreg).
    + by eapply (reg_disjoint _ _ _ Hreg).
  - intros i x c Hi Hx Hc. unfold h2, h1 in Hc. rewrite insert_insert_eq in Hc.
    destruct (decide (a = x)) as [<- | Hne].
    + rewrite lookup_insert_eq in Hc. injection Hc as <-. cbn. rewrite Hws.
      destruct (decide (w = i)) as [<- | Hni]; [done |].
      rewrite fn_lookup_insert_ne in Hx by done. by destruct (Hfresh i Hi).
    + rewrite lookup_insert_ne in Hc by done.
      destruct (decide (w = i)) as [<- | Hni].
      * rewrite fn_lookup_insert in Hx. apply elem_of_cons in Hx as [-> | Hx]; [done |].
        by eapply (reg_ws _ _ _ Hreg).
      * rewrite fn_lookup_insert_ne in Hx by done. by eapply (reg_ws _ _ _ Hreg).
  - split; [| done].
    eapply (same_shape_insert a ca (set_f_next fhd (set_next hd ca))); try done.
    cbn. unfold h2, h1. by rewrite insert_insert_eq.
Qed.

Lemma same_shape_lookup_inv st st' a c' :
  same_shape st st' → heap st' !! a = Some c' →
  ∃ c, heap st !! a = Some c ∧ ws c' = ws c.
Proof.
  intros [] Ha. specialize (ss_heap0 a). rewrite Ha in ss_heap0.
  inversion ss_heap0 as [c ? ? |]; subst. by exists c.
Qed.

Lemma is_list_nil_iff k h p l : is_list k h p l → (p = None ↔ l = []).
Proof.
  destruct l as [|a l]; cbn; [by intros -> |].
  intros (-> & _). split; intros; discriminate.
Qed.

(** [client_delete] of a client of the registry. *)
Lemma client_delete_spec a (w : nat) st cl fl :
  registry st cl fl →
  (w < WORKSPACE_NUMBER)%nat →
  a ∈ cl w →
  ∃ st',
    client_delete (Some a) st = Done tt st' ∧
    registry st' (<[w := remove_client a (cl w)]> cl)
                 (<[w := remove_client a (fl w)]> fl) ∧
    same_shape st st' ∧
    f_client st' =
      (if decide (remove_client a (cl w) = []) then None else f_client st) ∧
    (c_list st !! w ≠ Some (Some a) → c_list st' !! w = c_list st !! w) ∧
    (∀ i, i ≠ w → c_list st' !! i = c_list st !! i).
Proof.
  forget_parameters.
  intros Hreg Hw Ha.
  destruct (registry_alloc _ _ _ _ _ Hreg Hw Ha) as (ca & Hca & Hws).
  destruct (lookup_lt_is_Some_2 (c_list st) w) as [hd Hhd];
    [by rewrite (reg_c_len _ _ _ Hreg) |].
  destruct (lookup_lt_is_Some_2 (f_list st) w) as [fhd Hfhd];
    [by rewrite (reg_f_len _ _ _ Hreg) |].
  assert (Haf : a ∈ fl w) by (by rewrite <- (reg_perm _ _ _ Hreg w Hw)).
  (* the stack *)
  destruct (delete_in_spec Next a ca w hd (cl w) st Hhd
              (reg_stack _ _ _ Hreg _ _ Hhd) Ha Hca)
    as (b1 & cb1 & hd1 & Hb1 & Hb1in & Hrun1 & Hl1 & Hhead1).
  set (h1 := <[b1 := link_set Next (link_get Next ca) cb1]> (heap st)) in *.
  set (st1 := set_heads Next (<[w := hd1]> (heads Next st)) (set_heap h1 st)) in *.
  assert (Hca1 : heap st1 !! a = Some ca).
  { cbn. unfold h1. destruct (decide (b1 = a)) as [-> | Hne].
    - rewrite lookup_insert_eq. rewrite Hca in Hb1. injection Hb1 as <-.
      by rewrite link_set_get.
    - by rewrite lookup_insert_ne. }
  (* the focus list *)
  destruct (delete_in_spec FNext a ca w fhd (fl w) st1 Hfhd) as
    (b2 & cb2 & hd2 & Hb2 & Hb2in & Hrun2 & Hl2 & _); [| done | done |].
  { cbn. apply (is_list_relink Next FNext); [done | by left |].
    by apply (reg_focus _ _ _ Hreg w). }
  set (h2 := <[b2 := link_set FNext (link_get FNext ca) cb2]> (heap st1)) in *.
  set (st2 := set_heads FNext (<[w := hd2]> (heads FNext st1)) (set_heap h2 st1)) in *.
  set (st3 := if ptr_eqb hd1 None then set_f_client None st2 else st2).
  assert (Hshape : same_shape st st3).
  { apply same_shape_trans with st1.
    - by eapply (same_shape_insert b1 cb1 (link_set Next (link_get Next ca) cb1)).
    - apply same_shape_trans with st2.
      + by eapply (same_shape_insert b2 cb2 (link_set FNext (link_get FNext ca) cb2)).
      + unfold st3. destruct (ptr_eqb hd1 None); [| apply same_shape_refl].
        split; try done. intros x. cbn. destruct (h2 !! x); by constructor. }
  assert (Hc3 : c_list st3 = <[w := hd1]> (c_list st))
    by (unfold st3; by destruct (ptr_eqb hd1 None)).
  assert (Hf3 : f_list st3 = <[w := hd2]> (f_list st))
    by (unfold st3; by destruct (ptr_eqb hd1 None)).
  assert (Hh3 : heap st3 = h2) by (unfold st3; by destruct (ptr_eqb hd1 None)).
  assert (Hkeep : ∀ k p l, (k = Next → b1 ∉ l) → (k = FNext → b2 ∉ l) →
                  is_list k (heap st) p l → is_list k h2 p l).
  { intros k p l Hk1 Hk2 Hl.
    apply (is_list_relink FNext k); [done | |].
    { destruct k; [by left | right; by apply Hk2]. }
    apply (is_list_relink Next k); [done | | done].
    destruct k; [right; by apply Hk1 | by left]. }
  assert (Hreg3 : registry st3 (<[w := remove_client a (cl w)]> cl)
                               (<[w := remove_client a (fl w)]> fl)).
  { split; rewrite ?Hc3, ?Hf3, ?Hh3.
    - by rewrite length_insert, (reg_c_len _ _ _ Hreg).
    - by rewrite length_insert, (reg_f_len _ _ _ Hreg).
    - intros i p Hp. destruct (decide (w = i)) as [<- | Hne].
      + rewrite list_lookup_insert_eq in Hp by (by eapply lookup_lt_Some).
        injection Hp as <-. rewrite fn_lookup_insert.
        apply (is_list_relink FNext Next); [done | by left | done].
      + rewrite list_lookup_insert_ne in Hp by done.
        rewrite fn_lookup_insert_ne by done.
        assert (Hi : (i < WORKSPACE_NUMBER)%nat)
          by (rewrite <- (reg_c_len _ _ _ Hreg); by eapply lookup_lt_Some).
        apply Hkeep; [| done | by eapply reg_stack].
        intros _ Hin. apply Hne. by eapply (reg_disjoint _ _ _ Hreg).
    - intros i p Hp. destruct (decide (w = i)) as [<- | Hne].
      + rewrite list_lookup_insert_eq in Hp by (by eapply lookup_lt_Some).
        injection Hp as <-. by rewrite fn_lookup_insert.
      + rewrite list_lookup_insert_ne in Hp by done.
        rewrite fn_lookup_insert_ne by done.
        assert (Hi : (i < WORKSPACE_NUMBER)%nat)
          by (rewrite <- (reg_f_len _ _ _ Hreg); by eapply lookup_lt_Some).
        apply Hkeep; [done | | by eapply reg_focus].
        intros _ Hin. apply Hne. by eapply (registry_focus_disjoint _ _ _ _ _ _ Hreg).
    - intros i Hi. destruct (decide (w = i)) as [<- | Hne].
      + rewrite !fn_lookup_insert. by apply remove_client_perm, (reg_perm _ _ _ Hreg).
      + rewrite !fn_lookup_insert_ne by done. by apply (reg_perm _ _ _ Hreg).
    - intros i Hi. destruct (decide (w = i)) as [<- | Hne].
      + rewrite fn_lookup_insert. by apply remove_client_NoDup, (reg_nodup _ _ _ Hreg).
      + rewrite fn_lookup_insert_ne by done. by apply (reg_nodup _ _ _ Hreg).
    - assert (Hsub : ∀ i x, x ∈ (<[w := remove_client a (cl w)]> cl) i → x ∈ cl i).
      { intros i x. destruct (decide (w = i)) as [<- | Hne].
        - rewrite fn_lookup_insert, remove_client_elem. tauto.
        - by rewrite fn_lookup_insert_ne. }
      intros i j x Hi Hj Hxi Hxj. eapply (reg_disjoint _ _ _ Hreg); eauto.
    - intros i x c Hi Hx Hc. rewrite <- Hh3 in Hc.
      destruct (same_shape_lookup_inv _ _ _ _ Hshape Hc) as (c0 & Hc0 & ->).
      eapply (reg_ws _ _ _ Hreg); [done | | done].
      destruct (decide (w = i)) as [<- | Hne].
      + rewrite fn_lookup_insert, remove_client_elem in Hx. tauto.
      + by rewrite fn_lookup_insert_ne in Hx. }
  destruct (proj1 (returns_done _ _ _) (update_c_list_same_links _ _ _ Hreg3))
    as ([] & st4 & Hrun4 & Hsl4).
  exists st4. split; [| split; [| split; [| split; [| split]]]].
  - unfold client_delete. erewrite bind_deref by eassumption.
    rewrite Hws. destruct (Z.eqb_spec (Z.of_nat w) (-1)) as [? | _]; [lia |].
    erewrite bind_done by exact Hrun1.
    erewrite bind_done by exact Hrun2.
    erewrite bind_done by
      (apply (head_get_exec Next); cbn; apply list_lookup_insert_eq;
       by eapply lookup_lt_Some).
    fold st1 st2. unfold st3 in Hrun4.
    destruct (ptr_eqb hd1 None); [rewrite bind_put | rewrite bind_ret]; exact Hrun4.
  - by eapply same_links_registry.
  - eapply same_shape_trans; [exact Hshape |]. by apply same_links_shape.
  - rewrite (sl_f_client _ _ Hsl4).
    pose proof (is_list_nil_iff _ _ _ _ Hl1) as Hnil.
    unfold st3. destruct hd1 as [x |].
    + rewrite ptr_eqb_neq by done.
      destruct (decide (remove_client a (cl w) = [])) as [He | _]; [| done].
      apply Hnil in He. discriminate.
    + rewrite ptr_eqb_refl.
      destruct (decide (remove_client a (cl w) = [])) as [_ | Hne]; [done |].
      destruct Hne. by apply Hnil.
  - intros Hne. rewrite (sl_c_list _ _ Hsl4), Hc3.
    rewrite list_lookup_insert_eq by (by eapply lookup_lt_Some).
    rewrite Hhd. f_equal. apply Hhead1. intros ->. by apply Hne.
  - intros i Hi. rewrite (sl_c_list _ _ Hsl4), Hc3.
    by rewrite list_lookup_insert_ne.
Qed.

Lemma registry_ext st cl fl cl' fl' :
  (∀ i, cl' i = cl i) → (∀ i, fl' i = fl i) →
  registry st cl fl → registry st cl' fl'.
Proof.
  intros Hc Hf []. split; try done; intros *; rewrite ?Hc, ?Hf; eauto.
Qed.

Lemma move_to_front_scan_spec (fuel : nat) a b l p st :
  is_seg Next (heap st) p (l ++ [b]) (Some a) →
  a ∉ l ++ [b] →
  (length l < fuel)%nat →
  move_to_front_scan fuel (Some a) p st = Done (Some b) st.
Proof.
  forget_parameters.
  revert fuel p. induction l as [|x l IH]; intros fuel p Hseg Hnot Hfuel;
    (destruct fuel as [|fuel]; [cbn in Hfuel; lia |]).
  - destruct Hseg as (-> & cb & Hcb & Hq). cbn in Hq. cbn [move_to_front_scan].
    erewrite bind_deref by eassumption.
    rewrite Hq, ptr_eqb_refl, ptr_eqb_neq by done. reflexivity.
  - destruct Hseg as (-> & cx & Hcx & Hrest). cbn [move_to_front_scan].
    erewrite bind_deref by eassumption.
    assert (∃ y, next cx = Some y ∧ y ∈ l ++ [b]) as (y & Hy & Hyin).
    { destruct l as [|y l]; cbn in Hrest; destruct Hrest as (Hy & _);
        exists (default b (next cx)); rewrite Hy; cbn;
        (split; [done |]); rewrite ?elem_of_cons; tauto. }
    assert (Hya : y ≠ a).
    { intros ->. apply Hnot. cbn. apply elem_of_cons. by right. }
    rewrite Hy, !ptr_eqb_neq by congruence. cbn [negb].
    rewrite <- Hy. apply IH; [done | | cbn in Hfuel; lia].
    intros Hin. apply Hnot. cbn. apply elem_of_cons. by right.
Qed.

(** [client_move_to_front] of a client of the registry: the client becomes
    the first of the stacking list of its workspace; the focus lists are not
    touched. *)
Lemma client_move_to_front_spec a (w : nat) st cl fl :
  registry st cl fl →
  (w < WORKSPACE_NUMBER)%nat →
  a ∈ cl w →
  ∃ st',
    client_move_to_front (Some a) st = Done tt st' ∧
    registry st' (<[w := a :: remove_client a (cl w)]> cl) fl ∧
    same_shape st st' ∧
    f_client st' = f_client st ∧ f_list st' = f_list st ∧ xlog st' = xlog st.
Proof.
  forget_parameters.
  intros Hreg Hw Ha.
  destruct (registry_alloc _ _ _ _ _ Hreg Hw Ha) as (ca & Hca & Hws).
  destruct (lookup_lt_is_Some_2 (c_list st) w) as [hd Hhd];
    [by rewrite (reg_c_len _ _ _ Hreg) |].
  pose proof (reg_stack _ _ _ Hreg _ _ Hhd) as Hl.
  pose proof (reg_nodup _ _ _ Hreg w Hw) as Hnd.
  pose proof (is_list_length _ _ _ _ Hl) as Hlen.
  unfold client_move_to_front. erewrite bind_deref by eassumption.
  rewrite Hws. destruct (Z.eqb_spec (Z.of_nat w) (-1)) as [? | _]; [lia |].
  erewrite bind_done by (by apply (head_get_exec Next)).
  apply list_elem_of_split in Ha as (l0 & l2 & Hsplit).
  rewrite Hsplit in Hl, Hnd, Hlen.
  destruct (NoDup_split_at _ _ _ Hnd) as [Hn0 Hn2].
  destruct l0 as [|b l1 _] using rev_ind.
  - (* already at the front *)
    destruct Hl as (-> & _). rewrite ptr_eqb_refl.
    exists st. split; [done |]. split; [| by split; [apply same_shape_refl |]].
    eapply registry_ext; [| done | exact Hreg].
    intros i. destruct (decide (w = i)) as [<- | Hne].
    + rewrite fn_lookup_insert, Hsplit.
      by rewrite (remove_client_split a [] l2).
    + by rewrite fn_lookup_insert_ne.
  - rewrite <- app_assoc in Hl, Hlen. cbn in Hl.
    pose proof Hl as Hl'.
    apply (is_seg_app Next) in Hl' as (r & Hseg1 & Hrest).
    destruct Hrest as (-> & cb & Hcb & Hrest).
    destruct Hrest as (Hnext & c & Hc & Hl2).
    rewrite Hca in Hc. injection Hc as <-.
    assert (Hb1 : b ∉ l1).
    { apply NoDup_app in Hnd as (Hnd' & _). apply NoDup_app in Hnd' as (_ & Hd & _).
      intros Hin. apply (Hd b Hin). apply elem_of_cons. by left. }
    assert (Hb2 : b ∉ l2).
    { apply NoDup_app in Hnd as (_ & Hd & _). intros Hin.
      apply (Hd b); [apply elem_of_app; right; apply elem_of_cons; by left |].
      apply elem_of_cons. by right. }
    assert (Hba : b ≠ a).
    { intros ->. apply Hn0. apply elem_of_app. right. apply elem_of_cons. by left. }
    assert (Hhda : hd ≠ Some a).
    { destruct l1; cbn in Hseg1; [rewrite Hseg1 | destruct Hseg1 as (-> & _)];
        intros [= ->]; apply Hn0; rewrite elem_of_app, !elem_of_cons; tauto. }
    assert (Hhd_next : ∃ hc, heap st !! default a (hd) = Some hc ∧ hd ≠ None ∧
                             next hc ≠ None).
    { destruct l1 as [|x l1]; cbn in Hseg1.
      - subst hd. exists cb. cbn. split; [done |]. split; [done |].
        cbn in Hnext. by rewrite Hnext.
      - destruct Hseg1 as (-> & cx & Hcx & Hrest). exists cx. cbn.
        split; [done |]. split; [done |].
        destruct l1; cbn in Hrest; [by rewrite Hrest | by destruct Hrest as (-> & _)]. }
    destruct Hhd_next as (hc & Hhc & Hhdn & Hnn).
    destruct hd as [x |]; [cbn in Hhc | done].
    rewrite (ptr_eqb_neq _ _ Hhda).
    erewrite bind_deref by eassumption.
    rewrite (ptr_eqb_neq _ _ Hnn). rewrite traversal_bound_exec.
    erewrite bind_done by
      (apply move_to_front_scan_spec with (l := l1);
       [by apply is_seg_snoc; exists cb | done |
        rewrite !length_app in Hlen; cbn in Hlen; lia]).
    unfold unlink_after. rewrite bind_assoc. erewrite bind_deref by eassumption.
    rewrite bind_assoc. cbn [link_get] in Hnext |- *. rewrite Hnext.
    erewrite bind_deref by eassumption.
    erewrite bind_assign by eassumption.
    set (h1 := <[b := set_next (next ca) cb]> (heap st)).
    erewrite bind_done by (by apply (head_get_exec Next)).
    erewrite bind_assign by (cbn; unfold h1; by rewrite lookup_insert_ne).
    cbn [heap set_heap]. fold h1.
    set (h2 := <[a := set_next (Some x) ca]> h1).
    eexists. split.
    { apply (head_set_exec Next). cbn. by eapply lookup_lt_Some. }
    cbn.
    assert (Hsh : same_shape st (set_c_list (<[w := Some a]> (c_list st))
                                   (set_heap h2 (set_heap h1 st)))).
    { apply same_shape_trans with (set_heap h1 st).
      - by eapply (same_shape_insert b cb (set_next (next ca) cb)).
      - eapply (same_shape_insert a ca (set_next (Some x) ca)); try done.
        cbn. unfold h1. by rewrite lookup_insert_ne. }
    assert (Hkeep : ∀ k p l, (k = Next → (b ∉ l) ∧ (a ∉ l)) →
                    is_list k (heap st) p l → is_list k h2 p l).
    { intros k p l Hk Hlk.
      apply (is_list_relink Next k h1 a ca); [unfold h1; by rewrite lookup_insert_ne | |].
      { destruct k; [right; by apply Hk | by left]. }
      apply (is_list_relink Next k); [done | | done].
      destruct k; [right; by apply Hk | by left]. }
    split; [split; cbn | by split].
    + by rewrite length_insert, (reg_c_len _ _ _ Hreg).
    + by apply (reg_f_len _ _ _ Hreg).
    + intros i p Hp. destruct (decide (w = i)) as [<- | Hne].
      * rewrite list_lookup_insert_eq in Hp by (by eapply lookup_lt_Some).
        injection Hp as <-. rewrite fn_lookup_insert, Hsplit.
        rewrite (remove_client_split a (l1 ++ [b]) l2) by done.
        split; [done |]. eexists. split; [apply lookup_insert_eq |]. cbn.
        apply (is_list_relink Next Next h1 a ca);
          [unfold h1; by rewrite lookup_insert_ne | right |].
        { rewrite !elem_of_app, elem_of_cons, elem_of_nil.
          rewrite elem_of_app, elem_of_cons, elem_of_nil in Hn0. tauto. }
        rewrite <- app_assoc. apply (is_seg_app Next). exists (Some b). split.
        { eapply is_seg_update; [exact Hcb | by intros ? | done]. }
        cbn. split; [done |]. eexists. split; [apply lookup_insert_eq |]. cbn.
        eapply is_seg_update; [exact Hcb | by intros ? | done].
      * rewrite list_lookup_insert_ne in Hp by done.
        rewrite fn_lookup_insert_ne by done.
        assert (Hi : (i < WORKSPACE_NUMBER)%nat)
          by (rewrite <- (reg_c_len _ _ _ Hreg); by eapply lookup_lt_Some).
        apply Hkeep; [| by eapply reg_stack].
        intros _. split; intros Hin; apply Hne; eapply (reg_disjoint _ _ _ Hreg);
          try exact Hin; try done; rewrite Hsplit, !elem_of_app, !elem_of_cons; tauto.
    + intros i p Hp. apply Hkeep; [done |]. by eapply reg_focus.
    + intros i Hi. destruct (decide (w = i)) as [<- | Hne].
      * rewrite fn_lookup_insert, <- (reg_perm _ _ _ Hreg w Hw), Hsplit.
        rewrite (remove_client_split a (l1 ++ [b]) l2) by done.
        by rewrite Permutation_middle.
      * rewrite fn_lookup_insert_ne by done. by apply (reg_perm _ _ _ Hreg).
    + intros i Hi. destruct (decide (w = i)) as [<- | Hne].
      * rewrite fn_lookup_insert. constructor.
        -- rewrite remove_client_elem. tauto.
        -- by apply remove_client_NoDup, (reg_nodup _ _ _ Hreg).
      * rewrite fn_lookup_insert_ne by done. by apply (reg_nodup _ _ _ Hreg).
    + assert (Hsub : ∀ i y, y ∈ (<[w := a :: remove_client a (cl w)]> cl) i → y ∈ cl i).
      { intros i y. destruct (decide (w = i)) as [<- | Hne].
        - rewrite fn_lookup_insert, elem_of_cons, remove_client_elem.
          intros [-> | [_ ?]]; [| done].
          rewrite Hsplit, !elem_of_app, !elem_of_cons. tauto.
        - by rewrite fn_lookup_insert_ne. }
      intros i j y Hi Hj Hyi Hyj. eapply (reg_disjoint _ _ _ Hreg); eauto.
    + intros i y c Hi Hy Hc.
      destruct (same_shape_lookup_inv _ _ _ _ Hsh Hc) as (c0 & Hc0 & ->).
      eapply (reg_ws _ _ _ Hreg); [done | | done].
      destruct (decide (w = i)) as [<- | Hne].
      * rewrite fn_lookup_insert, elem_of_cons, remove_client_elem in Hy.
        destruct Hy as [-> | [_ ?]]; [| done].
        rewrite Hsplit, !elem_of_app, !elem_of_cons. tauto.
      * by rewrite fn_lookup_insert_ne in Hy.
Qed.

Lemma registry_ext_lt st cl fl cl' fl' :
  (∀ i, (i < WORKSPACE_NUMBER)%nat → cl' i = cl i) →
  (∀ i, (i < WORKSPACE_NUMBER)%nat → fl' i = fl i) →
  registry st cl fl → registry st cl' fl'.
Proof.
  intros Hc Hf Hreg. pose proof Hreg as [].
  assert (Hlt : ∀ i p, c_list st !! i = Some p → (i < WORKSPACE_NUMBER)%nat).
  { intros i p Hp. rewrite <- reg_c_len0. by eapply lookup_lt_Some. }
  assert (Hlt' : ∀ i p, f_list st !! i = Some p → (i < WORKSPACE_NUMBER)%nat).
  { intros i p Hp. rewrite <- reg_f_len0. by eapply lookup_lt_Some. }
  split; try done.
  - intros i p Hp. rewrite Hc by eauto. eauto.
  - intros i p Hp. rewrite Hf by eauto. eauto.
  - intros i Hi. rewrite Hc, Hf by done. eauto.
  - intros i Hi. rewrite Hc by done. eauto.
  - intros i j a Hi Hj. rewrite !Hc by done. eauto.
  - intros i a c Hi. rewrite Hc by done. eauto.
Qed.

(** ** The membership invariant *)

Lemma registry_dual_membership st cl fl : registry st cl fl → dual_membership st.
Proof.
  intros Hreg.
  assert (Hrc : ∀ i p a, c_list st !! i = Some p →
                 (reachable Next (heap st) p a ↔ a ∈ cl i)).
  { intros i p a Hp. apply is_list_reachable. by eapply reg_stack. }
  assert (Hrf : ∀ i p a, f_list st !! i = Some p →
                 (reachable FNext (heap st) p a ↔ a ∈ fl i)).
  { intros i p a Hp. apply is_list_reachable. by eapply reg_focus. }
  assert (Hlt : ∀ i p, c_list st !! i = Some p → (i < WORKSPACE_NUMBER)%nat).
  { intros i p Hp. rewrite <- (reg_c_len _ _ _ Hreg). by eapply lookup_lt_Some. }
  assert (Hlt' : ∀ i p, f_list st !! i = Some p → (i < WORKSPACE_NUMBER)%nat).
  { intros i p Hp. rewrite <- (reg_f_len _ _ _ Hreg). by eapply lookup_lt_Some. }
  split; [| split].
  - intros i p q a Hp Hq. rewrite (Hrc _ _ _ Hp), (Hrf _ _ _ Hq).
    by rewrite (reg_perm _ _ _ Hreg i (Hlt _ _ Hp)).
  - intros i j p q a Hp Hq. rewrite (Hrc _ _ _ Hp), (Hrc _ _ _ Hq).
    apply (reg_disjoint _ _ _ Hreg); eauto.
  - intros i j p q a Hp Hq. rewrite (Hrf _ _ _ Hp), (Hrf _ _ _ Hq).
    apply (registry_focus_disjoint _ _ _ _ _ _ Hreg); eauto.
Qed.

(** With every list empty, as at startup, the registry is well formed. *)
Lemma registry_init st :
  c_list st = replicate WORKSPACE_NUMBER None →
  f_list st = replicate WORKSPACE_NUMBER None →
  registry st (λ _, []) (λ _, []).
Proof.
  intros Hc Hf. split; rewrite ?Hc, ?Hf, ?length_replicate; try done.
  - intros i p [-> _]%lookup_replicate. done.
  - intros i p [-> _]%lookup_replicate. done.
  - intros. constructor.
  - intros i j a _ _ Ha. by inversion Ha.
  - intros i a c _ Ha. by inversion Ha.
Qed.

Lemma registry_op_spec st cl fl op :
  registry st cl fl → op_ready st cl op →
  ∃ st', run_op op st = Done tt st' ∧
         registry st' (stack_after cl op) (focus_after fl op) ∧
         same_shape st st'.
Proof.
  intros Hreg Hready. destruct op as [a w | a | a]; cbn in Hready.
  - destruct Hready as (Hw & (ca & Hca & Hws) & Hfresh).
    destruct (client_save_spec a ca w st cl fl) as (st' & Hrun & Hreg' & Hsh & _);
      try done.
    exists st'. split; [done |]. split; [| done].
    eapply registry_ext; [| | exact Hreg']; intros i; cbn;
      destruct (decide (w = i)) as [<- | Hne];
      by rewrite ?fn_lookup_insert, ?fn_lookup_insert_ne.
  - destruct Hready as (w & Hw & Ha).
    destruct (client_delete_spec a w st cl fl) as (st' & Hrun & Hreg' & Hsh & _);
      try done.
    exists st'. split; [done |]. split; [| done].
    assert (Hother : ∀ i, (i < WORKSPACE_NUMBER)%nat → i ≠ w → a ∉ cl i).
    { intros i Hi Hne Hin. apply Hne. by eapply (reg_disjoint _ _ _ Hreg). }
    split; try apply Hreg'.
    + intros i p Hp.
      assert (Hi : (i < WORKSPACE_NUMBER)%nat)
        by (rewrite <- (reg_c_len _ _ _ Hreg'); by eapply lookup_lt_Some).
      pose proof (reg_stack _ _ _ Hreg' _ _ Hp) as Hl. cbn.
      destruct (decide (w = i)) as [<- | Hne].
      * by rewrite fn_lookup_insert in Hl.
      * rewrite fn_lookup_insert_ne in Hl by done.
        rewrite remove_client_notin; [done | by apply Hother].
    + intros i p Hp.
      assert (Hi : (i < WORKSPACE_NUMBER)%nat)
        by (rewrite <- (reg_f_len _ _ _ Hreg'); by eapply lookup_lt_Some).
      pose proof (reg_focus _ _ _ Hreg' _ _ Hp) as Hl. cbn.
      destruct (decide (w = i)) as [<- | Hne].
      * by rewrite fn_lookup_insert in Hl.
      * rewrite fn_lookup_insert_ne in Hl by done.
        rewrite remove_client_notin; [done |].
        rewrite <- (reg_perm _ _ _ Hreg i Hi). by apply Hother.
    + intros i Hi. cbn. by apply remove_client_perm, (reg_perm _ _ _ Hreg).
    + intros i Hi. cbn. by apply remove_client_NoDup, (reg_nodup _ _ _ Hreg).
    + intros i j x Hi Hj. cbn. rewrite !remove_client_elem.
      intros [_ ?] [_ ?]. by eapply (reg_disjoint _ _ _ Hreg).
    + intros i x c Hi. cbn. rewrite remove_client_elem. intros [Hne Hx] Hc.
      destruct (same_shape_lookup_inv _ _ _ _ Hsh Hc) as (c0 & Hc0 & ->).
      by eapply (reg_ws _ _ _ Hreg).
  - destruct Hready as (w & Hw & Ha).
    destruct (client_move_to_front_spec a w st cl fl)
      as (st' & Hrun & Hreg' & Hsh & _); try done.
    exists st'. split; [done |]. split; [| done].
    eapply registry_ext_lt; [| | exact Hreg']; intros i Hi; cbn; [| done].
    destruct (decide (w = i)) as [<- | Hne].
    + rewrite fn_lookup_insert. by rewrite decide_True.
    + rewrite fn_lookup_insert_ne by done.
      destruct (decide (a ∈ cl i)) as [Hin | _]; [| done].
      destruct Hne. by eapply (reg_disjoint _ _ _ Hreg).
Qed.

Lemma registry_unique st cl fl cl' fl' (i : nat) :
  registry st cl fl → registry st cl' fl' → (i < WORKSPACE_NUMBER)%nat →
  cl' i = cl i ∧ fl' i = fl i.
Proof.
  intros H1 H2 Hi.
  destruct (lookup_lt_is_Some_2 (c_list st) i) as [p Hp];
    [by rewrite (reg_c_len _ _ _ H1) |].
  destruct (lookup_lt_is_Some_2 (f_list st) i) as [q Hq];
    [by rewrite (reg_f_len _ _ _ H1) |].
  split.
  - eapply is_list_inj; [by eapply (reg_stack _ _ _ H2) | by eapply (reg_stack _ _ _ H1)].
  - eapply is_list_inj; [by eapply (reg_focus _ _ _ H2) | by eapply (reg_focus _ _ _ H1)].
Qed.

(** C4 — membership invariant of the client registry.  From a well-formed
    registry, each of [client_save], [client_delete] and
    [client_move_to_front], called on a client as its callers do, terminates
    in a well-formed registry: in every workspace the stacking list and the
    focus list reach the same clients, and no client is reached from the
    lists of two workspaces (or twice from one list).  The order of the two
    lists is not related: [client_move_to_front] reorders only the stacking
    list. *)
Theorem registry_operation_keeps_membership (st : wm_state) (cl fl : nat → list addr)
    (op : registry_op) :
  registry st cl fl →
  op_ready st cl op →
  ∃ st',
    run_op op st = Done tt st' ∧
    registry st' (stack_after cl op) (focus_after fl op) ∧
    dual_membership st'.
Proof.
  intros Hreg Hready.
  destruct (registry_op_spec st cl fl op Hreg Hready) as (st' & Hrun & Hreg' & _).
  exists st'. split; [done |]. split; [done |].
  by eapply registry_dual_membership.
Qed.

Lemma later_registered a (w : nat) st st' :
  later a st st' →
  (w < WORKSPACE_NUMBER)%nat →
  (∃ cl fl, registry st cl fl ∧ a ∈ cl w) →
  ∃ cl fl, registry st' cl fl ∧ a ∈ cl w.
Proof.
  intros Hlater Hw. induction Hlater as [st | st op st1 st2 cl fl Hreg Hready Hop Hrun _ IH];
    [done |].
  intros (cl0 & fl0 & Hreg0 & Ha). apply IH.
  destruct (registry_unique _ _ _ _ _ w Hreg0 Hreg Hw) as [Hcl _].
  rewrite <- Hcl in Ha.
  destruct (registry_op_spec st cl fl op Hreg Hready) as (st1' & Hrun' & Hreg1 & _).
  rewrite Hrun in Hrun'. injection Hrun' as <-.
  exists (stack_after cl op), (focus_after fl op). split; [done |].
  destruct op as [b w' | b | b]; cbn.
  - destruct (decide (w' = w)); [apply elem_of_cons; by right | done].
  - apply remove_client_elem. split; [| done]. intros ->. by apply Hop.
  - destruct (decide (b ∈ cl w)); [| done].
    destruct (decide (a = b)) as [-> | Hne]; [apply elem_of_cons; by left |].
    apply elem_of_cons. right. by apply remove_client_elem.
Qed.

(** C5 — save, then delete.  A client saved to workspace [w] and deleted
    after any sequence of registry operations that does not delete it is,
    after the delete, unreachable from the stacking list and from the focus
    list of [w] (and of every other workspace); the delete replaces the head
    of the stacking list of [w] only if the client was that head, and leaves
    the heads of the other workspaces alone.  Both calls terminate. *)
Theorem save_then_delete (st0 : wm_state) (cl fl : nat → list addr) (a : addr) (w : nat) :
  registry st0 cl fl →
  op_ready st0 cl (OpSave a w) →
  ∃ st1,
    client_save (Some a) (Z.of_nat w) st0 = Done tt st1 ∧
    ∀ st2, later a st1 st2 →
      ∃ st3,
        client_delete (Some a) st2 = Done tt st3 ∧
        (∀ (i : nat) p, c_list st3 !! i = Some p → ¬ reachable Next (heap st3) p a) ∧
        (∀ (i : nat) q, f_list st3 !! i = Some q → ¬ reachable FNext (heap st3) q a) ∧
        (c_list st3 !! w ≠ c_list st2 !! w → c_list st2 !! w = Some (Some a)) ∧
        (∀ i : nat, i ≠ w → c_list st3 !! i = c_list st2 !! i).
Proof.
  forget_parameters.
  intros Hreg Hready.
  destruct (registry_op_spec st0 cl fl _ Hreg Hready) as (st1 & Hrun1 & Hreg1 & _).
  exists st1. split; [exact Hrun1 |]. intros st2 Hlater.
  pose proof Hready as (Hw & _).
  destruct (later_registered a w st1 st2 Hlater Hw) as (cl2 & fl2 & Hreg2 & Ha2).
  { eexists _, _. split; [exact Hreg1 |]. cbn. rewrite decide_True by done.
    apply elem_of_cons. by left. }
  destruct (client_delete_spec a w st2 cl2 fl2 Hreg2 Hw Ha2)
    as (st3 & Hrun3 & Hreg3 & _ & _ & Hhead & Hothers).
  exists st3. split; [exact Hrun3 |].
  assert (Hgone : ∀ i, (i < WORKSPACE_NUMBER)%nat →
                  a ∉ (<[w := remove_client a (cl2 w)]> cl2) i).
  { intros i Hi. destruct (decide (w = i)) as [<- | Hne].
    - rewrite fn_lookup_insert, remove_client_elem. tauto.
    - rewrite fn_lookup_insert_ne by done. intros Hin. apply Hne.
      by eapply (reg_disjoint _ _ _ Hreg2). }
  split; [| split; [| split]].
  - intros i p Hp.
    rewrite (is_list_reachable _ _ _ _ a (reg_stack _ _ _ Hreg3 _ _ Hp)).
    apply Hgone. rewrite <- (reg_c_len _ _ _ Hreg3). by eapply lookup_lt_Some.
  - intros i q Hq.
    assert (Hi : (i < WORKSPACE_NUMBER)%nat)
      by (rewrite <- (reg_f_len _ _ _ Hreg3); by eapply lookup_lt_Some).
    rewrite (is_list_reachable _ _ _ _ a (reg_focus _ _ _ Hreg3 _ _ Hq)).
    rewrite <- (reg_perm _ _ _ Hreg3 i Hi). by apply Hgone.
  - intros Hne. destruct (decide (c_list st2 !! w = Some (Some a))) as [|Hna]; [done |].
    destruct Hne. by apply Hhead.
  - exact Hothers.
Qed.

(** ** Focus transfer on a well-formed registry *)

Lemma registry_congr st st' cl fl :
  heap st' = heap st → c_list st' = c_list st → f_list st' = f_list st →
  registry st cl fl → registry st' cl fl.
Proof. intros Hh Hc Hf []. split; rewrite ?Hh, ?Hc, ?Hf; done. Qed.

Lemma same_shape_congr st st' :
  heap st' = heap st → m_list st' = m_list st → ws_m_list st' = ws_m_list st →
  conf st' = conf st → curr_ws st' = curr_ws st → same_shape st st'.
Proof.
  intros Hh ? ? ? ?. split; try done. intros a. rewrite Hh.
  destruct (heap st !! a); by constructor.
Qed.

Lemma focus_registered_alloc st cl fl a :
  registry st cl fl → focus_registered st cl → f_client st = Some a →
  is_Some (heap st !! a).
Proof.
  intros Hreg Hfoc Hf. destruct (Hfoc a Hf) as (i & Hi & Ha).
  destruct (registry_alloc _ _ _ _ _ Hreg Hi Ha) as (c & Hc & _). by exists c.
Qed.

(** [client_manage_focus] on a client of the registry: the client becomes
    the focused client and the first of the stacking list of its
    workspace. *)
Lemma client_manage_focus_spec a (w : nat) st cl fl :
  registry st cl fl →
  focus_registered st cl →
  (w < WORKSPACE_NUMBER)%nat →
  a ∈ cl w →
  returns (client_manage_focus (Some a)) st (λ _ st',
    registry st' (<[w := a :: remove_client a (cl w)]> cl) fl ∧
    same_shape st st' ∧ f_client st' = Some a ∧ f_list st' = f_list st).
Proof.
  intros Hreg Hfoc Hw Ha.
  destruct (registry_alloc _ _ _ _ _ Hreg Hw Ha) as (ca & Hca & Hws).
  unfold client_manage_focus.
  apply returns_bind, returns_read.
  rewrite (ptr_eqb_neq (Some a) None) by done. cbn [negb andb].
  (* the previously focused client *)
  eapply returns_bind_same_links with (st0 := st); [apply same_links_refl | |].
  { destruct (f_client st) as [fc |] eqn:Hfc.
    - rewrite ptr_eqb_neq by done. cbn [negb].
      apply returns_bind, returns_read.
      sl_step ltac:(apply client_set_color_same_links;
                    by eapply focus_registered_alloc).
      sl_step ltac:(apply manage_xsend_icccm_same_links;
                    eapply same_links_alloc; [done | by exists ca]).
      by apply returns_ret.
    - rewrite ptr_eqb_refl. apply returns_ret, same_links_refl. }
  intros _ st1 H1.
  assert (Ha1 : ∀ st', same_links st st' → is_Some (heap st' !! a)).
  { intros st' H. eapply same_links_alloc; [done | by exists ca]. }
  apply returns_bind, returns_read.
  eapply returns_bind_same_links; [exact H1 | by apply client_set_color_same_links, Ha1 |].
  intros _ st2 H2.
  eapply returns_bind_same_links; [exact H2 | |].
  { apply client_raise_same_links. intros ? [= <-]. by apply Ha1. }
  intros _ st3 H3.
  eapply returns_bind_same_links;
    [exact H3 | by apply client_set_input_same_links, Ha1 |].
  intros _ st4 H4.
  apply returns_bind, returns_read.
  eapply returns_bind_same_links; [exact H4 | apply xsend_same_links |].
  intros _ st5 H5.
  apply returns_bind, returns_put.
  set (st6 := set_f_client (Some a) st5).
  assert (Hreg6 : registry st6 cl fl).
  { apply (registry_congr st5); try done. by eapply same_links_registry. }
  assert (Hsh6 : same_shape st st6).
  { eapply same_shape_trans; [by apply same_links_shape |].
    by apply same_shape_congr. }
  apply returns_bind_deref; [by apply (Ha1 st5) |]. intros c6 Hc6.
  apply returns_bind, returns_xsend.
  set (st7 := set_xlog _ st6).
  assert (Hreg7 : registry st7 cl fl) by (by apply (registry_congr st6)).
  destruct (client_move_to_front_spec a w st7 cl fl Hreg7 Hw Ha)
    as (st8 & Hrun8 & Hreg8 & Hsh8 & Hf8 & Hfl8 & _).
  eapply returns_bind_run; [exact Hrun8 |].
  apply returns_bind.
  eapply returns_conseq.
  { apply manage_xsend_icccm_same_links.
    destruct (same_shape_lookup _ _ _ _ Hsh8 Hc6) as (c8 & Hc8 & _). by exists c8. }
  intros b9 st9 H9. cbn beta in H9. apply returns_ret.
  split; [by eapply same_links_registry |].
  split; [| split].
  - eapply same_shape_trans; [exact Hsh6 |].
    eapply same_shape_trans; [by apply (same_shape_congr st6 st7) |].
    eapply same_shape_trans; [exact Hsh8 | by apply same_links_shape].
  - by rewrite (sl_f_client _ _ H9), Hf8.
  - rewrite (sl_f_list _ _ H9), Hfl8. cbn. by rewrite (sl_f_list _ _ H5).
Qed.

Lemma remove_client_head a l : a ∉ l → remove_client a (a :: l) = l.
Proof. intros H. apply (remove_client_split a [] l); [apply not_elem_of_nil | done]. Qed.

Lemma returns_assoc {A B C} (m : wm A) (f : A → wm B) (g : B → wm C) st Q :
  returns (m ≫= λ a, f a ≫= g) st Q → returns ((m ≫= f) ≫= g) st Q.
Proof. unfold returns. by rewrite bind_assoc. Qed.

Lemma is_list_head k h p l a :
  is_list k h p l → a ∈ l → ∃ b, p = Some b ∧ b ∈ l.
Proof.
  destruct l as [|b l]; [by intros _ ?%elem_of_nil |].
  intros (-> & _) _. exists b. split; [done |]. apply elem_of_cons. by left.
Qed.

Lemma is_list_successor k h p l a ca b :
  is_list k h p l → a ∈ l → h !! a = Some ca → link_get k ca = Some b → b ∈ l.
Proof.
  forget_parameters.
  intros Hl Ha Hca Hb. apply list_elem_of_split in Ha as (l1 & l2 & ->).
  apply is_seg_app in Hl as (r & _ & (-> & c & Hc & Hl2)).
  rewrite Hca in Hc. injection Hc as <-. rewrite Hb in Hl2.
  destruct l2 as [|x l2]; [done |]. destruct Hl2 as ([= <-] & _).
  rewrite elem_of_app, !elem_of_cons. tauto.
Qed.

(** [focus_next] on a client of the registry transfers the focus to a
    client of the same workspace. *)
Lemma focus_next_spec a (w : nat) st cl fl :
  registry st cl fl →
  focus_registered st cl →
  (w < WORKSPACE_NUMBER)%nat →
  a ∈ cl w →
  returns (focus_next (Some a)) st (λ _ st', ∃ b,
    b ∈ cl w ∧
    registry st' (<[w := b :: remove_client b (cl w)]> cl) fl ∧
    same_shape st st' ∧ f_client st' = Some b ∧ f_list st' = f_list st).
Proof.
  intros Hreg Hfoc Hw Ha.
  destruct (registry_alloc _ _ _ _ _ Hreg Hw Ha) as (ca & Hca & Hws).
  destruct (lookup_lt_is_Some_2 (f_list st) w) as [fhd Hfhd];
    [by rewrite (reg_f_len _ _ _ Hreg) |].
  pose proof (reg_focus _ _ _ Hreg _ _ Hfhd) as Hfl.
  assert (Haf : a ∈ fl w) by (by rewrite <- (reg_perm _ _ _ Hreg w Hw)).
  destruct (is_list_head _ _ _ _ _ Hfl Haf) as (hb & -> & Hhb).
  assert (Hgo : ∀ b, b ∈ fl w →
            returns (client_manage_focus (Some b)) st (λ _ st', ∃ b,
              b ∈ cl w ∧
              registry st' (<[w := b :: remove_client b (cl w)]> cl) fl ∧
              same_shape st st' ∧ f_client st' = Some b ∧ f_list st' = f_list st)).
  { intros b Hb. rewrite <- (reg_perm _ _ _ Hreg w Hw) in Hb.
    eapply returns_conseq; [by apply (client_manage_focus_spec b w) |].
    intros [] st' H. by exists b. }
  unfold focus_next. rewrite ptr_eqb_neq by done.
  eapply returns_bind_run; [by apply run_deref |]. rewrite Hws.
  eapply returns_bind_run; [by apply (head_get_exec FNext) |].
  destruct (is_seg_alloc _ _ _ _ _ _ Hfl Hhb) as [hc Hhc].
  destruct (decide (hb = a)) as [-> | Hne].
  - rewrite ptr_eqb_refl. apply returns_assoc.
    eapply returns_bind_run; [by apply run_deref |].
    rewrite Hca in Hhc. injection Hhc as <-.
    apply returns_bind, returns_ret.
    destruct (f_next ca) as [b |] eqn:Hnext.
    + rewrite ptr_eqb_neq by done.
      eapply returns_bind_run; [by apply run_deref |].
      rewrite Hnext, ptr_eqb_neq by done.
      apply returns_bind, returns_ret. apply Hgo.
      exact (is_list_successor FNext _ _ _ a ca b Hfl Haf Hca Hnext).
    + rewrite ptr_eqb_refl.
      eapply returns_bind_run; [by apply (head_get_exec FNext) |]. by apply Hgo.
  - rewrite ptr_eqb_neq by congruence.
    apply returns_bind, returns_ret.
    eapply returns_bind_run; [by apply run_deref |].
    destruct (f_next ca) as [b |] eqn:Hnext.
    + rewrite ptr_eqb_neq by done. apply returns_bind, returns_ret. apply Hgo.
      exact (is_list_successor FNext _ _ _ a ca b Hfl Haf Hca Hnext).
    + rewrite ptr_eqb_refl.
      eapply returns_bind_run; [by apply (head_get_exec FNext) |]. by apply Hgo.
Qed.

(** ** Workspace switch *)

Lemma monitors_ok_at st (i : nat) :
  monitors_ok st → (i < WORKSPACE_NUMBER)%nat → ∃ m, monitor_at st (Z.of_nat i) m.
Proof.
  intros [Hlen Hmon] Hi.
  destruct (lookup_lt_is_Some_2 (ws_m_list st) i) as [mon Hm]; [by rewrite Hlen |].
  destruct (Hmon i mon Hm) as (Hpos & m & Hml).
  exists m, mon. rewrite Nat2Z.id. split; [lia | done].
Qed.

Lemma monitors_ok_congr st st' :
  m_list st' = m_list st → ws_m_list st' = ws_m_list st →
  monitors_ok st → monitors_ok st'.
Proof. intros Hm Hw. unfold monitors_ok. by rewrite Hm, Hw. Qed.

Lemma registry_client_ok st cl fl (i : nat) a :
  registry st cl fl → monitors_ok st → (i < WORKSPACE_NUMBER)%nat → a ∈ cl i →
  client_ok st a.
Proof.
  intros Hreg Hmon Hi Ha.
  destruct (registry_alloc _ _ _ _ _ Hreg Hi Ha) as (c & Hc & Hws).
  destruct (monitors_ok_at _ _ Hmon Hi) as [m Hm].
  exists c, m. by rewrite Hws.
Qed.

Lemma registry_head st cl fl (i : nat) p :
  registry st cl fl → c_list st !! i = Some p → p = head (cl i).
Proof.
  intros Hreg Hp. pose proof (reg_stack _ _ _ Hreg _ _ Hp) as Hl.
  destruct (cl i); [done | by destruct Hl as (-> & _)].
Qed.

(** [switch_ws] to a workspace of the table: the workspace becomes current;
    the focus moves to the front client of its stacking list when it has
    one, and stays where it was when the workspace is empty. *)
Lemma switch_ws_spec (w : nat) st cl fl :
  registry st cl fl →
  focus_registered st cl →
  monitors_ok st →
  (w < WORKSPACE_NUMBER)%nat →
  returns (switch_ws (Z.of_nat w)) st (λ _ st',
    registry st' cl fl ∧ monitors_ok st' ∧
    curr_ws st' = Z.of_nat w ∧
    f_client st' = match cl w with [] => f_client st | b :: _ => Some b end).
Proof.
  intros Hreg Hfoc Hmon Hw. unfold switch_ws.
  eapply returns_bind_run; [reflexivity |].
  assert (Hfuel : ∀ i, (i < WORKSPACE_NUMBER)%nat →
                  (length (cl i) ≤ S (size (heap st)))%nat).
  { intros i Hi.
    destruct (lookup_lt_is_Some_2 (c_list st) i) as [p Hp];
      [by rewrite (reg_c_len _ _ _ Hreg) |].
    pose proof (is_list_length _ _ _ _ (reg_stack _ _ _ Hreg _ _ Hp)). lia. }
  eapply returns_bind_same_links with (st0 := st); [apply same_links_refl | |].
  { apply (for_range_same_links _ 0). intros i st1 Hi H1.
    assert (Hreg1 : registry st1 cl fl) by (by eapply same_links_registry).
    assert (Hmon1 : monitors_ok st1).
    { eapply monitors_ok_congr; [apply (sl_m_list _ _ H1) | apply (sl_ws_m_list _ _ H1) | done]. }
    destruct Hmon1 as [Hlen1 Hm1].
    destruct (lookup_lt_is_Some_2 (ws_m_list st1) i) as [mi Hmi]; [rewrite Hlen1; lia |].
    destruct (lookup_lt_is_Some_2 (ws_m_list st1) w) as [mw Hmw]; [rewrite Hlen1; lia |].
    destruct (lookup_lt_is_Some_2 (c_list st1) i) as [hd Hhd];
      [rewrite (reg_c_len _ _ _ Hreg1); lia |].
    pose proof (reg_stack _ _ _ Hreg1 _ _ Hhd) as Hl.
    apply returns_bind, returns_read.
    assert (Hok : ∀ b, b ∈ cl i → client_ok st1 b).
    { intros b Hb. apply (registry_client_ok st1 cl fl i b Hreg1); [by split | lia | done]. }
    destruct (Z.eqb_spec (Z.of_nat i) (Z.of_nat w)) as [Heq | Hne]; cbn [negb].
    - apply returns_bind, returns_ret.
      eapply returns_bind_run; [by apply (head_get_exec Next) |].
      apply (for_clients_same_links client_ok _ _ _ (cl i)); try done.
      + apply Hfuel. lia.
      + intros b s1 s2 Hs. by apply same_links_client_ok.
      + intros b s1 Hb Hal.
        sl_step ltac:(by apply client_show_same_links).
        apply returns_bind_deref; [by eapply same_links_alloc |]. intros tc Htc.
        sl_step ltac:(apply xsend_same_links).
        sl_last ltac:(apply xsend_same_links).
    - apply returns_assoc.
      eapply returns_bind_run; [apply index_exec; [lia | by rewrite Nat2Z.id] |].
      apply returns_assoc.
      eapply returns_bind_run; [apply index_exec; [lia | by rewrite Nat2Z.id] |].
      apply returns_bind, returns_ret.
      destruct (mi =? mw); [| apply returns_ret, same_links_refl].
      eapply returns_bind_run; [by apply (head_get_exec Next) |].
      apply (for_clients_same_links (λ _ _, True) _ _ _ (cl i)); try done.
      + apply Hfuel. lia.
      + intros b s1 _ Hal. by apply client_hide_same_links. }
  intros _ st1 H1.
  assert (Hreg1 : registry st1 cl fl) by (by eapply same_links_registry).
  assert (Hmon1 : monitors_ok st1).
  { eapply monitors_ok_congr; [apply (sl_m_list _ _ H1) | apply (sl_ws_m_list _ _ H1) | done]. }
  apply returns_bind, returns_put.
  set (st2 := set_curr_ws (Z.of_nat w) st1).
  assert (Hreg2 : registry st2 cl fl) by (by apply (registry_congr st1)).
  assert (Hmon2 : monitors_ok st2) by (by apply (monitors_ok_congr st1)).
  assert (Hfoc2 : focus_registered st2 cl).
  { intros b Hb. apply Hfoc. by rewrite <- (sl_f_client _ _ H1). }
  destruct (monitors_ok_at _ _ Hmon2 Hw) as [m Hm].
  eapply returns_bind_run; [by apply monitor_of_exec |].
  apply returns_bind, returns_read. cbn [curr_ws set_curr_ws].
  destruct (lookup_lt_is_Some_2 (c_list st2) w) as [hd Hhd];
    [by rewrite (reg_c_len _ _ _ Hreg2) |].
  eapply returns_bind_run; [by apply (head_get_exec Next) |].
  rewrite (registry_head _ _ _ _ _ Hreg2 Hhd).
  destruct (cl w) as [|b l] eqn:Hclw; cbn [head].
  - apply returns_bind, returns_ret. apply returns_bind, returns_read, returns_xsend.
    split; [by apply (registry_congr st2) |].
    split; [by apply (monitors_ok_congr st2) |]. split; [done |].
    cbn. apply (sl_f_client _ _ H1).
  - eapply returns_bind_with.
    { apply (client_manage_focus_spec b w st2 cl fl); try done.
      rewrite Hclw. apply elem_of_cons. by left. }
    intros [] st3 (Hreg3 & Hsh3 & Hf3 & _).
    apply returns_bind, returns_read, returns_xsend.
    split; [| split; [| split]].
    + apply (registry_congr st3); try done.
      eapply registry_ext_lt; [| | exact Hreg3]; [| done].
      intros i Hi. destruct (decide (w = i)) as [<- | Hne].
      * rewrite fn_lookup_insert, Hclw.
        rewrite remove_client_head; [done |].
        pose proof (reg_nodup _ _ _ Hreg w Hw) as Hnd. rewrite Hclw in Hnd.
        by apply NoDup_cons in Hnd as [? _].
      * by rewrite fn_lookup_insert_ne.
    + eapply monitors_ok_congr; [| | exact Hmon2]; cbn;
        [apply (ss_m_list _ _ Hsh3) | apply (ss_ws_m_list _ _ Hsh3)].
    + cbn. by rewrite (ss_curr_ws _ _ Hsh3).
    + done.
Qed.

(** ** Send to workspace *)

Lemma registry_update_unregistered a c c' st cl fl :
  registry st cl fl →
  heap st !! a = Some c →
  (∀ i, (i < WORKSPACE_NUMBER)%nat → a ∉ cl i) →
  registry (set_heap (<[a := c']> (heap st)) st) cl fl.
Proof.
  intros Hreg Hc Hfresh. pose proof Hreg as [].
  assert (Hlt : ∀ i p, c_list st !! i = Some p → (i < WORKSPACE_NUMBER)%nat).
  { intros i p Hp. rewrite <- reg_c_len0. by eapply lookup_lt_Some. }
  assert (Hlt' : ∀ i p, f_list st !! i = Some p → (i < WORKSPACE_NUMBER)%nat).
  { intros i p Hp. rewrite <- reg_f_len0. by eapply lookup_lt_Some. }
  split; cbn; try done.
  - intros i p Hp. eapply is_seg_update; [exact Hc | | by eapply reg_stack0].
    intros Hin. destruct (Hfresh i (Hlt _ _ Hp) Hin).
  - intros i p Hp. eapply is_seg_update; [exact Hc | | by eapply reg_focus0].
    intros Hin. rewrite <- (reg_perm0 i (Hlt' _ _ Hp)) in Hin.
    destruct (Hfresh i (Hlt' _ _ Hp) Hin).
  - intros i x cx Hi Hx Hcx.
    rewrite lookup_insert_ne in Hcx; [by eapply reg_ws0 |].
    intros <-. by destruct (Hfresh i Hi).
Qed.

Lemma registry_heads_allocated st cl fl : registry st cl fl → heads_allocated st.
Proof.
  intros Hreg i a Hp. pose proof (reg_stack _ _ _ Hreg _ _ Hp) as Hl.
  destruct (cl i) as [|b l]; [done |]. destruct Hl as ([= ->] & c & Hc & _).
  by exists c.
Qed.

Lemma safe_to_focus_returns (w : nat) st :
  length (c_list st) = WORKSPACE_NUMBER →
  length (ws_m_list st) = WORKSPACE_NUMBER →
  (w < WORKSPACE_NUMBER)%nat →
  heads_allocated st →
  ∃ b, safe_to_focus (Z.of_nat w) st = Done b st.
Proof.
  intros Hc Hm Hw Hal. unfold safe_to_focus.
  rewrite bind_read.
  destruct (lookup_lt_is_Some_2 (ws_m_list st) w ltac:(lia)) as [mon Hmon].
  erewrite (bind_done (index _ _)) by
    (unfold index; destruct (Z.ltb_spec (Z.of_nat w) 0); [lia |];
     by rewrite Nat2Z.id, Hmon).
  destruct (safe_to_focus_from_spec st w mon WORKSPACE_NUMBER 0
              ltac:(lia) ltac:(lia) Hal) as (b & Hrun & _).
  by exists b.
Qed.

Lemma monitors_ok_shape st st' : same_shape st st' → monitors_ok st → monitors_ok st'.
Proof.
  intros Hsh. apply monitors_ok_congr; [apply (ss_m_list _ _ Hsh) | apply (ss_ws_m_list _ _ Hsh)].
Qed.

(** [client_send_to_ws] of a client of the registry to a workspace of the
    table: the client ends in the lists of the destination, and the focus
    moves to a client of the source workspace, or is cleared when the source
    workspace is left empty. *)
Lemma client_send_to_ws_spec a (prev w : nat) st cl fl :
  registry st cl fl →
  focus_registered st cl →
  monitors_ok st →
  (prev < WORKSPACE_NUMBER)%nat →
  (w < WORKSPACE_NUMBER)%nat →
  a ∈ cl prev →
  returns (client_send_to_ws (Some a) (Z.of_nat w)) st (λ _ st',
    ∃ cl' fl',
      registry st' cl' fl' ∧ focus_registered st' cl' ∧ monitors_ok st' ∧
      a ∈ cl' w ∧ curr_ws st' = curr_ws st).
Proof.
  forget_parameters.
  intros Hreg Hfoc Hmon Hp Hw Ha.
  destruct (client_delete_spec a prev st cl fl Hreg Hp Ha)
    as (st1 & Hrun1 & Hreg1 & Hsh1 & Hf1 & _).
  set (cl1 := <[prev := remove_client a (cl prev)]> cl) in *.
  set (fl1 := <[prev := remove_client a (fl prev)]> fl) in *.
  destruct (registry_alloc _ _ _ _ _ Hreg Hp Ha) as (ca & Hca & Hws).
  destruct (same_shape_lookup _ _ _ _ Hsh1 Hca) as (ca1 & Hca1 & Hws1).
  assert (Hfresh1 : ∀ i, (i < WORKSPACE_NUMBER)%nat → a ∉ cl1 i).
  { intros i Hi. unfold cl1. destruct (decide (prev = i)) as [<- | Hne].
    - rewrite fn_lookup_insert, remove_client_elem. tauto.
    - rewrite fn_lookup_insert_ne by done. intros Hin. apply Hne.
      by eapply (reg_disjoint _ _ _ Hreg). }
  assert (Hsub1 : ∀ i x, x ≠ a → x ∈ cl i → x ∈ cl1 i).
  { intros i x Hx Hin. unfold cl1. destruct (decide (prev = i)) as [<- | Hne].
    - rewrite fn_lookup_insert, remove_client_elem. tauto.
    - by rewrite fn_lookup_insert_ne. }
  unfold client_send_to_ws.
  eapply returns_bind_run; [exact Hrun1 |].
  eapply returns_bind_run; [by apply run_deref |].
  eapply returns_bind_run; [by eapply run_assign |].
  set (st2 := set_heap (<[a := set_ws (Z.of_nat w) ca1]> (heap st1)) st1).
  assert (Hreg2 : registry st2 cl1 fl1)
    by (by eapply registry_update_unregistered).
  destruct (client_save_spec a (set_ws (Z.of_nat w) ca1) w st2 cl1 fl1 Hreg2 Hw)
    as (st3 & Hrun3 & Hreg3 & Hsh3 & Hf3 & _);
    [apply lookup_insert_eq | done | done |].
  set (cl3 := <[w := a :: cl1 w]> cl1) in *.
  set (fl3 := <[w := a :: fl1 w]> fl1) in *.
  eapply returns_bind_run; [exact Hrun3 |].
  assert (Ha3 : a ∈ cl3 w).
  { unfold cl3. rewrite fn_lookup_insert. apply elem_of_cons. by left. }
  assert (Hsub3 : ∀ i x, x ∈ cl1 i → x ∈ cl3 i).
  { intros i x Hin. unfold cl3. destruct (decide (w = i)) as [<- | Hne].
    - rewrite fn_lookup_insert. apply elem_of_cons. by right.
    - by rewrite fn_lookup_insert_ne. }
  assert (Hmon3 : monitors_ok st3).
  { eapply monitors_ok_shape; [exact Hsh3 |].
    apply (monitors_ok_congr st1); [done | done |]. by eapply monitors_ok_shape. }
  assert (Hcw3 : curr_ws st3 = curr_ws st).
  { rewrite (ss_curr_ws _ _ Hsh3). cbn. apply (ss_curr_ws _ _ Hsh1). }
  assert (Hfoc3 : focus_registered st3 cl3).
  { intros x Hx. rewrite Hf3 in Hx. cbn in Hx. rewrite Hf1 in Hx.
    destruct (decide (remove_client a (cl prev) = [])); [done |].
    destruct (decide (x = a)) as [-> | Hxa]; [by exists w |].
    destruct (Hfoc x Hx) as (i & Hi & Hin). exists i. split; [done |].
    by apply Hsub3, Hsub1. }
  destruct (registry_alloc _ _ _ _ _ Hreg3 Hw Ha3) as (ca3 & Hca3 & Hws3).
  (* hide *)
  eapply returns_bind_with; [by apply client_hide_same_links |].
  intros [] st4 H4. cbn beta in H4.
  assert (Hreg4 : registry st4 cl3 fl3) by (by eapply same_links_registry).
  assert (Hmon4 : monitors_ok st4) by (eapply monitors_ok_shape; [by apply same_links_shape | done]).
  assert (Hfoc4 : focus_registered st4 cl3).
  { intros x Hx. apply Hfoc3. by rewrite <- (sl_f_client _ _ H4). }
  (* focus on the source workspace *)
  rewrite Hws1, Hws.
  destruct (lookup_lt_is_Some_2 (f_list st4) prev) as [fhd Hfhd];
    [by rewrite (reg_f_len _ _ _ Hreg4) |].
  eapply returns_bind_run; [by apply (head_get_exec FNext) |].
  assert (Hfocus : returns (focus_next fhd) st4 (λ _ st5, ∃ cl5,
            registry st5 cl5 fl3 ∧ focus_registered st5 cl5 ∧ same_shape st4 st5 ∧
            ∀ i x, x ∈ cl3 i → x ∈ cl5 i)).
  { destruct fhd as [b |].
    - pose proof (reg_focus _ _ _ Hreg4 _ _ Hfhd) as Hl.
      assert (Hb : b ∈ cl3 prev).
      { rewrite (reg_perm _ _ _ Hreg4 prev Hp).
        destruct (fl3 prev); [done |]. destruct Hl as ([= ->] & _).
        apply elem_of_cons. by left. }
      eapply returns_conseq; [by apply (focus_next_spec b prev st4 cl3 fl3) |].
      intros [] st5 (b' & Hb' & Hreg5 & Hsh5 & Hf5 & _).
      eexists. split; [exact Hreg5 |]. split; [| split; [done |]].
      + intros x Hx. rewrite Hf5 in Hx. injection Hx as <-. exists prev.
        split; [done |]. rewrite fn_lookup_insert. apply elem_of_cons. by left.
      + intros i x Hx. destruct (decide (prev = i)) as [<- | Hne].
        * rewrite fn_lookup_insert.
          destruct (decide (x = b')) as [-> | Hne]; [apply elem_of_cons; by left |].
          apply elem_of_cons. right. by apply remove_client_elem.
        * by rewrite fn_lookup_insert_ne.
    - apply returns_ret. exists cl3. split; [done |]. split; [done |].
      split; [apply same_shape_refl | done]. }
  eapply returns_bind_with; [exact Hfocus |].
  intros [] st5 (cl5 & Hreg5 & Hfoc5 & Hsh5 & Hsub5).
  assert (Hmon5 : monitors_ok st5) by (by eapply monitors_ok_shape).
  (* show when safe *)
  destruct (safe_to_focus_returns w st5) as (safe & Hsafe).
  { by apply (reg_c_len _ _ _ Hreg5). }
  { by destruct Hmon5. }
  { done. }
  { by eapply registry_heads_allocated. }
  eapply returns_bind_run; [exact Hsafe |].
  assert (Ha5 : a ∈ cl5 w) by (by apply Hsub5).
  assert (Hcw5 : curr_ws st5 = curr_ws st).
  { rewrite (ss_curr_ws _ _ Hsh5), (sl_curr_ws _ _ H4). done. }
  destruct safe.
  - eapply returns_conseq.
    { apply client_show_same_links. by eapply (registry_client_ok _ _ _ w). }
    intros [] st6 H6. exists cl5, fl3.
    split; [by eapply same_links_registry |].
    split; [| split; [| split; [done |]]].
    + intros x Hx. apply Hfoc5. by rewrite <- (sl_f_client _ _ H6).
    + eapply monitors_ok_shape; [by apply same_links_shape | done].
    + by rewrite (sl_curr_ws _ _ H6).
  - apply returns_ret. by exists cl5, fl3.
Qed.

(** ** The focused-client reference *)

Lemma focus_registered_own_list st cl fl :
  registry st cl fl → focus_registered st cl → focus_in_own_list st.
Proof.
  intros Hreg Hfoc a Hf. destruct (Hfoc a Hf) as (i & Hi & Ha).
  destruct (registry_alloc _ _ _ _ _ Hreg Hi Ha) as (c & Hc & Hws).
  destruct (lookup_lt_is_Some_2 (c_list st) i) as [p Hp];
    [by rewrite (reg_c_len _ _ _ Hreg) |].
  exists c, i, p. split; [done |]. split; [done |]. split; [done |].
  by apply (is_list_reachable _ _ _ _ _ (reg_stack _ _ _ Hreg _ _ Hp)).
Qed.

(** C3 (amended) — the focused-client reference.  From a well-formed
    registry whose focused client, if any, is registered, and with every
    workspace mapped to a monitor, each of [client_save], [client_delete],
    [client_manage_focus], [client_send_to_ws] and [switch_ws] terminates in
    a state of the same kind: the focused-client reference, when not null,
    points to an allocated client that is in the stacking list of the
    workspace recorded in its own [ws] field.  That workspace need not be the
    current one: [switch_ws] makes its argument current and moves the focus
    to the front client of the destination only when the destination has
    one, and leaves the reference as it was otherwise.  [client_delete]
    clears the reference whenever the stacking list of the workspace of the
    deleted client is empty afterwards. *)
Theorem focus_reference_registered (st : wm_state) (cl fl : nat → list addr)
    (op : focus_op) :
  registry st cl fl →
  focus_registered st cl →
  monitors_ok st →
  focus_op_ready st cl op →
  ∃ st' cl' fl',
    run_focus_op op st = Done tt st' ∧
    registry st' cl' fl' ∧ focus_registered st' cl' ∧ monitors_ok st' ∧
    focus_in_own_list st' ∧
    (∀ a (w : nat), op = FDelete a → a ∈ cl w → (w < WORKSPACE_NUMBER)%nat →
       c_list st' !! w = Some None → f_client st' = None) ∧
    (∀ w : nat, op = FSwitchWs w →
       curr_ws st' = Z.of_nat w ∧
       f_client st' = match cl w with [] => f_client st | b :: _ => Some b end).
Proof.
  intros Hreg Hfoc Hmon Hready.
  destruct op as [a w | a | p | a w | w]; cbn in Hready; cbn [run_focus_op].
  - (* client_save *)
    destruct Hready as (Hw & (ca & Hca & Hws) & Hfresh).
    destruct (client_save_spec a ca w st cl fl) as (st' & Hrun & Hreg' & Hsh & Hf & _);
      try done.
    assert (Hfoc' : focus_registered st' (<[w := a :: cl w]> cl)).
    { intros x Hx. rewrite Hf in Hx. destruct (Hfoc x Hx) as (i & Hi & Hin).
      exists i. split; [done |]. destruct (decide (w = i)) as [<- | Hne].
      - rewrite fn_lookup_insert. apply elem_of_cons. by right.
      - by rewrite fn_lookup_insert_ne. }
    eexists st', _, _. split; [done |].
    split; [done |]. split; [done |]. split; [by eapply monitors_ok_shape |].
    split; [by eapply focus_registered_own_list |]. split; [done |]. done.
  - (* client_delete *)
    destruct Hready as (w & Hw & Ha & Hlast).
    destruct (client_delete_spec a w st cl fl) as (st' & Hrun & Hreg' & Hsh & Hf & _);
      try done.
    assert (Hfoc' : focus_registered st' (<[w := remove_client a (cl w)]> cl)).
    { intros x Hx. rewrite Hf in Hx.
      destruct (decide (remove_client a (cl w) = [])) as [| Hne]; [done |].
      destruct (Hfoc x Hx) as (i & Hi & Hin).
      exists i. split; [done |]. destruct (decide (w = i)) as [<- | Hni].
      - rewrite fn_lookup_insert, remove_client_elem. split; [| done].
        intros ->. by apply Hne, Hlast.
      - by rewrite fn_lookup_insert_ne. }
    eexists st', _, _. split; [done |].
    split; [done |]. split; [done |]. split; [by eapply monitors_ok_shape |].
    split; [by eapply focus_registered_own_list |]. split; [| done].
    intros a' w' [= <-] Ha' Hw' Hnone.
    assert (w' = w) as -> by (by eapply (reg_disjoint _ _ _ Hreg)).
    pose proof (reg_stack _ _ _ Hreg' _ _ Hnone) as Hl.
    rewrite fn_lookup_insert in Hl.
    rewrite Hf, decide_True; [done |]. by apply (is_list_nil_iff _ _ _ _ Hl).
  - (* client_manage_focus *)
    destruct p as [a |].
    + destruct (Hready a eq_refl) as (w & Hw & Ha).
      pose proof (client_manage_focus_spec a w st cl fl Hreg Hfoc Hw Ha) as Hspec.
      apply returns_done in Hspec as ([] & st' & Hrun & Hreg' & Hsh & Hf & _).
      assert (Hfoc' : focus_registered st' (<[w := a :: remove_client a (cl w)]> cl)).
      { intros x Hx. rewrite Hf in Hx. injection Hx as <-. exists w.
        split; [done |]. rewrite fn_lookup_insert. apply elem_of_cons. by left. }
      eexists st', _, _. split; [done |].
      split; [done |]. split; [done |]. split; [by eapply monitors_ok_shape |].
      split; [by eapply focus_registered_own_list |]. split; [done |]. done.
    + exists st, cl, fl. split; [done |].
      split; [done |]. split; [done |]. split; [done |].
      split; [by eapply focus_registered_own_list |]. split; [done |]. done.
  - (* client_send_to_ws *)
    destruct Hready as (Hw & prev & Hp & Ha).
    pose proof (client_send_to_ws_spec a prev w st cl fl Hreg Hfoc Hmon Hp Hw Ha) as Hspec.
    apply returns_done in Hspec
      as ([] & st' & Hrun & cl' & fl' & Hreg' & Hfoc' & Hmon' & _).
    exists st', cl', fl'. split; [done |].
    split; [done |]. split; [done |]. split; [done |].
    split; [by eapply focus_registered_own_list |]. split; [done |]. done.
  - (* switch_ws *)
    pose proof (switch_ws_spec w st cl fl Hreg Hfoc Hmon Hready) as Hspec.
    apply returns_done in Hspec as ([] & st' & Hrun & Hreg' & Hmon' & Hcw & Hf).
    assert (Hfoc' : focus_registered st' cl).
    { intros x Hx. rewrite Hf in Hx. destruct (cl w) as [|b l] eqn:Hclw.
      - by apply Hfoc.
      - injection Hx as <-. exists w. split; [done |]. rewrite Hclw.
        apply elem_of_cons. by left. }
    exists st', cl, fl. split; [done |].
    split; [done |]. split; [done |]. split; [done |].
    split; [by eapply focus_registered_own_list |]. split; [done |].
    intros w' [= <-]. done.
Qed.

(** ** Cardinal focus *)

Lemma cardinal_step_dir d cc tc tmp min r :
  NoDup [EAST; SOUTH; WEST; NORTH] →
  cardinal_step (dir_code d) cc tc tmp min r =
    if on_side d cc tc && (euclidean_distance cc tc <? min)
    then (euclidean_distance cc tc, tmp) else (min, r).
Proof.
  intros Hnd. unfold cardinal_step.
  apply NoDup_cons in Hnd as [H1 Hnd]. apply NoDup_cons in Hnd as [H2 Hnd].
  apply NoDup_cons in Hnd as [H3 _].
  apply not_elem_of_cons in H1 as [Hes H1]. apply not_elem_of_cons in H1 as [Hew H1].
  apply not_elem_of_cons in H1 as [Hen _].
  apply not_elem_of_cons in H2 as [Hsw H2]. apply not_elem_of_cons in H2 as [Hsn _].
  apply not_elem_of_cons in H3 as [Hwn _].
  destruct d; cbn [dir_code on_side];
    repeat match goal with
           | |- context [?x =? ?y] => destruct (Z.eqb_spec x y); try congruence
           end; try reflexivity.
Qed.

Lemma cardinal_step_other dir cc tc tmp min r :
  dir ∉ [EAST; SOUTH; WEST; NORTH] →
  cardinal_step dir cc tc tmp min r = (min, r).
Proof.
  intros H. unfold cardinal_step.
  apply not_elem_of_cons in H as [He H]. apply not_elem_of_cons in H as [Hs H].
  apply not_elem_of_cons in H as [Hw H]. apply not_elem_of_cons in H as [Hn _].
  repeat match goal with
         | |- context [?x =? ?y] => destruct (Z.eqb_spec x y); try congruence
         end; try reflexivity.
Qed.

Lemma cardinal_scan_spec d a cc st l p fuel min0 r0 :
  NoDup [EAST; SOUTH; WEST; NORTH] →
  heap st !! a = Some cc →
  is_list Next (heap st) p l →
  (length l ≤ fuel)%nat →
  ∃ min' r',
    cardinal_scan fuel (Some a) (dir_code d) p min0 r0 st = Done r' st ∧
    ((min' = min0 ∧ r' = r0 ∧
      ∀ x cx, x ∈ l → heap st !! x = Some cx → on_side d cc cx = true →
              min0 <= euclidean_distance cc cx) ∨
     (min' < min0 ∧
      ∃ l1 b l2 cb,
        l = l1 ++ b :: l2 ∧ r' = Some b ∧ heap st !! b = Some cb ∧
        on_side d cc cb = true ∧ euclidean_distance cc cb = min' ∧
        (∀ x cx, x ∈ l1 → heap st !! x = Some cx → on_side d cc cx = true →
                 min' < euclidean_distance cc cx) ∧
        (∀ x cx, x ∈ l2 → heap st !! x = Some cx → on_side d cc cx = true →
                 min' <= euclidean_distance cc cx))).
Proof.
  intros Hnd Ha. revert p fuel min0 r0.
  induction l as [|x l IH]; intros p fuel min0 r0 Hl Hfuel.
  - cbn in Hl. subst p. exists min0, r0. split; [by destruct fuel |].
    left. split; [done |]. split; [done |]. by intros ? ? ?%elem_of_nil.
  - destruct Hl as (-> & cx & Hcx & Hl).
    destruct fuel as [|fuel]; [cbn in Hfuel; lia |]. cbn [cardinal_scan].
    erewrite bind_deref by eassumption. erewrite bind_deref by eassumption.
    rewrite cardinal_step_dir by done.
    set (dx := euclidean_distance cc cx).
    destruct (on_side d cc cx && (dx <? min0)) eqn:Hcand; cbn [fst snd].
    + apply andb_true_iff in Hcand as [Hside Hlt]. apply Z.ltb_lt in Hlt.
      destruct (IH (next cx) fuel dx (Some x) Hl ltac:(cbn in Hfuel; lia))
        as (min' & r' & Hrun & [(-> & -> & Hall) | (Hlt' & l1 & b & l2 & cb & -> & -> & Hb & Hsb & Hdb & H1 & H2)]).
      * exists dx, (Some x). split; [done |]. right. split; [done |].
        exists [], x, l, cx. repeat split; try done. by intros ? ? ?%elem_of_nil.
      * exists min', (Some b). split; [done |]. right. split; [lia |].
        exists (x :: l1), b, l2, cb. repeat split; try done.
        intros y cy [-> | Hy]%elem_of_cons Hcy Hsy.
        -- rewrite Hcx in Hcy. injection Hcy as <-. fold dx. lia.
        -- by eapply H1.
    + assert (Hx : on_side d cc cx = true → min0 <= dx).
      { intros Hs. rewrite Hs in Hcand. cbn in Hcand. by apply Z.ltb_ge. }
      destruct (IH (next cx) fuel min0 r0 Hl ltac:(cbn in Hfuel; lia))
        as (min' & r' & Hrun & [(-> & -> & Hall) | (Hlt' & l1 & b & l2 & cb & -> & -> & Hb & Hsb & Hdb & H1 & H2)]).
      * exists min0, r0. split; [done |]. left. split; [done |]. split; [done |].
        intros y cy [-> | Hy]%elem_of_cons Hcy Hsy.
        -- rewrite Hcx in Hcy. injection Hcy as <-. by apply Hx.
        -- by eapply Hall.
      * exists min', (Some b). split; [done |]. right. split; [done |].
        exists (x :: l1), b, l2, cb. repeat split; try done.
        intros y cy [-> | Hy]%elem_of_cons Hcy Hsy.
        -- rewrite Hcx in Hcy. injection Hcy as <-. specialize (Hx Hsy).
           fold dx. lia.
        -- by eapply H1.
Qed.

(** C9 — [client_cardinal_focus].  The scan runs over the whole stacking
    list of the current workspace, whatever the [hidden] flag of its
    clients; a client is eligible only if it is strictly on the requested
    side of [c]; the client chosen is an eligible client at minimum
    [euclidean_distance] from [c], the first such in list order; the focus is
    transferred to it with [client_manage_focus].  When no client is
    eligible the function returns with the state unchanged.  (The distances
    to eligible clients are below [INT_MAX], the initial value of the
    minimum.) *)
Theorem cardinal_focus_nearest (st : wm_state) (cl fl : nat → list addr)
    (a : addr) (cc : client) (d : direction) (w : nat) :
  NoDup [EAST; SOUTH; WEST; NORTH] →
  registry st cl fl →
  focus_registered st cl →
  curr_ws st = Z.of_nat w →
  (w < WORKSPACE_NUMBER)%nat →
  heap st !! a = Some cc →
  (∀ x cx, x ∈ cl w → heap st !! x = Some cx → on_side d cc cx = true →
           euclidean_distance cc cx < INT_MAX) →
  ∃ r st',
    nearest_first (heap st) cc d (cl w) r ∧
    client_cardinal_focus (Some a) (dir_code d) st = Done tt st' ∧
    match r with
    | None => st' = st
    | Some b =>
        client_manage_focus (Some b) st = Done tt st' ∧ f_client st' = Some b
    end.
Proof.
  intros Hnd Hreg Hfoc Hcw Hw Ha Hdist.
  destruct (lookup_lt_is_Some_2 (c_list st) w) as [hd Hhd];
    [by rewrite (reg_c_len _ _ _ Hreg) |].
  pose proof (reg_stack _ _ _ Hreg _ _ Hhd) as Hl.
  pose proof (is_list_length _ _ _ _ Hl) as Hlen.
  destruct (cardinal_scan_spec d a cc st (cl w) hd (S (size (heap st))) INT_MAX None
              Hnd Ha Hl ltac:(lia)) as (min' & r & Hscan & Hpost).
  assert (Hrun : client_cardinal_focus (Some a) (dir_code d) st =
                 if ptr_eqb r None then Done tt st else client_manage_focus r st).
  { unfold client_cardinal_focus. rewrite bind_read, Hcw.
    erewrite bind_done by (by apply (head_get_exec Next)).
    rewrite traversal_bound_exec. erewrite bind_done by exact Hscan.
    by destruct (ptr_eqb r None). }
  destruct Hpost as [(-> & -> & Hall) | (Hlt & l1 & b & l2 & cb & Hsplit & -> & Hb & Hsb & Hdb & H1 & H2)].
  - exists None, st. split; [| by rewrite Hrun, ptr_eqb_refl].
    intros x cx Hx Hcx. destruct (on_side d cc cx) eqn:Hs; [| done].
    specialize (Hall x cx Hx Hcx Hs). specialize (Hdist x cx Hx Hcx Hs). lia.
  - assert (Hbin : b ∈ cl w).
    { rewrite Hsplit, elem_of_app, elem_of_cons. tauto. }
    pose proof (client_manage_focus_spec b w st cl fl Hreg Hfoc Hw Hbin) as Hspec.
    apply returns_done in Hspec as ([] & st' & Hfocus & _ & _ & Hf & _).
    exists (Some b), st'. split.
    + exists l1, l2, cb. rewrite Hdb. by repeat split.
    + rewrite Hrun, ptr_eqb_neq by done. done.
Qed.

(** ** Layout operations *)

Ltac int_arith :=
  unfold int_add, int_sub, int_div;
  repeat match goal with
         | |- context [int_wrap ?z] =>
             rewrite (int_wrap_id z) by (unfold in_int, INT_MIN, INT_MAX; lia)
         end.

Lemma quot2_bounds z : 0 <= z → 2 * (z ÷ 2) <= z <= 2 * (z ÷ 2) + 1.
Proof.
  intros Hz. rewrite Z.quot_div_nonneg by lia.
  pose proof (Z.div_mod z 2 ltac:(lia)). pose proof (Z.mod_pos_bound z 2 ltac:(lia)). lia.
Qed.

(** X1 — [client_center] puts the middle of the stored box within one pixel of
    the middle of the monitor of the client's workspace, and keeps the stored
    size. *)
Theorem client_center_centred (a : addr) (cl : client) (m : monitor) (st : wm_state) :
  heap st !! a = Some cl →
  monitor_at st (ws cl) m →
  geometry_coord (geom cl) → monitor_coord m →
  0 <= gwidth (geom cl) → 0 <= gheight (geom cl) →
  0 <= mwidth m → 0 <= mheight m →
  ∃ st' cl',
    client_center (Some a) st = Done tt st' ∧
    heap st' !! a = Some cl' ∧
    gwidth (geom cl') = gwidth (geom cl) ∧
    gheight (geom cl') = gheight (geom cl) ∧
    -1 <= (2 * gx (geom cl') + gwidth (geom cl')) - (2 * mx m + mwidth m) <= 1 ∧
    -1 <= (2 * gy (geom cl') + gheight (geom cl')) - (2 * my m + mheight m) <= 1.
Proof.
  intros Ha Hm (Gx & Gy & Gw & Gh) (Mx & My & Mw & Mh) Hw Hh Hmw Hmh.
  unfold coord in *.
  unfold client_center.
  erewrite bind_deref by eassumption.
  erewrite bind_done by (by apply monitor_of_exec).
  erewrite bind_deref by eassumption.
  erewrite client_move_absolute_exec by eassumption.
  eexists _, _. split; [reflexivity |]. split; [apply lookup_insert_eq |]. cbn.
  pose proof (quot2_bounds _ Hw). pose proof (quot2_bounds _ Hh).
  pose proof (quot2_bounds _ Hmw). pose proof (quot2_bounds _ Hmh).
  int_arith. lia.
Qed.

Lemma move_then_resize_exec a cl x y w h st :
  heap st !! a = Some cl →
  (client_move_absolute (Some a) x y;; client_resize_absolute (Some a) w h) st
  = Done tt (placed a cl x y w h st).
Proof.
  intros Ha.
  erewrite bind_done by (by apply client_move_absolute_exec).
  erewrite client_resize_absolute_exec by apply lookup_insert_eq.
  unfold placed, set_heap, set_xlog, set_geom, resize_calls. cbn.
  rewrite insert_insert_eq, <- app_assoc. reflexivity.
Qed.

Lemma monitor_at_placed a cl x y w h st i m :
  monitor_at (placed a cl x y w h st) i m ↔ monitor_at st i m.
Proof. reflexivity. Qed.

(** X2 — [client_snap_left] of one client and [client_snap_right] of another on
    the same monitor tile the monitor below the top gap: the two stored boxes
    have the same top edge, height and width, the left one starts at the left
    edge of the monitor, the right one starts where the left one ends, and ends
    at the right edge of the monitor or one pixel before it. *)
Theorem snap_left_right_tile (a b : addr) (ca cb : client) (m : monitor) (st : wm_state) :
  a ≠ b →
  heap st !! a = Some ca → heap st !! b = Some cb →
  monitor_at st (ws ca) m → monitor_at st (ws cb) m →
  monitor_coord m → coord (top_gap (conf st)) →
  MINIMUM_DIM <= mwidth m ÷ 2 →
  MINIMUM_DIM <= mheight m - top_gap (conf st) →
  0 <= mwidth m →
  ∃ st' ca' cb',
    (client_snap_left (Some a);; client_snap_right (Some b)) st = Done tt st' ∧
    heap st' !! a = Some ca' ∧ heap st' !! b = Some cb' ∧
    gx (geom ca') = mx m ∧
    gx (geom cb') = gx (geom ca') + gwidth (geom ca') ∧
    gwidth (geom cb') = gwidth (geom ca') ∧
    mx m + mwidth m - 1 <= gx (geom cb') + gwidth (geom cb') <= mx m + mwidth m ∧
    gy (geom ca') = my m + top_gap (conf st) ∧
    gy (geom cb') = gy (geom ca') ∧
    gheight (geom cb') = gheight (geom ca') ∧
    gy (geom ca') + gheight (geom ca') = my m + mheight m.
Proof.
  intros Hab Ha Hb Hma Hmb (Mx & My & Mw & Mh) Hgap Hw Hh Hmw. unfold coord in *.
  pose proof (quot2_bounds _ Hmw) as Hq.
  unfold client_snap_left at 1.
  rewrite bind_assoc. erewrite bind_deref by eassumption.
  rewrite bind_assoc. erewrite bind_done by (by apply monitor_of_exec).
  rewrite bind_assoc, bind_read.
  erewrite bind_done by (by apply move_then_resize_exec).
  unfold client_snap_right.
  erewrite bind_deref by (cbn; by rewrite lookup_insert_ne).
  erewrite bind_done by (by apply monitor_of_exec).
  rewrite bind_read.
  erewrite move_then_resize_exec by (cbn; by rewrite lookup_insert_ne).
  eexists _, _, _. split; [reflexivity |].
  split; [cbn; rewrite lookup_insert_ne by done; apply lookup_insert_eq |].
  split; [cbn; apply lookup_insert_eq |].
  cbn. rewrite !MAX_max. int_arith. lia.
Qed.

(** X3 — [client_monocle] makes the stored box the area of the monitor below the
    top gap; it leaves the fullscreen flag and the visibility of the client as
    they are, and a second call stores the same box. *)
Theorem client_monocle_fills (a : addr) (cl : client) (m : monitor) (st : wm_state) :
  heap st !! a = Some cl →
  monitor_at st (ws cl) m →
  monitor_coord m → coord (top_gap (conf st)) →
  MINIMUM_DIM <= mwidth m →
  MINIMUM_DIM <= mheight m - top_gap (conf st) →
  ∃ st' cl',
    client_monocle (Some a) st = Done tt st' ∧
    heap st' !! a = Some cl' ∧
    gx (geom cl') = mx m ∧
    gy (geom cl') = my m + top_gap (conf st) ∧
    gx (geom cl') + gwidth (geom cl') = mx m + mwidth m ∧
    gy (geom cl') + gheight (geom cl') = my m + mheight m ∧
    fullscreen cl' = fullscreen cl ∧ hidden cl' = hidden cl ∧
    ∃ st'', client_monocle (Some a) st' = Done tt st'' ∧ heap st'' = heap st'.
Proof.
  intros Ha Hm (Mx & My & Mw & Mh) Hgap Hw Hh. unfold coord in *.
  assert (Hrun : ∀ c0 s, heap s !! a = Some c0 → ws c0 = ws cl →
            m_list s = m_list st → ws_m_list s = ws_m_list st → conf s = conf st →
            client_monocle (Some a) s
            = Done tt (placed a c0 (mx m) (my m +i top_gap (conf st)) (mwidth m)
                         (mheight m -i top_gap (conf st)) s)).
  { intros c0 s Hc0 Hws Hml Hwl Hcf. unfold client_monocle.
    erewrite bind_deref by eassumption.
    erewrite bind_done
      by (apply monitor_of_exec; rewrite Hws; unfold monitor_at; rewrite Hml, Hwl; exact Hm).
    rewrite bind_read, Hcf. by apply move_then_resize_exec. }
  eexists _, _. split; [by apply Hrun |].
  split; [apply lookup_insert_eq |]. cbn.
  repeat match goal with |- _ ∧ _ => split end;
    try (rewrite ?MAX_max; int_arith; first [reflexivity | lia]).
  eexists. split; [eapply Hrun; [apply lookup_insert_eq | reflexivity ..] |].
  cbn. rewrite insert_insert_eq. reflexivity.
Qed.

(** ** Edge lock of [client_resize_relative] *)


(** ** Hiding and showing *)


Lemma set_heap_xlog_id l st : set_heap (heap st) (set_xlog l st) = set_xlog l st.
Proof. reflexivity. Qed.



Lemma refresh_stable_xlog l st cl : refresh_stable st cl → refresh_stable (set_xlog l st) cl.
Proof. exact id. Qed.


Lemma client_raise_exec a c st :
  heap st !! a = Some c →
  client_raise (Some a) st
  = Done tt (set_xlog (xlog st ++ (if decorated c then [XRaiseWindow (dec c)] else [])
                               ++ [XRaiseWindow (window c)]) st).
Proof.
  intros Ha. unfold client_raise. erewrite bind_deref by eassumption.
  destruct (decorated c); wm_run; rewrite <- ?app_assoc; reflexivity.
Qed.




(** ** The workspace/monitor mapping *)

Lemma in_bounds_true {A} (arr : list A) i :
  0 <= i < Z.of_nat (length arr) → in_bounds arr i = true.
Proof.
  intros H. unfold in_bounds. apply andb_true_intro.
  split; [apply Z.leb_le | apply Z.ltb_lt]; lia.
Qed.

Lemma in_bounds_false {A} (arr : list A) i :
  ¬ 0 <= i < Z.of_nat (length arr) → in_bounds arr i = false.
Proof.
  intros H. unfold in_bounds. apply andb_false_iff.
  destruct (Z.leb_spec 0 i); [right | by left]. apply Z.ltb_ge. lia.
Qed.

Lemma index_fault {A} (arr : list A) i st :
  ¬ 0 <= i < Z.of_nat (length arr) → index arr i st = Fault.
Proof.
  intros H. unfold index. destruct (Z.ltb_spec i 0); [done |].
  rewrite lookup_ge_None_2; [done |]. lia.
Qed.

(** X6 — [ipc_save_monitor] maps a workspace of the table to a monitor number
    below [m_count]: afterwards the workspace reads the monitor saved, and every
    other workspace the monitor it read before.  A monitor number that is not
    below [m_count] is refused and nothing changes. *)
Theorem ipc_save_monitor_lookup (d : list Z) (st : wm_state) :
  0 <= arg d 1 < Z.of_nat (length (ws_m_list st)) →
  ∃ st',
    ipc_save_monitor d st = Done tt st' ∧
    (m_count st <= arg d 2 → st' = st) ∧
    (arg d 2 < m_count st →
     (∀ m, 0 <= arg d 2 → m_list st !! Z.to_nat (arg d 2) = Some m →
           monitor_at st' (arg d 1) m) ∧
     (∀ w m, w ≠ arg d 1 → monitor_at st' w m ↔ monitor_at st w m) ∧
     length (ws_m_list st') = length (ws_m_list st)).
Proof.
  intros Hw. unfold ipc_save_monitor. rewrite bind_read.
  destruct (Z.geb_spec (arg d 2) (m_count st)) as [Hge | Hlt].
  - exists st. split; [reflexivity |]. split; [done |]. lia.
  - unfold ws_m_list_set. rewrite in_bounds_true by done.
    eexists. split; [reflexivity |]. split; [lia |]. intros _.
    split; [| split].
    + intros m Hpos Hm. exists (arg d 2). cbn.
      rewrite list_lookup_insert_eq by lia. split; [lia |]. done.
    + intros w m Hne. unfold monitor_at. cbn.
      split; intros (mon & H0 & Hmon & Hrest); exists mon; (split; [done |]);
        (split; [| done]).
      * rewrite list_lookup_insert_ne in Hmon; [done | lia].
      * rewrite list_lookup_insert_ne; [done | lia].
    + cbn. apply length_insert.
Qed.

(** X7 — [ipc_save_monitor] checks neither the sign of the monitor number nor
    the workspace number: a negative monitor number is stored, after which every
    layout operation that reads the monitor of a client of that workspace
    faults; a workspace number outside the table is a write out of the bounds of
    [ws_m_list]. *)
Theorem ipc_save_monitor_unchecked (d : list Z) (st : wm_state) :
  arg d 2 < 0 → arg d 2 < m_count st →
  (0 <= arg d 1 < Z.of_nat (length (ws_m_list st)) →
   ∃ st',
     ipc_save_monitor d st = Done tt st' ∧
     ws_m_list st' !! Z.to_nat (arg d 1) = Some (arg d 2) ∧
     ∀ a cl, heap st !! a = Some cl → ws cl = arg d 1 →
       Forall (λ op : option addr → wm unit, op (Some a) st' = Fault)
         [client_center; client_fullscreen; client_monocle;
          client_snap_left; client_snap_right]) ∧
  (¬ 0 <= arg d 1 < Z.of_nat (length (ws_m_list st)) →
   ipc_save_monitor d st = Fault).
Proof.
  intros Hneg Hlt. unfold ipc_save_monitor. rewrite bind_read.
  destruct (Z.geb_spec (arg d 2) (m_count st)) as [Hge | _]; [lia |].
  unfold ws_m_list_set. split.
  - intros Hw. rewrite in_bounds_true by done.
    eexists. split; [reflexivity |].
    split; [cbn; apply list_lookup_insert_eq; lia |].
    intros a cl Ha Hws.
    assert (Hmon : monitor_of (arg d 1)
                     (set_ws_m_list (<[Z.to_nat (arg d 1) := arg d 2]> (ws_m_list st)) st)
                   = Fault).
    { unfold monitor_of. rewrite bind_read.
      erewrite bind_done
        by (apply index_exec; [lia | cbn; apply list_lookup_insert_eq; lia]).
      rewrite bind_read. unfold index. destruct (Z.ltb_spec (arg d 2) 0); [done | lia]. }
    repeat apply Forall_cons_2; try apply Forall_nil_2;
      match goal with
      | |- ?op (Some a) _ = Fault =>
          unfold op; erewrite bind_deref by exact Ha; rewrite Hws;
          apply bind_fault; exact Hmon
      end.
  - intros Hw. by rewrite in_bounds_false.
Qed.

(** X8 — [ipc_switch_ws] subtracts one from the workspace number it is given and
    does not check the result: a number outside [1 ..  WORKSPACE_NUMBER] (0 in
    particular) makes [switch_ws] index [ws_m_list] out of its bounds. *)
Theorem ipc_switch_ws_out_of_range (d : list Z) (st : wm_state) :
  length (ws_m_list st) = WORKSPACE_NUMBER →
  ¬ 0 <= arg d 1 -i 1 < Z.of_nat WORKSPACE_NUMBER →
  ipc_switch_ws d st = Fault.
Proof.
  intros Hlen Hout. unfold ipc_switch_ws, switch_ws.
  set (w := arg d 1 -i 1) in *.
  assert (Hidx : ∀ s, index (ws_m_list st) w s = Fault).
  { intros s. apply index_fault. rewrite Hlen. lia. }
  unfold traversal_bound. rewrite bind_done with (a := S (size (heap st))) (st' := st)
    by reflexivity.
  destruct WORKSPACE_NUMBER as [|n] eqn:Hn.
  - cbn [for_range]. rewrite bind_ret, bind_put.
    apply bind_fault. unfold monitor_of. rewrite bind_read. apply bind_fault.
    apply Hidx.
  - cbn [for_range]. rewrite !bind_assoc, bind_read, !bind_assoc.
    destruct (Z.eqb_spec 0 w) as [H0 | H0]; [lia |]. cbn [negb].
    rewrite !bind_assoc.
    destruct (lookup_lt_is_Some_2 (ws_m_list st) 0) as [m0 Hm0]; [lia |].
    erewrite bind_done by (by apply index_exec).
    apply bind_fault, bind_fault, Hidx.
Qed.

(** X9 — [ipc_send_to_ws] does not check the workspace number either: with a
    focused client of the registry and a number outside [1 ..
    WORKSPACE_NUMBER], the client is first taken out of the lists of its
    workspace and then saved through an index out of the bounds of [c_list]. *)
Theorem ipc_send_to_ws_out_of_range (d : list Z) (st : wm_state)
    (cl fl : nat → list addr) (a : addr) (prev : nat) :
  registry st cl fl →
  f_client st = Some a →
  (prev < WORKSPACE_NUMBER)%nat → a ∈ cl prev →
  ¬ 0 <= arg d 1 -i 1 < Z.of_nat WORKSPACE_NUMBER →
  ipc_send_to_ws d st = Fault.
Proof.
  intros Hreg Hf Hp Ha Hout. unfold ipc_send_to_ws.
  rewrite bind_read, Hf. rewrite ptr_eqb_neq by done.
  unfold client_send_to_ws.
  destruct (client_delete_spec a prev st cl fl Hreg Hp Ha)
    as (st1 & Hrun1 & Hreg1 & Hsh1 & _).
  erewrite bind_done by exact Hrun1.
  destruct (registry_alloc _ _ _ _ _ Hreg Hp Ha) as (ca & Hca & Hws).
  destruct (same_shape_lookup _ _ _ _ Hsh1 Hca) as (ca1 & Hca1 & _).
  erewrite bind_deref by exact Hca1.
  erewrite bind_assign by exact Hca1.
  apply bind_fault. unfold client_save, c_list_get.
  rewrite bind_assoc, bind_read. apply bind_fault, index_fault. cbn.
  by rewrite (reg_c_len _ _ _ Hreg1).
Qed.

(** ** The monitor table *)

(** X10 — [handle_configure_notify] ignores the events of the root window.  For
    any other window it frees the monitor table and reads it again; when
    Xinerama is not active the table is not rebuilt while [m_count] keeps its
    value, so that [ipc_save_monitor] goes on accepting monitor numbers and
    every operation that reads the monitor of a client faults. *)
Theorem handle_configure_notify_monitors (w : Z) (screens : option (list monitor))
    (st : wm_state) :
  (w = root st → handle_configure_notify w screens st = Done tt st) ∧
  (w ≠ root st →
   ∃ st',
     handle_configure_notify w screens st = Done tt st' ∧
     heap st' = heap st ∧ ws_m_list st' = ws_m_list st ∧
     match screens with
     | Some m_info =>
         m_list st' = m_info ∧ m_count st' = Z.of_nat (length m_info)
     | None =>
         m_list st' = [] ∧ m_count st' = m_count st ∧
         ∀ c, Forall (λ op : option addr → wm unit, op c st' = Fault)
                [client_center; client_fullscreen; client_monocle;
                 client_snap_left; client_snap_right]
     end).
Proof.
  unfold handle_configure_notify. rewrite bind_read. split.
  - intros ->. by rewrite Z.eqb_refl.
  - intros Hne. destruct (Z.eqb_spec w (root st)) as [|_]; [done |].
    unfold monitors_free. rewrite bind_put.
    destruct screens as [m_info |]; cbn [setup_monitors].
    + rewrite bind_put. eexists. split; [reflexivity |]. cbn.
      split; [done |]. split; [done |]. split; [| done].
      induction m_info as [|[] l IH]; [done |]. cbn. by rewrite IH.
    + eexists. split; [reflexivity |]. cbn.
      split; [done |]. split; [done |]. split; [done |]. split; [done |].
      intros c.
      assert (Hmon : ∀ i s, m_list s = [] → monitor_of i s = Fault).
      { intros i s Hs. unfold monitor_of. rewrite bind_read.
        destruct (index (ws_m_list s) i s) as [mon s' | |] eqn:Hi.
        - erewrite bind_done by exact Hi. rewrite bind_read.
          unfold index in Hi.
          destruct (i <? 0); [done |].
          destruct (ws_m_list s !! Z.to_nat i); [| done]. injection Hi as -> ->.
          rewrite Hs. apply index_fault. cbn. lia.
        - by apply bind_fault.
        - unfold index in Hi. destruct (i <? 0); [done |].
          by destruct (ws_m_list s !! Z.to_nat i). }
      repeat apply Forall_cons_2; try apply Forall_nil_2;
        match goal with
        | |- ?op c ?s = Fault =>
            unfold op;
            destruct (deref c s) as [cc s' | |] eqn:Hd;
              [ erewrite bind_done by exact Hd;
                assert (s' = s) as ->
                  by (unfold deref in Hd; destruct c as [x |]; [| done];
                      destruct (heap s !! x); [by injection Hd | done]);
                apply bind_fault, Hmon; reflexivity
              | by apply bind_fault
              | exfalso; unfold deref in Hd; destruct c as [x |]; [| done];
                by destruct (heap s !! x) ]
        end.
Qed.

(** ** Frame rules *)

Section Frames.
Context {T : Type} (S : addr → Prop) (f : client → T).

Lemma keeps_refl st : keeps S f st st.
Proof. intros a c _ Hc. by exists c. Qed.

Lemma keeps_trans st1 st2 st3 :
  keeps S f st1 st2 → keeps S f st2 st3 → keeps S f st1 st3.
Proof.
  intros H12 H23 a c Ha Hc. destruct (H12 a c Ha Hc) as (c2 & Hc2 & E2).
  destruct (H23 a c2 Ha Hc2) as (c3 & Hc3 & E3). exists c3. split; [done | congruence].
Qed.

Lemma keeps_heap st st' : heap st' = heap st → keeps S f st st'.
Proof. intros Hh a c _ Hc. exists c. by rewrite Hh. Qed.

Lemma bind_inv {A B} (m : wm A) (k : A → wm B) st b st2 :
  (m ≫= k) st = Done b st2 → ∃ a st1, m st = Done a st1 ∧ k a st1 = Done b st2.
Proof.
  unfold mbind, wm_bind. destruct (m st) as [a st1 | |]; [eauto | done | done].
Qed.

Lemma preserves_bind {A B} (m : wm A) (k : A → wm B) :
  preserves S f m → (∀ a, preserves S f (k a)) → preserves S f (m ≫= k).
Proof.
  intros Hm Hk st r st' (a & st1 & H1 & H2)%bind_inv.
  eapply keeps_trans; [by eapply Hm | by eapply Hk].
Qed.

Lemma preserves_ret {A} (a : A) : preserves S f (mret a : wm A).
Proof. intros st r st' [= _ <-]. apply keeps_refl. Qed.

Lemma preserves_read {A} (g : wm_state → A) : preserves S f (read g).
Proof. intros st r st' [= _ <-]. apply keeps_refl. Qed.

Lemma preserves_put g : (∀ st, heap (g st) = heap st) → preserves S f (put_state g).
Proof. intros Hg st r st' [= _ <-]. by apply keeps_heap. Qed.

Lemma preserves_xsend e : preserves S f (xsend e).
Proof. by apply preserves_put. Qed.

Lemma preserves_fault {A} : preserves S f (fault : wm A).
Proof. intros st r st' [=]. Qed.

Lemma preserves_diverge {A} : preserves S f (diverge : wm A).
Proof. intros st r st' [=]. Qed.

Lemma preserves_deref p : preserves S f (deref p).
Proof.
  intros st r st' H. unfold deref in H. destruct p as [a |]; [| done].
  destruct (heap st !! a); [| done]. injection H as _ <-. apply keeps_refl.
Qed.

Lemma preserves_index {A} (arr : list A) i : preserves S f (index arr i).
Proof.
  intros st r st' H. unfold index in H. destruct (i <? 0); [done |].
  destruct (arr !! Z.to_nat i); [| done]. injection H as _ <-. apply keeps_refl.
Qed.

Lemma preserves_assign p g :
  (∀ a c, p = Some a → S a → f (g c) = f c) → preserves S f (assign p g).
Proof.
  intros Hg st r st' H. unfold assign in H. destruct p as [a |]; [| done].
  destruct (heap st !! a) as [c |] eqn:Hc; [| done]. injection H as _ <-.
  intros b cb Hb Hcb. cbn. destruct (decide (a = b)) as [<- | Hne].
  - rewrite lookup_insert_eq. exists (g c). split; [done |].
    rewrite Hc in Hcb. injection Hcb as <-. by apply (Hg a).
  - rewrite lookup_insert_ne by done. by exists cb.
Qed.

Lemma preserves_c_list_get i : preserves S f (c_list_get i).
Proof. apply preserves_bind; [apply preserves_read | intros ?; apply preserves_index]. Qed.

Lemma preserves_f_list_get i : preserves S f (f_list_get i).
Proof. apply preserves_bind; [apply preserves_read | intros ?; apply preserves_index]. Qed.

Lemma preserves_c_list_set i p : preserves S f (c_list_set i p).
Proof.
  intros st r st' H. unfold c_list_set in H. destruct (in_bounds _ _); [| done].
  injection H as _ <-. by apply keeps_heap.
Qed.

Lemma preserves_f_list_set i p : preserves S f (f_list_set i p).
Proof.
  intros st r st' H. unfold f_list_set in H. destruct (in_bounds _ _); [| done].
  injection H as _ <-. by apply keeps_heap.
Qed.

Lemma preserves_traversal_bound : preserves S f traversal_bound.
Proof. intros st r st' [= _ <-]. apply keeps_refl. Qed.

Lemma preserves_for_range body i n :
  (∀ j, preserves S f (body j)) → preserves S f (for_range body i n).
Proof.
  intros Hb. revert i. induction n as [|n IH]; intros i; cbn [for_range].
  - apply preserves_ret.
  - apply preserves_bind; [apply Hb | intros _; apply IH].
Qed.

Lemma preserves_for_clients fuel body p :
  (∀ q, preserves S f (body q)) → preserves S f (for_clients fuel body p).
Proof.
  intros Hb. revert p. induction fuel as [|n IH]; intros [a |]; cbn [for_clients];
    try apply preserves_ret; try apply preserves_diverge.
  apply preserves_bind; [apply Hb | intros _].
  apply preserves_bind; [apply preserves_deref | intros tc; apply IH].
Qed.

Lemma preserves_move_to_front_scan fuel c tmp :
  preserves S f (move_to_front_scan fuel c tmp).
Proof.
  revert tmp. induction fuel as [|n IH]; intros tmp; cbn [move_to_front_scan].
  - apply preserves_diverge.
  - apply preserves_bind; [apply preserves_deref | intros tc].
    destruct (negb _); [| apply preserves_ret].
    destruct (ptr_eqb _ _); [apply preserves_ret | apply IH].
Qed.

Lemma preserves_delete_scan k fuel c tmp :
  preserves S f (delete_scan k fuel c tmp).
Proof.
  revert tmp. induction fuel as [|n IH]; intros tmp; cbn [delete_scan].
  - apply preserves_diverge.
  - destruct tmp; [| apply preserves_ret].
    apply preserves_bind; [apply preserves_deref | intros tc].
    destruct (negb _); [apply IH | apply preserves_ret].
Qed.

End Frames.

(** Decomposition of a command into the primitive commands. *)
Ltac frame_step :=
  first
    [ apply preserves_ret | apply preserves_read | apply preserves_xsend
    | apply preserves_deref | apply preserves_index
    | apply preserves_c_list_get | apply preserves_f_list_get
    | apply preserves_c_list_set | apply preserves_f_list_set
    | apply preserves_traversal_bound
    | apply preserves_move_to_front_scan | apply preserves_delete_scan
    | apply preserves_put; reflexivity
    | apply preserves_assign; intros ? ? ? ?;
      first [reflexivity | congruence | solve [cbn; eauto]]
    | apply preserves_for_range; intros ?
    | apply preserves_for_clients; intros ?
    | apply preserves_bind; [| intros ?]
    | match goal with
      | |- preserves _ _ (if ?b then _ else _) => destruct b
      | |- preserves _ _ (match ?x with _ => _ end) => destruct x
      | |- preserves _ _ (let _ := _ in _) => cbv zeta
      end ].

Ltac frame := repeat frame_step.

Lemma preserves_monitor_of {T} S (f : client → T) w : preserves S f (monitor_of w).
Proof. unfold monitor_of. frame. Qed.

(** [client_manage_focus] changes no field of a client but [next]. *)
Lemma client_manage_focus_frame {T} (f : client → T) c :
  (∀ p x, f (set_next p x) = f x) →
  preserves (λ _, True) f (client_manage_focus c).
Proof.
  intros Hf.
  unfold client_manage_focus, client_set_color, manage_xsend_icccm, client_raise,
    client_set_input, client_move_to_front, unlink_after.
  frame.
Qed.

Lemma client_move_absolute_frame {T} S (f : client → T) c x y :
  (∀ a, c = Some a → S a → ∀ g cl, f (set_geom g cl) = f cl) →
  preserves S f (client_move_absolute c x y).
Proof.
  intros Hf. unfold client_move_absolute. frame.
Qed.

Lemma client_resize_absolute_frame {T} S (f : client → T) c w h :
  (∀ a, c = Some a → S a → ∀ g cl, f (set_geom g cl) = f cl) →
  preserves S f (client_resize_absolute c w h).
Proof.
  intros Hf. unfold client_resize_absolute. frame.
Qed.

Lemma client_refresh_frame {T} S (f : client → T) c :
  (∀ a, c = Some a → S a → ∀ g cl, f (set_geom g cl) = f cl) →
  preserves S f (client_refresh c).
Proof.
  intros Hf.
  unfold client_refresh, client_move_relative, client_resize_relative, monitor_of.
  frame.
Qed.

Lemma client_raise_frame {T} S (f : client → T) c : preserves S f (client_raise c).
Proof. unfold client_raise. frame. Qed.

Lemma client_set_color_frame {T} S (f : client → T) c i b :
  preserves S f (client_set_color c i b).
Proof. unfold client_set_color. frame. Qed.

(** [client_hide] and [client_show] of a client change no other client. *)
Lemma client_hide_frame a : preserves (λ b, b ≠ a) id (client_hide (Some a)).
Proof.
  unfold client_hide. frame.
Qed.

Lemma client_show_frame a : preserves (λ b, b ≠ a) id (client_show (Some a)).
Proof.
  unfold client_show. frame.
Qed.

(** What [client_hide] and [client_show] do to the client itself. *)
Lemma client_hide_hidden a st r st' :
  client_hide (Some a) st = Done r st' →
  ∃ c', heap st' !! a = Some c' ∧ hidden c' = true.
Proof.
  unfold client_hide. intros (c & s1 & Hd & H)%bind_inv.
  unfold deref in Hd. destruct (heap st !! a) as [c0 |] eqn:Hc; [| done].
  injection Hd as -> ->. destruct (hidden c) eqn:Hh; cbn [negb] in H.
  - injection H as _ <-. by exists c.
  - apply bind_inv in H as ([] & s2 & _ & H). rewrite !bind_read in H.
    apply bind_inv in H as (c1 & s3 & _ & H).
    apply bind_inv in H as ([] & s4 & _ & H).
    unfold assign in H. destruct (heap s4 !! a) as [c4 |]; [| done].
    injection H as _ <-. eexists. split; [apply lookup_insert_eq | done].
Qed.

Lemma client_show_shown a st r st' :
  client_show (Some a) st = Done r st' →
  ∃ c', heap st' !! a = Some c' ∧ hidden c' = false.
Proof.
  unfold client_show. intros (c & s1 & Hd & H)%bind_inv.
  unfold deref in Hd. destruct (heap st !! a) as [c0 |] eqn:Hc; [| done].
  injection Hd as -> ->. destruct (hidden c) eqn:Hh.
  - apply bind_inv in H as ([] & s2 & _ & H).
    apply bind_inv in H as ([] & s3 & _ & H).
    apply bind_inv in H as ([] & s4 & Has & H).
    unfold assign in Has. destruct (heap s3 !! a) as [c3 |]; [| done].
    injection Has as <-.
    eapply (client_refresh_frame (λ _, True) hidden) in H; [| done].
    destruct (H a (set_hidden false c3)) as (c' & Hc' & Hh'); [done | apply lookup_insert_eq |].
    by exists c'.
  - injection H as _ <-. by exists c.
Qed.

(** ** Loops over the clients of the registry *)

(** What a command does whenever it returns, added to what it is known to
    return with. *)
Lemma returns_also {A} (m : wm A) st (Q Q' : A → wm_state → Prop) :
  returns m st Q → (∀ r st', m st = Done r st' → Q r st' → Q' r st') →
  returns m st Q'.
Proof.
  unfold returns. destruct (m st) as [r st' | |]; [| done | done].
  intros HQ H. by apply H.
Qed.

(** A loop over a stacking list whose body keeps the links and changes no
    client but the one it is called on: every client of the list is changed
    as the body changes it, and no other client is changed. *)
Lemma for_clients_each (Q : client → client → Prop) fuel body p l st :
  is_list Next (heap st) p l → NoDup l → (length l ≤ fuel)%nat →
  (∀ a st1, a ∈ l → same_links st st1 →
     returns (body (Some a)) st1 (λ _ st2,
       same_links st1 st2 ∧ keeps (λ b, b ≠ a) id st1 st2 ∧
       ∀ c, heap st1 !! a = Some c → ∃ c', heap st2 !! a = Some c' ∧ Q c c')) →
  returns (for_clients fuel body p) st (λ _ st',
    same_links st st' ∧ keeps (λ b, b ∉ l) id st st' ∧
    ∀ a c, a ∈ l → heap st !! a = Some c → ∃ c', heap st' !! a = Some c' ∧ Q c c').
Proof.
  revert p fuel st. induction l as [|a l IH]; intros p fuel st Hl Hnd Hfuel Hbody.
  - cbn in Hl. subst p. destruct fuel; cbn; (split; [apply same_links_refl |]);
      (split; [apply keeps_refl |]); by intros a c ?%elem_of_nil.
  - destruct Hl as (-> & c & Hc & Hl). apply NoDup_cons in Hnd as [Hna Hnd].
    destruct fuel as [|fuel]; [cbn in Hfuel; lia |]. cbn [for_clients].
    eapply returns_bind_with.
    { apply Hbody; [apply elem_of_cons; by left | apply same_links_refl]. }
    intros [] st2 (H2 & Hk2 & HQ2).
    destruct (HQ2 c Hc) as (c2 & Hc2 & HQc).
    destruct (same_links_lookup _ _ _ _ H2 Hc) as (c2' & Hc2' & Hn & _).
    rewrite Hc2 in Hc2'. injection Hc2' as <-.
    eapply returns_bind_run; [by apply run_deref |]. rewrite Hn.
    eapply returns_conseq.
    { apply (IH (next c) fuel st2).
      - by eapply same_links_is_seg.
      - done.
      - cbn in Hfuel. lia.
      - intros b st1 Hb H1. apply Hbody; [apply elem_of_cons; by right |].
        by eapply same_links_trans. }
    intros [] st' (H' & Hk' & HQ'). split; [by eapply same_links_trans |]. split.
    + intros b cb Hb Hcb. apply not_elem_of_cons in Hb as [Hba Hbl].
      destruct (Hk2 b cb Hba Hcb) as (cb2 & Hcb2 & E). cbn in E. subst cb2.
      by apply Hk'.
    + intros b cb [-> | Hb]%elem_of_cons Hcb.
      * rewrite Hc in Hcb. injection Hcb as <-.
        destruct (Hk' a c2 Hna Hc2) as (c3 & Hc3 & E). cbn in E. subst c3.
        by exists c2.
      * assert (Hba : b ≠ a) by (by intros ->).
        destruct (Hk2 b cb Hba Hcb) as (cb2 & Hcb2 & E). cbn in E. subst cb2.
        by apply HQ'.
Qed.

(** A counting loop whose body keeps the links, with an invariant. *)
Lemma for_range_inv (I : nat → wm_state → Prop) body (n : nat) st :
  I 0%nat st →
  (∀ (j : nat) st1, (j < n)%nat → same_links st st1 → I j st1 →
     returns (body (Z.of_nat j)) st1 (λ _ st2, same_links st1 st2 ∧ I (S j) st2)) →
  returns (for_range body 0 n) st (λ _ st', same_links st st' ∧ I n st').
Proof.
  intros H0 Hbody.
  assert (Hgen : ∀ k i st1, (i + k = n)%nat → same_links st st1 → I i st1 →
            returns (for_range body (Z.of_nat i) k) st1
              (λ _ st', same_links st st' ∧ I n st')).
  2:{ apply (Hgen n 0%nat st); [lia | apply same_links_refl | done]. }
  induction k as [|k IH]; intros i st1 Hi H1 HI.
  - cbn. replace n with i by lia. done.
  - cbn [for_range]. eapply returns_bind_with; [apply Hbody; [lia | done | done] |].
    intros [] st2 [H2 HI2]. replace (Z.of_nat i + 1) with (Z.of_nat (S i)) by lia.
    apply IH; [lia | by eapply same_links_trans | done].
Qed.

Lemma returns_unit (m : wm unit) st (Q : wm_state → Prop) :
  returns m st (λ _ st', Q st') → ∃ st', m st = Done tt st' ∧ Q st'.
Proof.
  unfold returns. destruct (m st) as [[] st' | |]; [| done | done].
  intros HQ. by exists st'.
Qed.

(** ** Visibility after a workspace switch *)

Lemma registry_fuel st cl fl (i : nat) :
  registry st cl fl → (i < WORKSPACE_NUMBER)%nat →
  (length (cl i) ≤ S (size (heap st)))%nat.
Proof.
  intros Hreg Hi.
  destruct (lookup_lt_is_Some_2 (c_list st) i) as [p Hp];
    [by rewrite (reg_c_len _ _ _ Hreg) |].
  pose proof (is_list_length _ _ _ _ (reg_stack _ _ _ Hreg _ _ Hp)). lia.
Qed.

Lemma same_links_monitors_ok st st' : same_links st st' → monitors_ok st → monitors_ok st'.
Proof.
  intros H. apply monitors_ok_congr; [apply (sl_m_list _ _ H) | apply (sl_ws_m_list _ _ H)].
Qed.

(** The two bodies of the loops of [switch_ws], on one client. *)
Lemma switch_hide_body a st :
  is_Some (heap st !! a) →
  returns (client_hide (Some a)) st (λ _ st2,
    same_links st st2 ∧ keeps (λ b, b ≠ a) id st st2 ∧
    ∀ c, heap st !! a = Some c → ∃ c', heap st2 !! a = Some c' ∧ hidden c' = true).
Proof.
  intros Ha. eapply returns_also; [by apply client_hide_same_links |].
  intros r st' Hrun Hsl. split; [done |]. split; [by eapply client_hide_frame |].
  intros _ _. by eapply client_hide_hidden.
Qed.

Lemma switch_show_body a st :
  client_ok st a →
  returns (client_show (Some a);; tc ← deref (Some a);
           xsend (XLowerWindow (window tc));; xsend (XLowerWindow (dec tc))) st
    (λ _ st2,
      same_links st st2 ∧ keeps (λ b, b ≠ a) id st st2 ∧
      ∀ c, heap st !! a = Some c → ∃ c', heap st2 !! a = Some c' ∧ hidden c' = false).
Proof.
  intros Hok. eapply returns_also.
  { sl_step ltac:(by apply client_show_same_links).
    apply returns_bind_deref; [eapply same_links_alloc; [done |]; by eapply client_ok_alloc |].
    intros tc Htc.
    sl_step ltac:(apply xsend_same_links).
    sl_last ltac:(apply xsend_same_links). }
  intros r st' Hrun Hsl. split; [done |]. split.
  - revert Hrun. generalize st r st'. change (preserves (λ b, b ≠ a) id
      (client_show (Some a);; tc ← deref (Some a);
       xsend (XLowerWindow (window tc));; xsend (XLowerWindow (dec tc)))).
    apply preserves_bind; [apply client_show_frame | intros _]. frame.
  - intros _ _. apply bind_inv in Hrun as ([] & s1 & Hshow & Hrest).
    destruct (client_show_shown _ _ _ _ Hshow) as (c1 & Hc1 & Hh1).
    assert (Hk : keeps (λ _, True) hidden s1 st').
    { revert Hrest. generalize s1 r st'.
      change (preserves (λ _, True) hidden
                (tc ← deref (Some a);
                 xsend (XLowerWindow (window tc));; xsend (XLowerWindow (dec tc)))).
      frame. }
    destruct (Hk a c1 I Hc1) as (c' & Hc' & E). exists c'. split; [done | congruence].
Qed.

Lemma switch_ws_loop (w : nat) st cl fl :
  registry st cl fl → monitors_ok st → (w < WORKSPACE_NUMBER)%nat →
  returns
    (for_range (λ i,
       wml ← read ws_m_list;
       others ← (if negb (i =? Z.of_nat w)
                 then mi ← index wml i; mw ← index wml (Z.of_nat w); mret (mi =? mw)
                 else mret false);
       if (others : bool) then
         hd ← c_list_get i;
         for_clients (S (size (heap st))) client_hide hd
       else if i =? Z.of_nat w then
         hd ← c_list_get i;
         for_clients (S (size (heap st))) (λ tmp,
           client_show tmp;;
           tc ← deref tmp;
           xsend (XLowerWindow (window tc));;
           xsend (XLowerWindow (dec tc))) hd
       else mret tt) 0 WORKSPACE_NUMBER) st
    (λ _ st',
      same_links st st' ∧
      ∀ (i : nat) a c, (i < WORKSPACE_NUMBER)%nat → a ∈ cl i → heap st !! a = Some c →
        ∃ c', heap st' !! a = Some c' ∧
              hidden c' = hidden_after_switch st w i (hidden c)).
Proof.
  intros Hreg Hmon Hw.
  eapply returns_conseq.
  { apply (for_range_inv (λ j st1,
      ∀ (i : nat) a c, (i < WORKSPACE_NUMBER)%nat → a ∈ cl i → heap st !! a = Some c →
        ∃ c1, heap st1 !! a = Some c1 ∧
              hidden c1 = if decide (i < j)%nat
                          then hidden_after_switch st w i (hidden c) else hidden c)).
    - intros i a c _ _ Hc. exists c. split; [done |]. destruct (decide _); [lia | done].
    - intros j st1 Hj H1 HI.
      assert (Hreg1 : registry st1 cl fl) by (by eapply same_links_registry).
      assert (Hmon1 : monitors_ok st1) by (by eapply same_links_monitors_ok).
      pose proof Hmon1 as [Hlen1 _].
      destruct (lookup_lt_is_Some_2 (ws_m_list st1) j) as [mi Hmi]; [rewrite Hlen1; lia |].
      destruct (lookup_lt_is_Some_2 (ws_m_list st1) w) as [mw Hmw]; [rewrite Hlen1; lia |].
      destruct (lookup_lt_is_Some_2 (c_list st1) j) as [hd Hhd];
        [rewrite (reg_c_len _ _ _ Hreg1); lia |].
      pose proof (reg_stack _ _ _ Hreg1 _ _ Hhd) as Hl.
      pose proof (reg_nodup _ _ _ Hreg j Hj) as Hnd.
      assert (Hok : ∀ b, b ∈ cl j → client_ok st1 b).
      { intros b Hb. by apply (registry_client_ok st1 cl fl j b Hreg1). }
      assert (Hfuel : (length (cl j) ≤ S (size (heap st)))%nat)
        by (by eapply registry_fuel).
      (* what the loop over the clients of [j] gives for the invariant *)
      assert (Hstep : ∀ (target : bool → bool) st2,
        same_links st1 st2 → keeps (λ b, b ∉ cl j) id st1 st2 →
        (∀ a c, a ∈ cl j → heap st1 !! a = Some c →
                ∃ c', heap st2 !! a = Some c' ∧ hidden c' = target (hidden c)) →
        (∀ old, hidden_after_switch st w j old = target old) →
        same_links st1 st2 ∧
        ∀ (i : nat) a c, (i < WORKSPACE_NUMBER)%nat → a ∈ cl i → heap st !! a = Some c →
          ∃ c1, heap st2 !! a = Some c1 ∧
                hidden c1 = if decide (i < S j)%nat
                            then hidden_after_switch st w i (hidden c) else hidden c).
      { intros target st2 H2 Hk HQ Htarget. split; [done |].
        intros i a c Hi Ha Hc. destruct (HI i a c Hi Ha Hc) as (c1 & Hc1 & Hh1).
        destruct (decide (i = j)) as [-> | Hne].
        - destruct (HQ a c1 Ha Hc1) as (c' & Hc' & Hh'). exists c'. split; [done |].
          destruct (decide (j < S j)%nat); [| lia].
          destruct (decide (j < j)%nat); [lia |]. by rewrite Htarget, Hh', Hh1.
        - assert (Hna : a ∉ cl j).
          { intros Haj. apply Hne. by eapply (reg_disjoint _ _ _ Hreg). }
          destruct (Hk a c1 Hna Hc1) as (c' & Hc' & E). cbn in E. subst c'.
          exists c1. split; [done |]. rewrite Hh1.
          destruct (decide (i < j)%nat), (decide (i < S j)%nat); first [lia | done]. }
      apply returns_bind, returns_read.
      destruct (Z.eqb_spec (Z.of_nat j) (Z.of_nat w)) as [Heq | Hne]; cbn [negb].
      + assert (j = w) as -> by lia.
        apply returns_bind, returns_ret.
        eapply returns_bind_run; [by apply (head_get_exec Next) |].
        eapply returns_conseq.
        { apply (for_clients_each (λ _ c', hidden c' = false) _ _ _ (cl w)); try done.
          intros a s1 Ha Hs1. apply switch_show_body.
          eapply same_links_client_ok; [exact Hs1 |]. by apply Hok. }
        intros [] st2 (H2 & Hk & HQ). apply (Hstep (λ _, false)); try done.
        intros old. unfold hidden_after_switch. by destruct (decide (w = w)).
      + apply returns_assoc.
        eapply returns_bind_run; [apply index_exec; [lia | by rewrite Nat2Z.id] |].
        apply returns_assoc.
        eapply returns_bind_run; [apply index_exec; [lia | by rewrite Nat2Z.id] |].
        apply returns_bind, returns_ret.
        rewrite (sl_ws_m_list _ _ H1) in Hmi, Hmw.
        destruct (Z.eqb_spec mi mw) as [-> | Hmne].
        * eapply returns_bind_run; [by apply (head_get_exec Next) |].
          eapply returns_conseq.
          { apply (for_clients_each (λ _ c', hidden c' = true) _ _ _ (cl j)); try done.
            intros a s1 Ha Hs1. apply switch_hide_body.
            eapply same_links_alloc; [exact Hs1 |]. eapply client_ok_alloc. by apply Hok. }
          intros [] st2 (H2 & Hk & HQ). apply (Hstep (λ _, true)); try done.
          intros old. unfold hidden_after_switch.
          destruct (decide (j = w)); [lia |].
          destruct (decide _) as [|Hx]; [done |]. destruct Hx. by rewrite Hmi, Hmw.
        * apply returns_ret.
          apply (Hstep id st1); [apply same_links_refl | apply keeps_refl | | ].
          -- intros a c _ Hc. by exists c.
          -- intros old. unfold hidden_after_switch.
             destruct (decide (j = w)); [lia |].
             destruct (decide _) as [Hx |]; [| done].
             rewrite Hmi, Hmw in Hx. by injection Hx. }
  intros [] st' [H' HI]. split; [done |].
  intros i a c Hi Ha Hc. destruct (HI i a c Hi Ha Hc) as (c' & Hc' & Hh).
  exists c'. split; [done |]. by destruct (decide _).
Qed.

(** X11 — [switch_ws] to a workspace of the table shows every client of that
    workspace, hides every client of the other workspaces mapped to the same
    monitor, and leaves the clients of the workspaces on other monitors as
    visible or hidden as they were. *)
Theorem switch_ws_visibility (w : nat) (st : wm_state) (cl fl : nat → list addr) :
  registry st cl fl →
  focus_registered st cl →
  monitors_ok st →
  (w < WORKSPACE_NUMBER)%nat →
  ∃ st',
    switch_ws (Z.of_nat w) st = Done tt st' ∧
    curr_ws st' = Z.of_nat w ∧
    ∀ (i : nat) a c, (i < WORKSPACE_NUMBER)%nat → a ∈ cl i → heap st !! a = Some c →
      ∃ c', heap st' !! a = Some c' ∧
            hidden c' = if decide (i = w) then false
                        else if decide (ws_m_list st !! i = ws_m_list st !! w) then true
                        else hidden c.
Proof.
  intros Hreg Hfoc Hmon Hw.
  apply (returns_unit (switch_ws (Z.of_nat w)) st (λ st',
    curr_ws st' = Z.of_nat w ∧
    ∀ (i : nat) a c, (i < WORKSPACE_NUMBER)%nat → a ∈ cl i → heap st !! a = Some c →
      ∃ c', heap st' !! a = Some c' ∧ hidden c' = hidden_after_switch st w i (hidden c))).
  unfold switch_ws.
  eapply returns_bind_run; [reflexivity |].
  eapply returns_bind_with; [by apply (switch_ws_loop w st cl fl) |].
  intros [] st1 [H1 Hvis].
  assert (Hreg1 : registry st1 cl fl) by (by eapply same_links_registry).
  assert (Hmon1 : monitors_ok st1) by (by eapply same_links_monitors_ok).
  apply returns_bind, returns_put.
  set (st2 := set_curr_ws (Z.of_nat w) st1).
  assert (Hreg2 : registry st2 cl fl) by (by apply (registry_congr st1)).
  assert (Hmon2 : monitors_ok st2) by (by apply (monitors_ok_congr st1)).
  assert (Hfoc2 : focus_registered st2 cl).
  { intros b Hb. apply Hfoc. by rewrite <- (sl_f_client _ _ H1). }
  destruct (monitors_ok_at _ _ Hmon2 Hw) as [m Hm].
  eapply returns_bind_run; [by apply monitor_of_exec |].
  apply returns_bind, returns_read. cbn [curr_ws set_curr_ws].
  destruct (lookup_lt_is_Some_2 (c_list st2) w) as [hd Hhd];
    [by rewrite (reg_c_len _ _ _ Hreg2) |].
  eapply returns_bind_run; [by apply (head_get_exec Next) |].
  rewrite (registry_head _ _ _ _ _ Hreg2 Hhd).
  destruct (cl w) as [|b l] eqn:Hclw; cbn [head].
  - apply returns_bind, returns_ret. apply returns_bind, returns_read, returns_xsend.
    split; [done |]. exact Hvis.
  - eapply returns_bind_with.
    { eapply returns_also.
      - apply (client_manage_focus_spec b w st2 cl fl); try done.
        rewrite Hclw. apply elem_of_cons. by left.
      - intros r st3 Hrun (_ & Hsh3 & _).
        exact (conj (ss_curr_ws _ _ Hsh3)
                 (client_manage_focus_frame hidden (Some b) (λ _ _, eq_refl) _ _ _ Hrun)). }
    intros [] st3 [Hcw3 Hk3].
    apply returns_bind, returns_read, returns_xsend.
    split; [done |].
    intros i a c Hi Ha Hc. destruct (Hvis i a c Hi Ha Hc) as (c1 & Hc1 & Hh1).
    destruct (Hk3 a c1 I Hc1) as (c3 & Hc3 & Hh3). exists c3. split; [done |].
    by rewrite Hh3.
Qed.

(** ** Traversals of the whole registry *)

Lemma registered_elem cl a :
  a ∈ registered cl ↔ ∃ i, (i < WORKSPACE_NUMBER)%nat ∧ a ∈ cl i.
Proof.
  unfold registered. rewrite list_elem_of_join. split.
  - intros (l & Ha & Hl). apply list_elem_of_fmap in Hl as (i & -> & Hi).
    apply elem_of_seq in Hi. exists i. split; [lia | done].
  - intros (i & Hi & Ha). exists (cl i). split; [done |].
    apply list_elem_of_fmap. exists i. split; [done |]. apply elem_of_seq. lia.
Qed.

Lemma export_loop r fuel p l st :
  is_list Next (heap st) p l → (length l ≤ fuel)%nat → r = root st →
  for_clients fuel (λ tmp,
    tc ← deref tmp;
    xsend (XChangeProperty r NetClientList PropModeAppend
             (DataWindows [gwidth (geom tc)]))) p st
  = Done tt (set_xlog (xlog st ++ (client_list_entry st <$> l)) st).
Proof.
  intros Hl Hfuel ->.
  assert (Hgen : ∀ s, heap s = heap st → root s = root st →
    for_clients fuel (λ tmp,
      tc ← deref tmp;
      xsend (XChangeProperty (root st) NetClientList PropModeAppend
               (DataWindows [gwidth (geom tc)]))) p s
    = Done tt (set_xlog (xlog s ++ (client_list_entry st <$> l)) s)).
  2:{ by apply Hgen. }
  revert p fuel Hl Hfuel. induction l as [|a l IH]; intros p fuel Hl Hfuel s Hh Hr.
  - cbn in Hl. subst p. destruct fuel; cbn; rewrite app_nil_r; by destruct s.
  - destruct Hl as (-> & c & Hc & Hl).
    destruct fuel as [|fuel]; [cbn in Hfuel; lia |]. cbn [for_clients].
    rewrite bind_assoc. erewrite bind_deref by (rewrite Hh; exact Hc).
    rewrite bind_xsend. erewrite bind_deref by (cbn; rewrite Hh; exact Hc).
    rewrite (IH (next c) fuel Hl) by (cbn in Hfuel; first [lia | done]).
    unfold set_xlog, client_list_entry. cbn. rewrite Hc, <- app_assoc. reflexivity.
Qed.

(** X12 — [update_c_list] deletes the exported list of clients and appends one
    entry per client of the registry, workspace by workspace and in stacking
    order; the entry of a client is taken from the address of its stored width.
    Nothing else changes. *)
Theorem update_c_list_exports (st : wm_state) (cl fl : nat → list addr) :
  registry st cl fl →
  update_c_list st =
  Done tt (set_xlog (xlog st ++ XDeleteProperty (root st) NetClientList
                             :: (client_list_entry st <$> registered cl)) st).
Proof.
  intros Hreg. unfold update_c_list, registered.
  rewrite bind_read, bind_xsend, traversal_bound_exec. cbn [heap set_xlog].
  assert (Hgen : ∀ n i s, (i + n ≤ WORKSPACE_NUMBER)%nat →
    heap s = heap st → root s = root st → c_list s = c_list st →
    for_range (λ i,
      hd ← c_list_get i;
      for_clients (S (size (heap st))) (λ tmp,
        tc ← deref tmp;
        xsend (XChangeProperty (root st) NetClientList PropModeAppend
                 (DataWindows [gwidth (geom tc)]))) hd) (Z.of_nat i) n s
    = Done tt (set_xlog (xlog s ++ (client_list_entry st <$> mjoin (cl <$> seq i n))) s)).
  { induction n as [|n IH]; intros i s Hi Hh Hr Hc.
    - cbn. rewrite app_nil_r. by destruct s.
    - cbn [for_range seq fmap list_fmap mjoin list_join].
      destruct (lookup_lt_is_Some_2 (c_list st) i) as [hd Hhd];
        [rewrite (reg_c_len _ _ _ Hreg); lia |].
      pose proof (reg_stack _ _ _ Hreg _ _ Hhd) as Hl.
      rewrite bind_assoc.
      erewrite bind_done by (apply (head_get_exec Next); cbn; by rewrite Hc).
      erewrite bind_done.
      2:{ apply export_loop; [by rewrite Hh | | done].
          pose proof (is_list_length _ _ _ _ Hl). lia. }
      replace (Z.of_nat i + 1) with (Z.of_nat (S i)) by lia.
      rewrite IH by (first [lia | done]).
      unfold set_xlog. cbn. rewrite fmap_app, <- !app_assoc.
      do 4 f_equal. apply list_fmap_ext. intros ? a _. unfold client_list_entry.
      by rewrite Hh, Hr. }
  rewrite (Hgen WORKSPACE_NUMBER 0%nat) by (first [lia | done]).
  unfold set_xlog. cbn. rewrite <- app_assoc. reflexivity.
Qed.

Lemma first_match_app h w l1 l2 :
  first_match h w (l1 ++ l2)
  = match first_match h w l1 with Some a => Some a | None => first_match h w l2 end.
Proof.
  induction l1 as [|a l1 IH]; [done |]. cbn.
  by destruct (from_option (window_match w) false (h !! a)).
Qed.

Lemma first_match_Some h w l a :
  first_match h w l = Some a →
  a ∈ l ∧ ∃ c, h !! a = Some c ∧ window_match w c = true.
Proof.
  induction l as [|b l IH]; [done |]. cbn.
  destruct (h !! b) as [cb |] eqn:Hb; cbn.
  - destruct (window_match w cb) eqn:Hm.
    + intros [= <-]. split; [apply elem_of_cons; by left | by exists cb].
    + intros [Ha Hc]%IH. split; [apply elem_of_cons; by right | done].
  - intros [Ha Hc]%IH. split; [apply elem_of_cons; by right | done].
Qed.

Lemma first_match_None h w l a c :
  first_match h w l = None → a ∈ l → h !! a = Some c → window_match w c = false.
Proof.
  induction l as [|b l IH]; [by intros _ ?%elem_of_nil |]. cbn.
  destruct (from_option (window_match w) false (h !! b)) eqn:Hb; [done |].
  intros Hn [-> | Ha]%elem_of_cons Hc; [| by apply IH].
  by rewrite Hc in Hb.
Qed.

Lemma window_scan_spec w fuel p l st :
  is_list Next (heap st) p l → (length l ≤ fuel)%nat →
  window_scan fuel w p st = Done (Some <$> first_match (heap st) w l) st.
Proof.
  revert p fuel. induction l as [|a l IH]; intros p fuel Hl Hfuel.
  - cbn in Hl. subst p. by destruct fuel.
  - destruct Hl as (-> & c & Hc & Hl).
    destruct fuel as [|fuel]; [cbn in Hfuel; lia |]. cbn [window_scan first_match].
    erewrite bind_deref by exact Hc. rewrite Hc. cbn [from_option].
    unfold window_match.
    destruct (window c =? w); [done |].
    destruct ((dec c =? 0) && (dec c =? w)); [done |]. cbn [orb].
    apply IH; [done | cbn in Hfuel; lia].
Qed.

Lemma get_client_from_window_first_aux (w : Z) (st : wm_state) (cl fl : nat → list addr) :
  registry st cl fl →
  get_client_from_window w st = Done (first_match (heap st) w (registered cl)) st.
Proof.
  intros Hreg. unfold get_client_from_window, registered.
  rewrite traversal_bound_exec.
  assert (Hgen : ∀ n i, (i + n ≤ WORKSPACE_NUMBER)%nat →
    get_client_from_window_from (S (size (heap st))) w (Z.of_nat i) n st
    = Done (first_match (heap st) w (mjoin (cl <$> seq i n))) st).
  2:{ by apply (Hgen WORKSPACE_NUMBER 0%nat). }
  induction n as [|n IH]; intros i Hi; [done |].
  cbn [get_client_from_window_from seq fmap list_fmap mjoin list_join].
  destruct (lookup_lt_is_Some_2 (c_list st) i) as [hd Hhd];
    [rewrite (reg_c_len _ _ _ Hreg); lia |].
  pose proof (reg_stack _ _ _ Hreg _ _ Hhd) as Hl.
  erewrite bind_done by (by apply (head_get_exec Next)).
  erewrite bind_done
    by (apply window_scan_spec; [done | pose proof (is_list_length _ _ _ _ Hl); lia]).
  rewrite first_match_app.
  destruct (first_match (heap st) w (cl i)); cbn [fmap option_fmap option_map]; [done |].
  replace (Z.of_nat i + 1) with (Z.of_nat (S i)) by lia. apply IH. lia.
Qed.

(** X13 — [get_client_from_window] returns the first client of the registry, in
    the order of the workspaces and of their stacking lists, whose window is the
    one asked for (or whose decoration is the null window when the null window
    is asked for), and [NULL] when there is none; it changes nothing. *)
Theorem get_client_from_window_first (w : Z) (st : wm_state) (cl fl : nat → list addr) :
  registry st cl fl →
  get_client_from_window w st = Done (first_match (heap st) w (registered cl)) st.
Proof. apply get_client_from_window_first_aux. Qed.

(** X14 — A client is not found by the window of its decoration: whenever
    [get_client_from_window] is asked for a window that is not null and is the
    window of no client of the registry, it returns [NULL], also when the window
    is the decoration of one of them. *)
Theorem get_client_from_window_decoration (w : Z) (st : wm_state)
    (cl fl : nat → list addr) :
  registry st cl fl →
  w ≠ 0 →
  (∀ a c, a ∈ registered cl → heap st !! a = Some c → window c ≠ w) →
  get_client_from_window w st = Done None st.
Proof.
  intros Hreg Hw Hnone.
  rewrite (get_client_from_window_first_aux w st cl fl Hreg).
  destruct (first_match (heap st) w (registered cl)) as [a |] eqn:Hm; [| done].
  apply first_match_Some in Hm as (Ha & c & Hc & Hmatch).
  unfold window_match in Hmatch. apply orb_true_iff in Hmatch as [Hx | Hx].
  - apply Z.eqb_eq in Hx. by destruct (Hnone a c Ha Hc).
  - apply andb_true_iff in Hx as [H0 Hd]. apply Z.eqb_eq in H0, Hd. congruence.
Qed.

(** ** Cycling the focus *)

Lemma is_list_at k h p l1 a l2 :
  is_list k h p (l1 ++ a :: l2) →
  p = Some (default a (head l1)) ∧
  ∃ c, h !! a = Some c ∧ link_get k c = head l2.
Proof.
  intros Hl. split.
  - destruct l1 as [|x l1]; by destruct Hl as (-> & _).
  - apply is_seg_app in Hl as (r & _ & (-> & c & Hc & Hl2)).
    exists c. split; [done |].
    destruct l2 as [|x l2]; [done | by destruct Hl2 as (-> & _)].
Qed.

(** [focus_next] on a client of a focus list focuses the client after it in
    the list, and the first of the list when it is the last. *)
Lemma focus_next_target a (w : nat) st cl fl l1 l2 :
  registry st cl fl →
  (w < WORKSPACE_NUMBER)%nat →
  fl w = l1 ++ a :: l2 →
  focus_next (Some a) st
  = client_manage_focus (Some (default (default a (head l1)) (head l2))) st.
Proof.
  forget_parameters.
  intros Hreg Hw Hfl.
  assert (Haf : a ∈ fl w) by (rewrite Hfl, elem_of_app, elem_of_cons; tauto).
  assert (Ha : a ∈ cl w) by (by rewrite (reg_perm _ _ _ Hreg w Hw)).
  destruct (registry_alloc _ _ _ _ _ Hreg Hw Ha) as (ca & Hca & Hws).
  destruct (lookup_lt_is_Some_2 (f_list st) w) as [fhd Hfhd];
    [by rewrite (reg_f_len _ _ _ Hreg) |].
  pose proof (reg_focus _ _ _ Hreg _ _ Hfhd) as Hl. rewrite Hfl in Hl.
  pose proof (is_list_NoDup _ _ _ _ Hl) as Hnd.
  destruct (is_list_at _ _ _ _ _ _ Hl) as (-> & c & Hc & Hnext).
  rewrite Hca in Hc. injection Hc as <-. cbn in Hnext.
  unfold focus_next. rewrite ptr_eqb_neq by done.
  erewrite bind_deref by exact Hca. rewrite Hws.
  erewrite bind_done by (by apply (head_get_exec FNext)).
  destruct l1 as [|x l1]; cbn [head from_option id].
  - rewrite ptr_eqb_refl, bind_assoc. erewrite bind_deref by exact Hca.
    rewrite bind_ret, Hnext. destruct l2 as [|y l2]; cbn [head from_option id].
    + rewrite ptr_eqb_refl. by erewrite bind_done by (by apply (head_get_exec FNext)).
    + rewrite ptr_eqb_neq by done. erewrite bind_deref by exact Hca.
      rewrite Hnext, ptr_eqb_neq by done. by rewrite bind_ret.
  - assert (Hxa : x ≠ a).
    { intros ->. apply NoDup_cons in Hnd as [Hn _]. apply Hn.
      rewrite elem_of_app, elem_of_cons. tauto. }
    rewrite ptr_eqb_neq by congruence. rewrite bind_ret.
    erewrite bind_deref by exact Hca. rewrite Hnext.
    destruct l2 as [|y l2]; cbn [head from_option id].
    + rewrite ptr_eqb_refl. by erewrite bind_done by (by apply (head_get_exec FNext)).
    + rewrite ptr_eqb_neq by done. by rewrite bind_ret.
Qed.

(** X15 — [ipc_cycle_focus] moves the focus from the focused client to the
    client after it in the focus order of its workspace, and from the last
    client of that order to the first; the focus order of every workspace is
    left as it is, and the new focused client is in front of the stacking order
    of the workspace. *)
Theorem ipc_cycle_focus_successor (d : list Z) (st : wm_state) (cl fl : nat → list addr)
    (a : addr) (w : nat) (l1 l2 : list addr) :
  registry st cl fl →
  f_client st = Some a →
  (w < WORKSPACE_NUMBER)%nat →
  fl w = l1 ++ a :: l2 →
  let b := default (default a (head l1)) (head l2) in
  ∃ st',
    ipc_cycle_focus d st = Done tt st' ∧
    f_client st' = Some b ∧
    registry st' (<[w := b :: remove_client b (cl w)]> cl) fl ∧
    (b = a ↔ fl w = [a]).
Proof.
  forget_parameters.
  intros Hreg Hf Hw Hfl b.
  assert (Hbf : b ∈ fl w).
  { rewrite Hfl, elem_of_app, elem_of_cons. unfold b.
    destruct l2 as [|y l2]; cbn; [| right; right; apply elem_of_cons; by left].
    destruct l1 as [|x l1]; cbn; [by right; left | left; apply elem_of_cons; by left]. }
  assert (Hb : b ∈ cl w) by (by rewrite (reg_perm _ _ _ Hreg w Hw)).
  assert (Haf : a ∈ fl w) by (rewrite Hfl, elem_of_app, elem_of_cons; tauto).
  assert (Hfoc : focus_registered st cl).
  { intros x Hx. rewrite Hf in Hx. injection Hx as <-. exists w. split; [done |].
    by rewrite (reg_perm _ _ _ Hreg w Hw). }
  destruct (returns_unit (client_manage_focus (Some b)) st (λ st',
              registry st' (<[w := b :: remove_client b (cl w)]> cl) fl ∧
              same_shape st st' ∧ f_client st' = Some b ∧ f_list st' = f_list st))
    as (st' & Hrun & Hreg' & _ & Hf' & _); [by apply client_manage_focus_spec |].
  exists st'. split.
  { unfold ipc_cycle_focus. rewrite bind_read, Hf.
    by rewrite (focus_next_target a w st cl fl l1 l2 Hreg Hw Hfl). }
  split; [done |]. split; [done |].
  assert (Hnd : NoDup (fl w)).
  { rewrite <- (reg_perm _ _ _ Hreg w Hw). by apply (reg_nodup _ _ _ Hreg). }
  rewrite Hfl in Hnd. apply NoDup_app in Hnd as (_ & Hdis & Hnd2).
  apply NoDup_cons in Hnd2 as [Hna2 _].
  unfold b. rewrite Hfl. split.
  - destruct l2 as [|y l2]; cbn.
    + destruct l1 as [|x l1]; cbn; [done |]. intros ->.
      destruct (Hdis a); apply elem_of_cons; by left.
    + intros ->. destruct Hna2. apply elem_of_cons. by left.
  - destruct l1 as [|x l1]; [| by destruct l1]. by intros [= ->].
Qed.

(** The client that [focus_next] focuses, by its position in the focus
    list. *)
Lemma successor_lookup (l : list addr) (i : nat) x :
  l !! i = Some x →
  Some (default (default x (head (take i l))) (head (drop (S i) l)))
  = l !! (S i mod length l)%nat.
Proof.
  intros Hx. pose proof (lookup_lt_Some _ _ _ Hx) as Hi.
  rewrite !head_lookup, lookup_drop, Nat.add_0_r.
  destruct (decide (S i < length l)%nat) as [Hlt | Hge].
  - rewrite Nat.mod_small by done.
    destruct (lookup_lt_is_Some_2 l (S i) Hlt) as [y ->]. done.
  - assert (S i = length l) as -> by lia. rewrite Nat.Div0.mod_same.
    rewrite (lookup_ge_None_2 l (length l)) by lia. cbn [from_option].
    destruct i as [|i]; cbn [take]; [cbn; by rewrite Hx |].
    rewrite lookup_take_lt by lia.
    destruct (lookup_lt_is_Some_2 l 0) as [y ->]; [lia | done].
Qed.

Lemma cycle_focus_step d st cl fl (w i : nat) x :
  registry st cl fl →
  (w < WORKSPACE_NUMBER)%nat →
  fl w !! i = Some x →
  f_client st = Some x →
  ∃ st' cl',
    ipc_cycle_focus d st = Done tt st' ∧
    registry st' cl' fl ∧
    f_client st' = fl w !! (S i mod length (fl w))%nat.
Proof.
  intros Hreg Hw Hx Hf.
  pose proof (take_drop_middle _ _ _ Hx) as Hsplit. symmetry in Hsplit.
  set (b := default (default x (head (take i (fl w)))) (head (drop (S i) (fl w)))).
  assert (Hbl : Some b = fl w !! (S i mod length (fl w))%nat)
    by (by apply successor_lookup).
  assert (Hb : b ∈ cl w).
  { rewrite (reg_perm _ _ _ Hreg w Hw). symmetry in Hbl.
    by eapply list_elem_of_lookup_2. }
  assert (Hfoc : focus_registered st cl).
  { intros y Hy. rewrite Hf in Hy. injection Hy as <-. exists w. split; [done |].
    rewrite (reg_perm _ _ _ Hreg w Hw). by eapply list_elem_of_lookup_2. }
  destruct (returns_unit (client_manage_focus (Some b)) st (λ st',
              registry st' (<[w := b :: remove_client b (cl w)]> cl) fl ∧
              same_shape st st' ∧ f_client st' = Some b ∧ f_list st' = f_list st))
    as (st' & Hrun & Hreg' & _ & Hf' & _); [by apply client_manage_focus_spec |].
  exists st', (<[w := b :: remove_client b (cl w)]> cl).
  split; [| split; [done | by rewrite Hf']].
  unfold ipc_cycle_focus. rewrite bind_read, Hf.
  by rewrite (focus_next_target x w st cl fl _ _ Hreg Hw Hsplit).
Qed.

(** X16 — Repeated [ipc_cycle_focus] walks round the focus list of the workspace
    of the focused client: from the client at position [i], [k] calls leave the
    focus on the client at position [(i + k) mod n], with [n] the length of the
    list.  In particular [n] calls bring the focus back to where it was, and
    every client of the workspace is reached on the way. *)
Theorem ipc_cycle_focus_rotates (d : list Z) (k : nat) (st : wm_state)
    (cl fl : nat → list addr) (w i : nat) (a : addr) :
  registry st cl fl →
  (w < WORKSPACE_NUMBER)%nat →
  fl w !! i = Some a →
  f_client st = Some a →
  ∃ st' cl',
    for_range (λ _, ipc_cycle_focus d) 0 k st = Done tt st' ∧
    registry st' cl' fl ∧
    f_client st' = fl w !! ((i + k) mod length (fl w))%nat.
Proof.
  intros Hreg Hw Ha Hf.
  pose proof (lookup_lt_Some _ _ _ Ha) as Hi.
  assert (Hgen : ∀ k j (i : nat) x s c,
    registry s c fl → fl w !! i = Some x → f_client s = Some x →
    ∃ st' cl',
      for_range (λ _, ipc_cycle_focus d) j k s = Done tt st' ∧
      registry st' cl' fl ∧
      f_client st' = fl w !! ((i + k) mod length (fl w))%nat).
  2:{ by apply (Hgen k 0 i a st cl). }
  clear - Hw. induction k as [|k IH]; intros j i x s c Hreg Hx Hf.
  - exists s, c. split; [done |]. split; [done |].
    pose proof (lookup_lt_Some _ _ _ Hx). rewrite Nat.add_0_r, Nat.mod_small by done.
    by rewrite Hf.
  - pose proof (lookup_lt_Some _ _ _ Hx) as Hi.
    destruct (cycle_focus_step d s c fl w i x Hreg Hw Hx Hf)
      as (s1 & c1 & Hrun1 & Hreg1 & Hf1).
    destruct (lookup_lt_is_Some_2 (fl w) (S i mod length (fl w))) as [y Hy];
      [apply Nat.mod_upper_bound; lia |].
    rewrite Hy in Hf1.
    destruct (IH (j + 1) _ y s1 c1 Hreg1 Hy Hf1) as (st' & cl' & Hrun & Hreg' & Hf').
    exists st', cl'. split; [| split; [done |]].
    + cbn [for_range]. by erewrite bind_done by exact Hrun1.
    + rewrite Hf'. f_equal.
      rewrite Nat.Div0.add_mod_idemp_l. f_equal. lia.
Qed.

(** ** Deleting a client that is in no list *)

Lemma delete_scan_absent k (fuel : nat) a l p st :
  is_list k (heap st) p l → a ∉ l → (length l < fuel)%nat →
  delete_scan k fuel (Some a) p st = Done None st.
Proof.
  revert fuel p. induction l as [|x l IH]; intros fuel p Hl Hnot Hfuel;
    (destruct fuel as [|fuel]; [cbn in Hfuel; lia |]).
  - cbn in Hl. by subst p.
  - destruct Hl as (-> & cx & Hcx & Hrest). cbn [delete_scan].
    erewrite bind_deref by eassumption.
    apply not_elem_of_cons in Hnot as [Hxa Hnot].
    assert (Hne : link_get k cx ≠ Some a).
    { destruct l as [|y l']; [by rewrite Hrest |].
      destruct Hrest as (-> & _). intros [= ->]. apply Hnot, elem_of_cons. by left. }
    rewrite (ptr_eqb_neq _ _ Hne). cbn [negb].
    apply IH; [done | done | cbn in Hfuel; lia].
Qed.

(** X17 — [client_delete] of a client that is allocated and names a workspace of
    the table, but is not in the stacking list of that workspace, scans the list
    to its end and then writes through the null pointer. *)
Theorem client_delete_unregistered (a : addr) (ca : client) (w : nat) (st : wm_state)
    (cl fl : nat → list addr) :
  registry st cl fl →
  heap st !! a = Some ca →
  ws ca = Z.of_nat w →
  (w < WORKSPACE_NUMBER)%nat →
  a ∉ cl w →
  client_delete (Some a) st = Fault.
Proof.
  intros Hreg Hca Hws Hw Hna. unfold client_delete.
  erewrite bind_deref by exact Hca. rewrite Hws.
  destruct (Z.eqb_spec (Z.of_nat w) (-1)); [lia |].
  apply bind_fault. unfold delete_in.
  destruct (lookup_lt_is_Some_2 (c_list st) w) as [hd Hhd];
    [by rewrite (reg_c_len _ _ _ Hreg) |].
  pose proof (reg_stack _ _ _ Hreg _ _ Hhd) as Hl.
  erewrite bind_done by (by apply (head_get_exec Next)).
  assert (Hne : hd ≠ Some a).
  { intros ->. destruct (cl w) as [|x l]; [done |].
    destruct Hl as ([= <-] & _). apply Hna, elem_of_cons. by left. }
  rewrite (ptr_eqb_neq _ _ Hne). rewrite traversal_bound_exec.
  erewrite bind_done.
  2:{ apply (delete_scan_absent Next _ a (cl w)); [done | done |].
      pose proof (is_list_length _ _ _ _ Hl). lia. }
  reflexivity.
Qed.

(** ** Unmapping a window *)

Lemma is_seg_delete k h p l q a :
  a ∉ l → is_seg k h p l q → is_seg k (delete a h) p l q.
Proof.
  revert p. induction l as [|x l IH]; intros p Hna; [done |].
  apply not_elem_of_cons in Hna as [Hax Hna].
  intros (-> & c & Hc & Hl). split; [done |]. exists c.
  rewrite lookup_delete_ne by done. split; [done |]. by apply IH.
Qed.

(** Freeing a client that is in no list leaves the registry well formed. *)
Lemma registry_free a st cl fl :
  registry st cl fl →
  (∀ i, (i < WORKSPACE_NUMBER)%nat → a ∉ cl i) →
  registry (set_heap (delete a (heap st)) st) cl fl.
Proof.
  intros Hreg Hfresh. pose proof Hreg as [].
  assert (Hlt : ∀ i p, c_list st !! i = Some p → (i < WORKSPACE_NUMBER)%nat).
  { intros i p Hp. rewrite <- reg_c_len0. by eapply lookup_lt_Some. }
  assert (Hlt' : ∀ i p, f_list st !! i = Some p → (i < WORKSPACE_NUMBER)%nat).
  { intros i p Hp. rewrite <- reg_f_len0. by eapply lookup_lt_Some. }
  split; cbn; try done.
  - intros i p Hp. apply is_seg_delete; [by eapply Hfresh, Hlt | by eapply reg_stack0].
  - intros i p Hp. apply is_seg_delete; [| by eapply reg_focus0].
    rewrite <- (reg_perm0 i (Hlt' _ _ Hp)). by eapply Hfresh, Hlt'.
  - intros i x cx Hi Hx Hcx.
    apply lookup_delete_Some in Hcx as [_ Hcx]. by eapply reg_ws0.
Qed.

(** X18 — [handle_unmap_notify] for a window that belongs to no client changes
    nothing.  For the window of a client of the registry it moves the focus on,
    takes the client out of both lists of its workspace and frees it: afterwards
    the client is not allocated and is in no list, the other clients are in the
    lists they were in, the registry is well formed, and the focused-client
    reference is null or points to a client of the registry, never to the block
    that was freed. *)
Theorem handle_unmap_notify_removes (w0 : Z) (st : wm_state) (cl fl : nat → list addr) :
  registry st cl fl →
  focus_registered st cl →
  match first_match (heap st) w0 (registered cl) with
  | None => handle_unmap_notify w0 st = Done tt st
  | Some a =>
      ∃ st' cl' fl',
        handle_unmap_notify w0 st = Done tt st' ∧
        heap st' !! a = None ∧
        registry st' cl' fl' ∧
        focus_registered st' cl' ∧
        f_client st' ≠ Some a ∧
        (∀ i, (i < WORKSPACE_NUMBER)%nat → a ∉ cl' i) ∧
        (∀ i b, (i < WORKSPACE_NUMBER)%nat → b ≠ a → b ∈ cl' i ↔ b ∈ cl i)
  end.
Proof.
  forget_parameters.
  intros Hreg Hfoc. unfold handle_unmap_notify.
  erewrite bind_done by (by apply (get_client_from_window_first_aux w0 st cl fl)).
  destruct (first_match (heap st) w0 (registered cl)) as [a |] eqn:Hm; [| done].
  rewrite ptr_eqb_neq by done. cbn [negb].
  apply first_match_Some in Hm as (Hareg & _).
  apply registered_elem in Hareg as (w & Hw & Ha).
  assert (Haf : a ∈ fl w) by (by rewrite <- (reg_perm _ _ _ Hreg w Hw)).
  apply list_elem_of_split in Haf as (l1 & l2 & Hfl).
  remember (default (default a (head l1)) (head l2)) as b eqn:Eb.
  assert (Hbf : b ∈ fl w).
  { rewrite Hfl, elem_of_app, elem_of_cons, Eb.
    destruct l2 as [|y l2]; cbn; [| right; right; apply elem_of_cons; by left].
    destruct l1 as [|x l1]; cbn; [by right; left | left; apply elem_of_cons; by left]. }
  assert (Hb : b ∈ cl w) by (by rewrite (reg_perm _ _ _ Hreg w Hw)).
  assert (Hba : b = a → cl w = [a]).
  { pose proof (reg_nodup _ _ _ Hreg w Hw) as Hnd.
    rewrite (reg_perm _ _ _ Hreg w Hw), Hfl in Hnd.
    apply NoDup_app in Hnd as (_ & Hdis & Hnd2).
    apply NoDup_cons in Hnd2 as [Hna2 _]. rewrite Eb. intros Hba.
    assert (l1 = [] ∧ l2 = []) as [-> ->].
    { destruct l2 as [|y l2]; cbn in Hba.
      - destruct l1 as [|x l1]; cbn in Hba; [done |]. subst x.
        destruct (Hdis a); apply elem_of_cons; by left.
      - subst y. destruct Hna2. apply elem_of_cons. by left. }
    pose proof (reg_perm _ _ _ Hreg w Hw) as Hp. rewrite Hfl in Hp. cbn in Hp.
    by apply Permutation_singleton_r in Hp. }
  (* the focus moves on *)
  destruct (returns_unit (client_manage_focus (Some b)) st (λ st',
              registry st' (<[w := b :: remove_client b (cl w)]> cl) fl ∧
              same_shape st st' ∧ f_client st' = Some b ∧ f_list st' = f_list st))
    as (st1 & Hrun1 & Hreg1 & Hsh1 & Hf1 & _); [by apply client_manage_focus_spec |].
  set (cl1 := <[w := b :: remove_client b (cl w)]> cl) in *.
  erewrite bind_done
    by (rewrite (focus_next_target a w st cl fl l1 l2 Hreg Hw Hfl), <- Eb; exact Hrun1).
  destruct (registry_alloc _ _ _ _ _ Hreg Hw Ha) as (ca & Hca & Hws).
  destruct (same_shape_lookup _ _ _ _ Hsh1 Hca) as (ca1 & Hca1 & Hws1).
  erewrite bind_deref by exact Hca1.
  assert (Ha1 : a ∈ cl1 w).
  { unfold cl1. rewrite fn_lookup_insert. destruct (decide (a = b)) as [-> | Hne].
    - apply elem_of_cons. by left.
    - apply elem_of_cons. right. by apply remove_client_elem. }
  (* the decoration, then the lists *)
  assert (Hdel : ∀ s, heap s = heap st1 → c_list s = c_list st1 →
                  f_list s = f_list st1 → f_client s = f_client st1 →
            ∃ st2, client_delete (Some a) s = Done tt st2 ∧
                   registry st2 (<[w := remove_client a (cl1 w)]> cl1)
                                (<[w := remove_client a (fl w)]> fl) ∧
                   f_client st2 = (if decide (remove_client a (cl1 w) = [])
                                   then None else Some b)).
  { intros s Hh Hc Hfl' Hfc.
    destruct (client_delete_spec a w s cl1 fl) as (st2 & Hrun2 & Hreg2 & _ & Hf2 & _);
      [by apply (registry_congr st1) | done | done |].
    exists st2. split; [done |]. split; [done |]. by rewrite Hf2, Hfc, Hf1. }
  assert (Hfin : ∀ s, heap s = heap st1 → c_list s = c_list st1 →
                  f_list s = f_list st1 → f_client s = f_client st1 →
    ∃ st' cl' fl',
      (client_delete (Some a);; free (Some a)) s = Done tt st' ∧
      heap st' !! a = None ∧ registry st' cl' fl' ∧ focus_registered st' cl' ∧
      f_client st' ≠ Some a ∧
      (∀ i, (i < WORKSPACE_NUMBER)%nat → a ∉ cl' i) ∧
      (∀ i x, (i < WORKSPACE_NUMBER)%nat → x ≠ a → x ∈ cl' i ↔ x ∈ cl i)).
  { intros s Hh Hc Hfl' Hfc.
    destruct (Hdel s Hh Hc Hfl' Hfc) as (st2 & Hrun2 & Hreg2 & Hf2).
    set (cl2 := <[w := remove_client a (cl1 w)]> cl1) in *.
    set (fl2 := <[w := remove_client a (fl w)]> fl) in *.
    assert (Hin2 : ∀ i x, (i < WORKSPACE_NUMBER)%nat → x ∈ cl2 i ↔ x ≠ a ∧ x ∈ cl i).
    { intros i x Hi. unfold cl2, cl1. destruct (decide (w = i)) as [<- | Hne].
      - rewrite !fn_lookup_insert, remove_client_elem, elem_of_cons, remove_client_elem.
        split; [intros (Hxa & [-> | [_ Hx]]); done |].
        intros [Hxa Hx]. split; [done |].
        destruct (decide (x = b)); [by left | by right].
      - rewrite !fn_lookup_insert_ne by done. split; [| tauto].
        intros Hx. split; [| done]. intros Hxa. subst x.
        apply Hne. by apply (reg_disjoint _ _ _ Hreg w i a). }
    assert (Hfresh2 : ∀ i, (i < WORKSPACE_NUMBER)%nat → a ∉ cl2 i).
    { intros i Hi Hx. by apply Hin2 in Hx as [? _]. }
    exists (set_heap (delete a (heap st2)) st2), cl2, fl2.
    split; [by erewrite bind_done by exact Hrun2 |].
    split; [cbn; apply lookup_delete_eq |].
    split; [by apply registry_free |].
    assert (Hfr : focus_registered (set_heap (delete a (heap st2)) st2) cl2).
    { intros x Hx. cbn in Hx. rewrite Hf2 in Hx.
      destruct (decide (remove_client a (cl1 w) = [])) as [|Hne]; [done |].
      injection Hx as <-. exists w. split; [done |]. apply Hin2; [done |].
      split; [| done].
      intros Heq. apply Hne. unfold cl1. rewrite fn_lookup_insert, (Hba Heq), Heq.
      by rewrite !(remove_client_head a []) by apply not_elem_of_nil. }
    split; [done |]. split.
    { intros Hx. destruct (Hfr a Hx) as (i & Hi & Hai). by apply (Hfresh2 i). }
    split; [done |]. intros i x Hi Hxa. rewrite Hin2 by done. tauto. }
  destruct (decorated ca1).
  - rewrite bind_xsend. by apply Hfin.
  - rewrite bind_ret. by apply Hfin.
Qed.

(** ** Focusing a client *)

(** X19 — [client_manage_focus] on a client of the registry makes it the focused
    client and the first of the stacking list of its workspace; the focus lists
    are left as they are, and no field of any client other than the [next] links
    of that stacking list is changed: focusing never moves, resizes, hides or
    shows a client. *)
Theorem client_manage_focus_raises (a : addr) (w : nat) (st : wm_state)
    (cl fl : nat → list addr) :
  registry st cl fl →
  focus_registered st cl →
  (w < WORKSPACE_NUMBER)%nat →
  a ∈ cl w →
  ∃ st',
    client_manage_focus (Some a) st = Done tt st' ∧
    f_client st' = Some a ∧
    registry st' (<[w := a :: remove_client a (cl w)]> cl) fl ∧
    f_list st' = f_list st ∧
    ∀ b c, heap st !! b = Some c →
      ∃ c', heap st' !! b = Some c' ∧ set_next (next c) c' = c.
Proof.
  intros Hreg Hfoc Hw Ha.
  apply (returns_unit (client_manage_focus (Some a)) st (λ st',
    f_client st' = Some a ∧
    registry st' (<[w := a :: remove_client a (cl w)]> cl) fl ∧
    f_list st' = f_list st ∧
    ∀ b c, heap st !! b = Some c →
      ∃ c', heap st' !! b = Some c' ∧ set_next (next c) c' = c)).
  eapply returns_also; [by apply (client_manage_focus_spec a w st cl fl) |].
  intros [] st' Hrun (Hreg' & _ & Hf' & Hfl').
  split; [done |]. split; [done |]. split; [done |].
  intros b c Hc.
  destruct (client_manage_focus_frame (set_next None) (Some a) (λ _ _, eq_refl)
              _ _ _ Hrun b c I Hc) as (c' & Hc' & E).
  exists c'. split; [done |].
  destruct c, c'. cbn in *. by injection E as -> -> -> -> -> -> -> -> ->.
Qed.

(** ** Decorations *)

Lemma client_decorate_new_same_links a st :
  is_Some (heap st !! a) →
  returns (client_decorate_new (Some a)) st (λ _ st', same_links st st').
Proof.
  intros Ha. unfold client_decorate_new.
  apply returns_bind_deref; [done |]. intros c Hc.
  do 3 (apply returns_bind, returns_read).
  sl_step ltac:(apply xsend_same_links).
  sl_step ltac:(apply xsend_same_links).
  sl_last ltac:(apply assign_same_links; [by eapply same_links_alloc | done]).
Qed.

Lemma client_decorations_destroy_same_links a st :
  is_Some (heap st !! a) →
  returns (client_decorations_destroy (Some a)) st (λ _ st', same_links st st').
Proof.
  intros Ha. unfold client_decorations_destroy.
  apply returns_bind_deref; [done |]. intros c Hc.
  sl_step ltac:(apply xsend_same_links).
  sl_step ltac:(apply xsend_same_links).
  sl_last ltac:(apply assign_same_links; [by eapply same_links_alloc | done]).
Qed.

Lemma client_decorate_new_decorated a st r st' :
  client_decorate_new (Some a) st = Done r st' →
  ∃ c', heap st' !! a = Some c' ∧ decorated c' = true.
Proof.
  unfold client_decorate_new. intros (c & s1 & _ & H)%bind_inv.
  rewrite !bind_read, !bind_xsend in H.
  unfold assign in H. cbn in H. destruct (heap s1 !! a) as [c1 |]; [| done].
  injection H as _ <-. eexists. split; [apply lookup_insert_eq | done].
Qed.

Lemma client_decorations_destroy_undecorated a st r st' :
  client_decorations_destroy (Some a) st = Done r st' →
  ∃ c', heap st' !! a = Some c' ∧ decorated c' = false.
Proof.
  unfold client_decorations_destroy. intros (c & s1 & _ & H)%bind_inv.
  rewrite !bind_xsend in H.
  unfold assign in H. cbn in H. destruct (heap s1 !! a) as [c1 |]; [| done].
  injection H as _ <-. eexists. split; [apply lookup_insert_eq | done].
Qed.

(** X20 — [client_toggle_decorations] on a client of the registry flips its
    [decorated] flag and focuses it: the client becomes the focused client and
    the first of the stacking list of its workspace.  The state it leaves is
    again well formed, so that a second call brings the flag back to its value. *)
Theorem client_toggle_decorations_flips (a : addr) (c : client) (w : nat)
    (st : wm_state) (cl fl : nat → list addr) :
  registry st cl fl →
  focus_registered st cl →
  monitors_ok st →
  (w < WORKSPACE_NUMBER)%nat →
  a ∈ cl w →
  heap st !! a = Some c →
  ∃ st' c' cl',
    client_toggle_decorations (Some a) st = Done tt st' ∧
    heap st' !! a = Some c' ∧
    decorated c' = negb (decorated c) ∧
    window c' = window c ∧ hidden c' = hidden c ∧
    f_client st' = Some a ∧
    registry st' cl' fl ∧ focus_registered st' cl' ∧ monitors_ok st' ∧
    cl' w = a :: remove_client a (cl w).
Proof.
  intros Hreg Hfoc Hmon Hw Ha Hc.
  set (cl' := <[w := a :: remove_client a (cl w)]> cl).
  assert (Hok : client_ok st a) by (by apply (registry_client_ok st cl fl w)).
  cut (returns (client_toggle_decorations (Some a)) st (λ _ st', ∃ c' cl',
    heap st' !! a = Some c' ∧ decorated c' = negb (decorated c) ∧
    window c' = window c ∧ hidden c' = hidden c ∧
    f_client st' = Some a ∧
    registry st' cl' fl ∧ focus_registered st' cl' ∧ monitors_ok st' ∧
    cl' w = a :: remove_client a (cl w))).
  { intros (st' & Hrun & c' & cl2 & H)%returns_unit. by exists st', c', cl2. }
  eapply (returns_also _ _ (λ _ st',
            registry st' cl' fl ∧ f_client st' = Some a ∧ monitors_ok st')).
  { unfold client_toggle_decorations.
    apply returns_bind_deref; [by eexists |]. intros c0 Hc0.
    eapply returns_bind_same_links with (st0 := st); [apply same_links_refl | |].
    { destruct (decorated c0);
        [apply client_decorations_destroy_same_links
        | apply client_decorate_new_same_links]; by eexists. }
    intros _ st1 H1.
    eapply returns_bind_same_links with (st0 := st); [exact H1 | |].
    { apply client_refresh_same_links. by eapply same_links_client_ok. }
    intros _ st2 H2.
    eapply returns_bind_same_links with (st0 := st); [exact H2 | |].
    { apply client_raise_same_links. intros ? [= <-]. eapply same_links_alloc; [done |].
      by eexists. }
    intros _ st3 H3.
    eapply returns_conseq.
    { apply (client_manage_focus_spec a w st3 cl fl); try done.
      - by eapply same_links_registry.
      - intros b Hb. apply Hfoc. by rewrite <- (sl_f_client _ _ H3). }
    intros [] st4 (Hreg4 & Hsh4 & Hf4 & _).
    exact (conj Hreg4
             (conj Hf4 (monitors_ok_shape _ _ Hsh4 (same_links_monitors_ok _ _ H3 Hmon)))). }
  intros [] st' Hrun (Hreg' & Hf' & Hmon').
  assert (Hfield : ∃ c', heap st' !! a = Some c' ∧ decorated c' = negb (decorated c) ∧
                         window c' = window c ∧ hidden c' = hidden c).
  { unfold client_toggle_decorations in Hrun.
    apply bind_inv in Hrun as (c0 & s0 & Hd & Hrun).
    unfold deref in Hd. rewrite Hc in Hd. injection Hd as <- <-.
    apply bind_inv in Hrun as ([] & s1 & Htog & Hrest).
    assert (H1 : ∃ c1, heap s1 !! a = Some c1 ∧ decorated c1 = negb (decorated c) ∧
                       window c1 = window c ∧ hidden c1 = hidden c).
    { assert (Hk : keeps (λ _, True) (λ x, (window x, hidden x)) st s1).
      { assert (Hp : preserves (λ _, True) (λ x, (window x, hidden x))
                       (if decorated c then client_decorations_destroy (Some a)
                        else client_decorations_create (Some a))).
        { destruct (decorated c);
            unfold client_decorations_destroy, client_decorations_create,
              client_decorate_new; frame. }
        exact (Hp _ _ _ Htog). }
      destruct (Hk a c I Hc) as (c1 & Hc1 & [= Hwin Hhid]).
      exists c1. split; [done |]. split; [| done].
      destruct (decorated c).
      - destruct (client_decorations_destroy_undecorated _ _ _ _ Htog) as (c1' & Hc1' & Hd1).
        rewrite Hc1 in Hc1'. by injection Hc1' as <-.
      - destruct (client_decorate_new_decorated _ _ _ _ Htog) as (c1' & Hc1' & Hd1).
        rewrite Hc1 in Hc1'. by injection Hc1' as <-. }
    destruct H1 as (c1 & Hc1 & Hd1 & Hw1 & Hh1).
    assert (Hk : keeps (λ _, True) (λ x, (decorated x, window x, hidden x)) s1 st').
    { assert (Hp : preserves (λ _, True) (λ x, (decorated x, window x, hidden x))
                     (client_refresh (Some a);; client_raise (Some a);;
                      client_manage_focus (Some a))).
      { apply preserves_bind; [by apply client_refresh_frame | intros _].
        apply preserves_bind; [apply client_raise_frame | intros _].
        by apply client_manage_focus_frame. }
      exact (Hp _ _ _ Hrest). }
    destruct (Hk a c1 I Hc1) as (c' & Hc' & [= Hd' Hw' Hh']).
    exists c'. split; [done |]. by rewrite Hd', Hw', Hh'. }
  destruct Hfield as (c' & Hc' & Hd' & Hw' & Hh').
  exists c', cl'. repeat (split; [done |]). split.
  - intros b Hb. rewrite Hf' in Hb. injection Hb as <-. exists w. split; [done |].
    unfold cl'. rewrite fn_lookup_insert. apply elem_of_cons. by left.
  - split; [done |]. unfold cl'. by rewrite fn_lookup_insert.
Qed.

(** ** Configuration changes *)

Lemma refresh_config_client_spec (i : nat) a st :
  client_ok st a →
  returns (refresh_config_client (Z.of_nat i) (Some a)) st (λ _ st2,
    same_links st st2 ∧ keeps (λ b, b ≠ a) id st st2 ∧
    ∀ c, heap st !! a = Some c →
      ∃ c', heap st2 !! a = Some c' ∧
            hidden c' = negb (Z.of_nat i =? curr_ws st) ∧
            decorated c' = decorated c ∧ window c' = window c).
Proof.
  intros Hok. pose proof (client_ok_alloc _ _ Hok) as Hal.
  eapply (returns_also _ _ (λ _ st2,
            same_links st st2 ∧
            ∃ c', heap st2 !! a = Some c' ∧ hidden c' = negb (Z.of_nat i =? curr_ws st))).
  { unfold refresh_config_client.
    apply returns_bind_deref; [done |]. intros c Hc.
    eapply returns_bind_same_links with (st0 := st); [apply same_links_refl | |].
    { destruct (decorated c); [| apply returns_ret, same_links_refl].
      sl_step ltac:(by apply client_decorations_destroy_same_links).
      sl_last ltac:(apply client_decorate_new_same_links; by eapply same_links_alloc). }
    intros _ st1 H1.
    sl_step ltac:(apply client_refresh_same_links; by eapply same_links_client_ok).
    sl_step ltac:(apply client_show_same_links; by eapply same_links_client_ok).
    do 2 (apply returns_bind, returns_read).
    eapply returns_bind_same_links with (st0 := st); [eassumption | |].
    { destruct (negb _); apply client_set_color_same_links; by eapply same_links_alloc. }
    intros _ st4 H4. apply returns_bind, returns_read.
    rewrite (sl_curr_ws _ _ H4).
    destruct (negb (Z.of_nat i =? curr_ws st)).
    - eapply returns_also;
        [apply client_hide_same_links; by eapply same_links_alloc |].
      intros r s' Hrun Hs'. split; [by eapply same_links_trans |].
      by eapply client_hide_hidden.
    - eapply returns_also.
      { sl_step ltac:(apply client_show_same_links; by eapply same_links_client_ok).
        sl_last ltac:(apply client_raise_same_links; intros ? [= <-];
                      by eapply same_links_alloc). }
      intros r s' Hrun Hs'. split; [done |].
      apply bind_inv in Hrun as ([] & s5 & Hshow & Hraise).
      destruct (client_show_shown _ _ _ _ Hshow) as (c5 & Hc5 & Hh5).
      destruct (client_raise_frame (λ _, True) hidden (Some a) _ _ _ Hraise a c5 I Hc5)
        as (c' & Hc' & E).
      exists c'. split; [done | congruence]. }
  intros [] st2 Hrun (Hsl & c' & Hc' & Hh'). split; [done |]. split.
  { assert (Hp : preserves (λ b, b ≠ a) id (refresh_config_client (Z.of_nat i) (Some a))).
    { unfold refresh_config_client, client_decorations_create. frame. }
    exact (Hp _ _ _ Hrun). }
  intros c Hc. exists c'. split; [done |]. split; [done |].
  unfold refresh_config_client in Hrun.
  apply bind_inv in Hrun as (c0 & s0 & Hd & Hrun).
  unfold deref in Hd. rewrite Hc in Hd. injection Hd as <- <-.
  apply bind_inv in Hrun as ([] & s1 & Hdec & Hrun).
  assert (H1 : ∃ c1, heap s1 !! a = Some c1 ∧ decorated c1 = decorated c ∧
                     window c1 = window c).
  { assert (Hp : preserves (λ _, True) window
                   (if decorated c
                    then client_decorations_destroy (Some a);;
                         client_decorations_create (Some a)
                    else mret tt)).
    { unfold client_decorations_create. frame. }
    destruct (Hp _ _ _ Hdec a c I Hc) as (c1 & Hc1 & Hw1).
    exists c1. split; [done |]. split; [| done].
    destruct (decorated c) eqn:Hdc; [| injection Hdec as <-; congruence].
    apply bind_inv in Hdec as ([] & sd & _ & Hnew).
    destruct (client_decorate_new_decorated _ _ _ _ Hnew) as (c1' & Hc1' & Hd1).
    rewrite Hc1 in Hc1'. by injection Hc1' as <-. }
  destruct H1 as (c1 & Hc1 & Hd1 & Hw1).
  assert (Hp :
            preserves (λ _, True) (λ x, (decorated x, window x))
              (client_refresh (Some a);; client_show (Some a);;
               fc ← read f_client; cf ← read conf;
               (if negb (ptr_eqb fc (Some a))
                then client_set_color (Some a) (iu_color cf) (bu_color cf)
                else client_set_color (Some a) (if_color cf) (bf_color cf));;
               cw ← read curr_ws;
               if negb (Z.of_nat i =? cw) then client_hide (Some a)
               else client_show (Some a);; client_raise (Some a))).
  { frame. }
  destruct (Hp _ _ _ Hrun a c1 I Hc1) as (c2 & Hc2 & [= Hd2 Hw2]).
  rewrite Hc' in Hc2. injection Hc2 as <-. split; congruence.
Qed.

(** The loops of the form of those of [refresh_config]: over the workspaces
    and, in each, over the clients of its stacking list, with a body that
    keeps the links and changes no client but its own. *)
Lemma for_each_registered (Q : nat → client → client → Prop) body st cl fl :
  registry st cl fl →
  (∀ (i : nat) a st1, (i < WORKSPACE_NUMBER)%nat → a ∈ cl i → same_links st st1 →
     returns (body (Z.of_nat i) (Some a)) st1 (λ _ st2,
       same_links st1 st2 ∧ keeps (λ b, b ≠ a) id st1 st2 ∧
       ∀ c, heap st1 !! a = Some c → ∃ c', heap st2 !! a = Some c' ∧ Q i c c')) →
  returns
    (for_range (λ i, hd ← c_list_get i;
                     for_clients (S (size (heap st))) (body i) hd)
       0 WORKSPACE_NUMBER) st
    (λ _ st',
      same_links st st' ∧
      ∀ (i : nat) a c, (i < WORKSPACE_NUMBER)%nat → a ∈ cl i → heap st !! a = Some c →
        ∃ c', heap st' !! a = Some c' ∧ Q i c c').
Proof.
  intros Hreg Hbody.
  eapply returns_conseq.
  { apply (for_range_inv (λ j st1,
      ∀ (i : nat) a c, (i < WORKSPACE_NUMBER)%nat → a ∈ cl i → heap st !! a = Some c →
        ∃ c1, heap st1 !! a = Some c1 ∧
              if decide (i < j)%nat then Q i c c1 else c1 = c)).
    - intros i a c _ _ Hc. exists c. split; [done |]. destruct (decide _); [lia | done].
    - intros j st1 Hj H1 HI.
      assert (Hreg1 : registry st1 cl fl) by (by eapply same_links_registry).
      destruct (lookup_lt_is_Some_2 (c_list st1) j) as [hd Hhd];
        [rewrite (reg_c_len _ _ _ Hreg1); lia |].
      pose proof (reg_stack _ _ _ Hreg1 _ _ Hhd) as Hl.
      pose proof (reg_nodup _ _ _ Hreg j Hj) as Hnd.
      eapply returns_bind_run; [by apply (head_get_exec Next) |].
      eapply returns_conseq.
      { apply (for_clients_each (Q j) _ _ _ (cl j)); try done.
        - by eapply registry_fuel.
        - intros a s1 Ha Hs1. apply Hbody; [done | done |]. by eapply same_links_trans. }
      intros [] st2 (H2 & Hk & HQ). split; [done |].
      intros i a c Hi Ha Hc. destruct (HI i a c Hi Ha Hc) as (c1 & Hc1 & Hh1).
      destruct (decide (i = j)) as [-> | Hne].
      + destruct (decide (j < j)%nat); [lia |]. subst c1.
        destruct (HQ a c Ha Hc1) as (c' & Hc' & HQ'). exists c'. split; [done |].
        by destruct (decide (j < S j)%nat); [| lia].
      + assert (Hna : a ∉ cl j).
        { intros Haj. apply Hne. by apply (reg_disjoint _ _ _ Hreg i j a). }
        destruct (Hk a c1 Hna Hc1) as (c' & Hc' & E). cbn in E. subst c'.
        exists c1. split; [done |].
        destruct (decide (i < j)%nat), (decide (i < S j)%nat); first [lia | done]. }
  intros [] st' [H' HI]. split; [done |].
  intros i a c Hi Ha Hc. destruct (HI i a c Hi Ha Hc) as (c' & Hc' & Hh).
  exists c'. split; [done |]. by destruct (decide _).
Qed.

Lemma refresh_config_spec st cl fl :
  registry st cl fl → monitors_ok st →
  returns refresh_config st (λ _ st',
    same_links st st' ∧
    ∀ (i : nat) a c, (i < WORKSPACE_NUMBER)%nat → a ∈ cl i → heap st !! a = Some c →
      ∃ c', heap st' !! a = Some c' ∧
            hidden c' = negb (Z.of_nat i =? curr_ws st) ∧
            decorated c' = decorated c ∧ window c' = window c).
Proof.
  intros Hreg Hmon. unfold refresh_config.
  eapply returns_bind_run; [reflexivity |].
  apply (for_each_registered
           (λ i c c', hidden c' = negb (Z.of_nat i =? curr_ws st) ∧
                      decorated c' = decorated c ∧ window c' = window c)
           refresh_config_client st cl fl Hreg).
  intros i a st1 Hi Ha H1.
  rewrite <- (sl_curr_ws _ _ H1).
  apply refresh_config_client_spec.
  eapply same_links_client_ok; [exact H1 |].
  by apply (registry_client_ok st cl fl i).
Qed.

(** X21 — Every handler that changes a value of the configuration stores the
    value and refreshes all the clients of the registry: the registry, the
    focus, the decorated flag and the window of each client are left as they
    are, and afterwards the clients of the current workspace are shown and those
    of every other workspace are hidden, whatever the monitor of that workspace. *)
Theorem config_handlers_refresh (d : list Z) (st : wm_state) (cl fl : nat → list addr) :
  registry st cl fl →
  monitors_ok st →
  focus_registered st cl →
  Forall (λ '(handler, update),
    ∃ st',
      (handler : list Z → wm unit) d st = Done tt st' ∧
      conf st' = (update : config → config) (conf st) ∧
      registry st' cl fl ∧ f_client st' = f_client st ∧ curr_ws st' = curr_ws st ∧
      ∀ (i : nat) a c, (i < WORKSPACE_NUMBER)%nat → a ∈ cl i → heap st !! a = Some c →
        ∃ c', heap st' !! a = Some c' ∧
              hidden c' = negb (Z.of_nat i =? curr_ws st) ∧
              decorated c' = decorated c ∧ window c' = window c)
    [(ipc_bf_color, set_bf_color (ulong_of_long (nth 1 d 0)));
     (ipc_bu_color, set_bu_color (ulong_of_long (nth 1 d 0)));
     (ipc_if_color, set_if_color (ulong_of_long (nth 1 d 0)));
     (ipc_iu_color, set_iu_color (ulong_of_long (nth 1 d 0)));
     (ipc_b_width, set_b_width (arg d 1));
     (ipc_i_width, set_i_width (arg d 1));
     (ipc_t_height, set_t_height (arg d 1));
     (ipc_top_gap, set_top_gap (arg d 1))].
Proof.
  intros Hreg Hmon Hfoc.
  assert (Hgo : ∀ upd,
    returns (conf_assign upd;; refresh_config) st (λ _ st',
      same_links (set_conf (upd (conf st)) st) st' ∧
      ∀ (i : nat) a c, (i < WORKSPACE_NUMBER)%nat → a ∈ cl i → heap st !! a = Some c →
        ∃ c', heap st' !! a = Some c' ∧
              hidden c' = negb (Z.of_nat i =? curr_ws st) ∧
              decorated c' = decorated c ∧ window c' = window c)).
  { intros upd. unfold conf_assign. apply returns_bind, returns_put.
    apply (refresh_config_spec (set_conf (upd (conf st)) st) cl fl).
    - by apply (registry_congr st).
    - by apply (monitors_ok_congr st). }
  assert (Hfin : ∀ upd st',
    same_links (set_conf (upd (conf st)) st) st' →
    conf st' = upd (conf st) ∧ registry st' cl fl ∧ f_client st' = f_client st ∧
    curr_ws st' = curr_ws st).
  { intros upd st' Hsl. split; [apply (sl_conf _ _ Hsl) |].
    split; [eapply same_links_registry; [exact Hsl |]; by apply (registry_congr st) |].
    split; [apply (sl_f_client _ _ Hsl) | apply (sl_curr_ws _ _ Hsl)]. }
  repeat apply Forall_cons_2; try apply Forall_nil_2; cbn beta iota;
    try (match goal with
         | |- ∃ st', ?h d st = _ ∧ conf st' = ?upd _ ∧ _ =>
             destruct (returns_unit _ _ _ (Hgo upd)) as (st' & Hrun & Hsl & Hvis);
             exists st'; split; [exact Hrun |];
             destruct (Hfin upd st' Hsl) as (? & ? & ? & ?);
             repeat (match goal with |- _ ∧ _ => split end); assumption
         end).
  (* [ipc_b_width] raises the focused client at the end *)
  destruct (returns_unit _ _ _ (Hgo (set_b_width (arg d 1)))) as (st1 & Hrun & Hsl & Hvis).
  destruct (Hfin _ st1 Hsl) as (Hcf & Hreg1 & Hf1 & Hcw1).
  assert (Hraise : ∃ l, (fc ← read f_client; client_raise fc) st1
                        = Done tt (set_xlog (xlog st1 ++ l) st1)).
  { rewrite bind_read. destruct (f_client st1) as [x |] eqn:Hx.
    - destruct (focus_registered_alloc st1 cl fl x Hreg1) as [cx Hcx]; [| done |].
      + intros y Hy. apply Hfoc. congruence.
      + eexists. by apply client_raise_exec.
    - exists []. cbn. rewrite app_nil_r. by destruct st1. }
  destruct Hraise as (l & Hraise).
  exists (set_xlog (xlog st1 ++ l) st1). split.
  { unfold ipc_b_width. apply bind_inv in Hrun as ([] & s0 & Hassign & Hrefresh).
    erewrite bind_done by exact Hassign. by erewrite bind_done by exact Hrefresh. }
  repeat (match goal with |- _ ∧ _ => split end); try assumption.
  by apply (registry_congr st1).
Qed.

(** ** New windows *)

Lemma is_seg_insert_fresh k h p l q a c :
  a ∉ l → is_seg k h p l q → is_seg k (<[a := c]> h) p l q.
Proof.
  revert p. induction l as [|x l IH]; intros p Hna; [done |].
  apply not_elem_of_cons in Hna as [Hax Hna].
  intros (-> & cx & Hcx & Hl). split; [done |]. exists cx.
  rewrite lookup_insert_ne by done. split; [done |]. by apply IH.
Qed.

Lemma registry_unallocated st cl fl a (i : nat) :
  registry st cl fl → heap st !! a = None → (i < WORKSPACE_NUMBER)%nat → a ∉ cl i.
Proof.
  intros Hreg Hnone Hi Ha.
  destruct (registry_alloc _ _ _ _ _ Hreg Hi Ha) as (c & Hc & _). congruence.
Qed.

(** Allocating a block leaves the registry well formed. *)
Lemma registry_malloc a c st cl fl :
  registry st cl fl → heap st !! a = None →
  registry (set_heap (<[a := c]> (heap st)) st) cl fl.
Proof.
  intros Hreg Hnone. pose proof Hreg as [].
  assert (Hlt : ∀ i p, c_list st !! i = Some p → (i < WORKSPACE_NUMBER)%nat).
  { intros i p Hp. rewrite <- reg_c_len0. by eapply lookup_lt_Some. }
  assert (Hlt' : ∀ i p, f_list st !! i = Some p → (i < WORKSPACE_NUMBER)%nat).
  { intros i p Hp. rewrite <- reg_f_len0. by eapply lookup_lt_Some. }
  split; cbn; try done.
  - intros i p Hp. apply is_seg_insert_fresh; [| by eapply reg_stack0].
    eapply registry_unallocated; [done | done |]. by eapply Hlt.
  - intros i p Hp. apply is_seg_insert_fresh; [| by eapply reg_focus0].
    rewrite <- (reg_perm0 i (Hlt' _ _ Hp)).
    eapply registry_unallocated; [done | done |]. by eapply Hlt'.
  - intros i x cx Hi Hx Hcx.
    rewrite lookup_insert_ne in Hcx; [by eapply reg_ws0 |].
    intros <-. by eapply (registry_unallocated st cl fl a i).
Qed.

Lemma client_center_same_links a st :
  client_ok st a →
  returns (client_center (Some a)) st (λ _ st', same_links st st').
Proof.
  intros (c & m & Hc & Hm). unfold client_center.
  eapply returns_bind_run; [by apply run_deref |].
  eapply returns_bind_run; [by apply monitor_of_exec |].
  eapply returns_bind_run; [by apply run_deref |].
  apply client_move_absolute_same_links. by eexists.
Qed.

Lemma fresh_unallocated st : heap st !! fresh (dom (heap st)) = None.
Proof. apply not_elem_of_dom, is_fresh. Qed.


(** X23 — [manage_new_window] of a window of any other type, on a workspace of
    the table: a client is allocated for the window at an address that was not
    allocated, on the current workspace; it is decorated, shown, not fullscreen,
    the first of the stacking list and of the focus list of the workspace, and
    the focused client; the registry stays well formed. *)
Theorem manage_new_window_manages (win : Z) (wa : geometry) (prop : option window_type)
    (junk : client) (w : nat) (st : wm_state) (cl fl : nat → list addr) :
  registry st cl fl →
  focus_registered st cl →
  monitors_ok st →
  curr_ws st = Z.of_nat w →
  (w < WORKSPACE_NUMBER)%nat →
  prop ∉ [Some NetWMWindowTypeDock; Some NetWMWindowTypeToolbar;
          Some NetWMWindowTypeUtility; Some NetWMWindowTypeMenu] →
  ∃ a st' c',
    manage_new_window win wa prop junk st = Done tt st' ∧
    heap st !! a = None ∧ heap st' !! a = Some c' ∧
    window c' = win ∧ ws c' = Z.of_nat w ∧
    hidden c' = false ∧ decorated c' = true ∧ fullscreen c' = false ∧
    f_client st' = Some a ∧
    registry st' (<[w := a :: cl w]> cl) (<[w := a :: fl w]> fl) ∧
    focus_registered st' (<[w := a :: cl w]> cl) ∧
    monitors_ok st'.
Proof.
  intros Hreg Hfoc Hmon Hcw Hw Hprop.
  set (a := fresh (dom (heap st))).
  assert (Hnone : heap st !! a = None) by apply fresh_unallocated.
  set (c0 := Client win (dec junk) (curr_ws st) (x_hide junk) wa false (decorated junk)
               false (next junk) (f_next junk)).
  set (st1 := set_heap (<[a := c0]> (heap st)) st).
  set (cl' := <[w := a :: cl w]> cl). set (fl' := <[w := a :: fl w]> fl).
  assert (Hfresh : ∀ i, (i < WORKSPACE_NUMBER)%nat → a ∉ cl i).
  { intros i Hi. by eapply registry_unallocated. }
  assert (Ha' : a ∈ cl' w).
  { unfold cl'. rewrite fn_lookup_insert. apply elem_of_cons. by left. }
  assert (Hreg1 : registry st1 cl fl) by (by apply registry_malloc).
  assert (Hmon1 : monitors_ok st1) by (by apply (monitors_ok_congr st)).
  assert (Hc1 : heap st1 !! a = Some c0) by apply lookup_insert_eq.
  assert (Hok1 : client_ok st1 a).
  { destruct (monitors_ok_at _ _ Hmon1 Hw) as [m Hm]. exists c0, m.
    split; [done |]. cbn. by rewrite Hcw. }
  (* the commands after the allocation and the first assignments *)
  set (rest := λ c : option addr,
         client_decorate_new c;;
         cl ← deref c;
         xsend (XMapWindow (window cl));;
         client_refresh c;;
         cw' ← read curr_ws;
         client_save c cw';;
         client_manage_focus c;;
         client_center c;;
         update_c_list).
  assert (Hstart : manage_new_window win wa prop junk st = rest (Some a) st1).
  { unfold manage_new_window.
    assert (match prop with
            | Some NetWMWindowTypeDock | Some NetWMWindowTypeToolbar
            | Some NetWMWindowTypeUtility | Some NetWMWindowTypeMenu => true
            | _ => false
            end = false) as ->.
    { destruct prop as [[] |]; try done; destruct Hprop;
        repeat (apply elem_of_cons; first [by left | right]). }
    erewrite bind_done by reflexivity. rewrite bind_read.
    erewrite bind_assign by apply lookup_insert_eq.
    cbn [heap set_heap]. rewrite insert_insert_eq. reflexivity. }
  rewrite Hstart.
  cut (returns (rest (Some a)) st1 (λ _ st', ∃ c',
         heap st' !! a = Some c' ∧
         window c' = win ∧ ws c' = Z.of_nat w ∧
         hidden c' = false ∧ decorated c' = true ∧ fullscreen c' = false ∧
         f_client st' = Some a ∧ registry st' cl' fl' ∧
         focus_registered st' cl' ∧ monitors_ok st')).
  { intros (st' & Hrun & c' & H)%returns_unit. exists a, st', c'.
    split; [done |]. split; [done |]. exact H. }
  eapply (returns_also _ _ (λ _ st',
            f_client st' = Some a ∧ registry st' cl' fl' ∧ monitors_ok st')).
  { unfold rest.
    eapply returns_bind_same_links with (st0 := st1); [apply same_links_refl | |].
    { apply client_decorate_new_same_links. by eexists. }
    intros _ st2 H2.
    apply returns_bind_deref; [eapply same_links_alloc; [done |]; by eexists |].
    intros c2 Hc2.
    eapply returns_bind_same_links with (st0 := st1); [exact H2 | |].
    { apply xsend_same_links. }
    intros _ st3 H3.
    eapply returns_bind_same_links with (st0 := st1); [exact H3 | |].
    { apply client_refresh_same_links. by eapply same_links_client_ok. }
    intros _ s4 H4.
    apply returns_bind, returns_read.
    rewrite (sl_curr_ws _ _ H4). change (curr_ws st1) with (curr_ws st). rewrite Hcw.
    destruct (same_links_lookup _ _ _ _ H4 Hc1) as (c4 & Hc4 & _ & _ & Hws4).
    assert (Hreg4 : registry s4 cl fl) by (by eapply same_links_registry).
    destruct (client_save_spec a c4 w s4 cl fl Hreg4 Hw Hc4)
      as (st5 & Hrun5 & Hreg5 & Hsh5 & Hf5 & _);
      [by rewrite Hws4; cbn | done |].
    eapply returns_bind_run; [exact Hrun5 |].
    fold cl' fl' in Hreg5.
    assert (Hmon5 : monitors_ok st5).
    { eapply monitors_ok_shape; [exact Hsh5 |]. by eapply same_links_monitors_ok. }
    assert (Hfoc5 : focus_registered st5 cl').
    { intros b Hb. rewrite Hf5, (sl_f_client _ _ H4) in Hb.
      destruct (Hfoc b Hb) as (i & Hi & Hbi). exists i. split; [done |].
      unfold cl'. destruct (decide (w = i)) as [<- | Hne].
      - rewrite fn_lookup_insert. apply elem_of_cons. by right.
      - by rewrite fn_lookup_insert_ne. }
    eapply returns_bind_with;
      [by apply (client_manage_focus_spec a w st5 cl' fl') |].
    intros [] st6 (Hreg6 & Hsh6 & Hf6 & _).
    assert (Hreg6' : registry st6 cl' fl').
    { eapply registry_ext_lt; [| | exact Hreg6]; [| done].
      intros i Hi. destruct (decide (w = i)) as [<- | Hne].
      - rewrite fn_lookup_insert. unfold cl'. rewrite fn_lookup_insert.
        rewrite remove_client_head; [done |]. by apply Hfresh.
      - by rewrite fn_lookup_insert_ne. }
    assert (Hmon6 : monitors_ok st6) by (by eapply monitors_ok_shape).
    eapply returns_bind_same_links with (st0 := st6); [apply same_links_refl | |].
    { apply client_center_same_links. by apply (registry_client_ok st6 cl' fl' w). }
    intros _ st7 H7.
    eapply returns_conseq;
      [apply (update_c_list_same_links st7 cl' fl'); by eapply same_links_registry |].
    intros [] st8 H8.
    assert (H68 : same_links st6 st8) by (by eapply same_links_trans).
    split; [by rewrite (sl_f_client _ _ H68) |].
    split; [by eapply same_links_registry | by eapply same_links_monitors_ok]. }
  intros [] st' Hrun (Hf' & Hreg' & Hmon').
  assert (Hfields : ∃ c', heap st' !! a = Some c' ∧ window c' = win ∧
                          hidden c' = false ∧ decorated c' = true ∧
                          fullscreen c' = false).
  { unfold rest in Hrun. apply bind_inv in Hrun as ([] & s2 & Hdec & Htail).
    destruct (client_decorate_new_decorated _ _ _ _ Hdec) as (c2 & Hc2 & Hd2).
    assert (Hp : preserves (λ _, True) (λ x, (window x, hidden x, fullscreen x))
                   (client_decorate_new (Some a))).
    { unfold client_decorate_new. frame. }
    destruct (Hp _ _ _ Hdec a c0 I Hc1) as (c2' & Hc2' & [= Hw2 Hh2 Hfs2]).
    rewrite Hc2 in Hc2'. injection Hc2' as <-.
    assert (Hq : preserves (λ _, True)
                   (λ x, (window x, hidden x, fullscreen x, decorated x))
                   (cl ← deref (Some a);
                    xsend (XMapWindow (window cl));;
                    client_refresh (Some a);;
                    cw' ← read curr_ws;
                    client_save (Some a) cw';;
                    client_manage_focus (Some a);;
                    client_center (Some a);;
                    update_c_list)).
    { unfold client_save, client_center, update_c_list, monitor_of.
      repeat (apply preserves_bind;
              [first [apply preserves_deref | apply preserves_xsend | apply preserves_read
                     | by apply client_refresh_frame | by apply client_manage_focus_frame
                     | apply preserves_c_list_get | apply preserves_f_list_get
                     | apply preserves_c_list_set | apply preserves_index
                     | apply preserves_traversal_bound
                     | apply preserves_assign; intros ? ? ? ?; reflexivity]
              | intros ?]).
      frame. }
    destruct (Hq _ _ _ Htail a c2 I Hc2) as (c' & Hc' & [= Hw' Hh' Hfs' Hd']).
    exists c'. split; [done |]. cbn in Hw2, Hh2, Hfs2. 
    repeat split; congruence. }
  destruct Hfields as (c' & Hc' & Hwin & Hhid & Hdec & Hfs).
  exists c'. split; [done |]. split; [done |].
  split; [by apply (reg_ws _ _ _ Hreg' w a c') |].
  repeat (split; [done |]). split; [| done].
  intros b Hb. rewrite Hf' in Hb. injection Hb as <-. by exists w.
Qed.

End Program.

(** * Facts about the instances *)

Ltac elem_cases H :=
  repeat (apply elem_of_cons in H as [-> | H]); try (by apply elem_of_nil in H).

Ltac concrete_list :=
  repeat (split; [reflexivity |]; eexists; split; [reflexivity |]); reflexivity.

Ltac concrete_registry :=
  split;
  [ reflexivity
  | reflexivity
  | intros [|[|i]] p Hp; cbn in Hp; try discriminate; injection Hp as <-; concrete_list
  | intros [|[|i]] p Hp; cbn in Hp; try discriminate; injection Hp as <-; concrete_list
  | intros [|[|i]] Hi; [reflexivity | reflexivity | unfold ex_workspaces in Hi; lia]
  | intros [|[|i]] Hi; [| | unfold ex_workspaces in Hi; lia];
    apply (bool_decide_unpack _); vm_compute; exact I
  | intros [|[|i]] [|[|j]] a Hi Hj Ha Hb; try reflexivity;
    try (unfold ex_workspaces in *; lia); cbn in Ha, Hb;
    first [by apply elem_of_nil in Ha | by apply elem_of_nil in Hb]
  | intros [|[|i]] a c Hi Ha Hc; [| | unfold ex_workspaces in Hi; lia]; cbn in Ha;
    elem_cases Ha; vm_compute in Hc; injection Hc as <-; reflexivity ].

Lemma st_one_registry : registry ex_workspaces st_one cl_one cl_one.
Proof. concrete_registry. Qed.

Lemma st_three_registry : registry ex_workspaces st_three cl_three cl_three.
Proof. concrete_registry. Qed.

Lemma ex_monitors_ok h fc cs fs : monitors_ok ex_workspaces (ex_state h fc cs fs).
Proof.
  split; [reflexivity |].
  intros [|[|i]] mon Hm; cbn in Hm; try discriminate; injection Hm as <-;
    (split; [lia | by eexists]).
Qed.

(** Running the model on the instances. *)

Example cardinal_focus_east_three :
  ∃ st', client_cardinal_focus ex_east ex_south ex_west ex_north ex_distance
           ex_protocols (Some 1%positive) ex_east st_three = Done tt st' ∧
         f_client st' = Some 3%positive ∧
         c_list st' = [Some 3%positive; None].
Proof. eexists. split; [vm_compute; reflexivity |]. split; reflexivity. Qed.

(** The clamp at the top of the monitor: a move that would end above the
    top gap puts the client at the top edge of the monitor, inside the gap. *)
Example move_relative_into_top_gap :
  ∃ st' c', client_move_relative (Some 1%positive) 0 (-90) st_one = Done tt st' ∧
            heap st' !! 1%positive = Some c' ∧ gy (geom c') = 0 ∧
            top_gap (conf st') = 20.
Proof.
  eexists _, _. split; [vm_compute; reflexivity |].
  split; [vm_compute; reflexivity |]. split; reflexivity.
Qed.

Lemma st_one_focus_registered : focus_registered ex_workspaces st_one cl_one.
Proof.
  intros a [= <-]. exists 0%nat. split; [unfold ex_workspaces; lia |].
  apply elem_of_cons. by left.
Qed.

Lemma st_three_focus_registered : focus_registered ex_workspaces st_three cl_three.
Proof.
  intros a [= <-]. exists 0%nat. split; [unfold ex_workspaces; lia |].
  apply elem_of_cons. by left.
Qed.

Lemma st_fresh_registry : registry ex_workspaces st_fresh cl_none cl_none.
Proof. by apply registry_init. Qed.

Lemma st_fresh_ready : op_ready ex_workspaces st_fresh cl_none (OpSave 1%positive 0).
Proof.
  split; [unfold ex_workspaces; lia |]. split; [by eexists |].
  intros i _. apply not_elem_of_nil.
Qed.

(** * Witnesses and counterexamples *)

Lemma ipc_window_center_no_focus_witness :
  f_client st_empty = None ∧ ipc_window_center [8; 0; 0; 0; 0] st_empty = Fault.
Proof.
  split; [reflexivity |].
  apply (ipc_window_center_no_focus [8; 0; 0; 0; 0] st_empty). reflexivity.
Defined.

(** C2 as stated fails on [st_one]: the call sends no request at all, so the
    focused, decorated client is not repainted. *)
Lemma manage_focus_null_claim_fails : ¬ manage_focus_null_claim ex_protocols st_one.
Proof.
  intros H.
  destruct (H 1%positive _ eq_refl eq_refl eq_refl) as (st' & Hrun & Hin & _).
  injection Hrun as <-. cbn in Hin. by apply elem_of_nil in Hin.
Qed.

(** C3 as stated fails: on [st_one] the focused client is in the stacking
    list of the current workspace; after [switch_ws] to the empty workspace 1
    the reference still points to it, and the stacking list of the current
    workspace is empty. *)
Lemma switch_to_empty_workspace_keeps_focus :
  focus_in_current st_one ∧
  ∃ st', switch_ws ex_workspaces ex_minimum_dim ex_protocols 1 st_one = Done tt st' ∧
         f_client st' = Some 1%positive ∧
         c_list st' !! Z.to_nat (curr_ws st') = Some None ∧
         ¬ focus_in_current st'.
Proof.
  split.
  - intros a [= <-]. exists (Some 1%positive). split; [done |].
    split; [reflexivity | constructor].
  - eexists. split; [vm_compute; reflexivity |].
    split; [reflexivity |]. split; [reflexivity |].
    intros H. destruct (H 1%positive eq_refl) as (p & _ & Hp & Hr).
    cbn in Hp. injection Hp as <-. inversion Hr.
Qed.

Lemma focus_reference_registered_witness :
  registry ex_workspaces st_one cl_one cl_one ∧
  focus_registered ex_workspaces st_one cl_one ∧
  monitors_ok ex_workspaces st_one ∧
  focus_op_ready ex_workspaces st_one cl_one (FSwitchWs 1) ∧
  ∃ st' cl' fl',
    run_focus_op ex_workspaces ex_minimum_dim ex_protocols (FSwitchWs 1) st_one
      = Done tt st' ∧
    registry ex_workspaces st' cl' fl' ∧ focus_registered ex_workspaces st' cl' ∧
    focus_in_own_list st' ∧ curr_ws st' = 1 ∧ f_client st' = Some 1%positive.
Proof.
  assert (Hready : focus_op_ready ex_workspaces st_one cl_one (FSwitchWs 1))
    by (cbn; unfold ex_workspaces; lia).
  split; [exact st_one_registry |]. split; [exact st_one_focus_registered |].
  split; [apply ex_monitors_ok |]. split; [exact Hready |].
  destruct (focus_reference_registered ex_workspaces ex_minimum_dim ex_protocols
              st_one cl_one cl_one (FSwitchWs 1) st_one_registry
              st_one_focus_registered (ex_monitors_ok _ _ _ _) Hready)
    as (st' & cl' & fl' & Hrun & Hreg & Hfoc & _ & Hown & _ & Hsw).
  destruct (Hsw 1%nat eq_refl) as [Hcw Hf].
  exists st', cl', fl'. repeat (match goal with |- _ ∧ _ => split end); assumption.
Defined.

Lemma registry_operation_keeps_membership_witness :
  registry ex_workspaces st_fresh cl_none cl_none ∧
  op_ready ex_workspaces st_fresh cl_none (OpSave 1%positive 0) ∧
  ∃ st',
    run_op ex_workspaces (OpSave 1%positive 0) st_fresh = Done tt st' ∧
    registry ex_workspaces st' (stack_after cl_none (OpSave 1%positive 0))
      (focus_after cl_none (OpSave 1%positive 0)) ∧
    dual_membership st'.
Proof.
  split; [exact st_fresh_registry |]. split; [exact st_fresh_ready |].
  exact (registry_operation_keeps_membership ex_workspaces st_fresh cl_none cl_none
           (OpSave 1%positive 0) st_fresh_registry st_fresh_ready).
Defined.

Lemma save_then_delete_witness :
  registry ex_workspaces st_fresh cl_none cl_none ∧
  op_ready ex_workspaces st_fresh cl_none (OpSave 1%positive 0) ∧
  ∃ st1 st3,
    client_save (Some 1%positive) 0 st_fresh = Done tt st1 ∧
    client_delete ex_workspaces (Some 1%positive) st1 = Done tt st3 ∧
    (∀ (i : nat) p, c_list st3 !! i = Some p →
                    ¬ reachable Next (heap st3) p 1%positive) ∧
    (∀ (i : nat) q, f_list st3 !! i = Some q →
                    ¬ reachable FNext (heap st3) q 1%positive).
Proof.
  split; [exact st_fresh_registry |]. split; [exact st_fresh_ready |].
  destruct (save_then_delete ex_workspaces st_fresh cl_none cl_none 1%positive 0%nat
              st_fresh_registry st_fresh_ready) as (st1 & Hsave & Hlater).
  destruct (Hlater st1 (later_now _ _ _)) as (st3 & Hdel & Hc & Hf & _).
  exists st1, st3. repeat (match goal with |- _ ∧ _ => split end); assumption.
Defined.

Lemma geometry_round_trip_witness :
  heap st_one !! 1%positive = Some ex_c1 ∧
  decorated ex_c1 = true ∧
  ∃ st' cl',
    (client_move_absolute (Some 1%positive) 50 60;;
     client_resize_absolute ex_minimum_dim (Some 1%positive) 10 700) st_one
      = Done tt st' ∧
    heap st' !! 1%positive = Some cl' ∧
    geom cl' = Geometry 50 60 30 700.
Proof.
  split; [reflexivity |]. split; [reflexivity |].
  destruct (geometry_round_trip ex_minimum_dim 1%positive ex_c1 50 60 10 700 st_one
              eq_refl eq_refl) as (st' & cl' & Hrun & Hc & Hg & _).
  exists st', cl'. repeat (match goal with |- _ ∧ _ => split end); assumption.
Defined.

(** C7 as stated fails on [st_wide]: the client is wider than the monitor,
    and the clamp on the right edge leaves its left edge outside. *)
Lemma edge_lock_claim_fails : ¬ edge_lock_claim st_wide 1%positive 0 0.
Proof.
  intros H.
  destruct (H _ ex_monitor eq_refl) as (st' & c' & Hrun & Hc & Hleft & _).
  - exists 0. repeat split; done.
  - reflexivity.
  - vm_compute in Hrun. injection Hrun as <-.
    vm_compute in Hc. injection Hc as <-. cbn in Hleft. lia.
Qed.

Lemma move_relative_edge_lock_witness :
  heap st_one !! 1%positive = Some ex_c1 ∧
  edge_lock (conf st_one) = true ∧
  monitor_at st_one (ws ex_c1) ex_monitor ∧
  gwidth (geom ex_c1) <= mwidth ex_monitor ∧
  gheight (geom ex_c1) <= mheight ex_monitor ∧
  0 <= top_gap (conf st_one) ∧
  move_in_range (geom ex_c1) ex_monitor (conf st_one) 5000 (-500) ∧
  ∃ st' cl',
    client_move_relative (Some 1%positive) 5000 (-500) st_one = Done tt st' ∧
    heap st' !! 1%positive = Some cl' ∧
    0 <= gx (geom cl') <= 1920 - 400 ∧
    0 <= gy (geom cl') ∧ gy (geom cl') + 300 <= 1080.
Proof.
  assert (Hm : monitor_at st_one (ws ex_c1) ex_monitor)
    by (exists 0; repeat split; done).
  assert (Hr : move_in_range (geom ex_c1) ex_monitor (conf st_one) 5000 (-500))
    by (unfold move_in_range, in_int, INT_MIN, INT_MAX; cbn; lia).
  split; [reflexivity |]. split; [reflexivity |]. split; [exact Hm |].
  split; [cbn; lia |]. split; [cbn; lia |]. split; [cbn; lia |].
  split; [exact Hr |].
  destruct (move_relative_edge_lock 1%positive ex_c1 ex_monitor 5000 (-500) st_one
              eq_refl eq_refl Hm ltac:(cbn; lia) ltac:(cbn; lia) ltac:(cbn; lia) Hr)
    as (st' & cl' & Hrun & Hc & Hw & Hh & Hx1 & Hx2 & Hy1 & Hy2 & Hx0).
  exists st', cl'. cbn in *. repeat (match goal with |- _ ∧ _ => split end); try assumption; lia.
Defined.

(** C8 as stated fails on [st_mixed]: workspace 0 shares the monitor of
    workspace 1 and its stacking list reaches client 2, which is not hidden,
    but its front client is hidden and [safe_to_focus] answers true. *)
Lemma safe_to_focus_claim_fails : ¬ safe_to_focus_claim ex_workspaces st_mixed 1.
Proof.
  intros (b & Hrun & Hb).
  vm_compute in Hrun. injection Hrun as <-.
  assert (Hfalse : true = false); [| discriminate].
  apply Hb. exists 0%nat, (Some 1%positive), 2%positive, ex_c2.
  split; [done |]. split; [reflexivity |]. split; [reflexivity |].
  split; [| split; reflexivity].
  eapply reachable_step; [reflexivity |]. constructor.
Qed.

Lemma safe_to_focus_front_client_witness :
  length (c_list st_one) = ex_workspaces ∧
  length (ws_m_list st_one) = ex_workspaces ∧
  (1 < ex_workspaces)%nat ∧
  heads_allocated st_one ∧
  ∃ b, safe_to_focus ex_workspaces 1 st_one = Done b st_one ∧ b = false.
Proof.
  assert (Hal : heads_allocated st_one).
  { intros [|[|i]] a Ha; cbn in Ha; try discriminate. injection Ha as <-. by eexists. }
  split; [reflexivity |]. split; [reflexivity |].
  split; [unfold ex_workspaces; lia |]. split; [exact Hal |].
  destruct (safe_to_focus_front_client ex_workspaces 1 st_one eq_refl eq_refl
              ltac:(unfold ex_workspaces; lia) Hal) as (b & Hrun & Hb).
  exists b. split; [exact Hrun |]. apply Hb.
  exists 0%nat. split; [unfold ex_workspaces; lia |]. split; [done |].
  split; [reflexivity |]. exists 1%positive, ex_c1. by repeat split.
Defined.

Lemma cardinal_focus_nearest_witness :
  NoDup [ex_east; ex_south; ex_west; ex_north] ∧
  registry ex_workspaces st_three cl_three cl_three ∧
  focus_registered ex_workspaces st_three cl_three ∧
  curr_ws st_three = Z.of_nat 0 ∧
  (0 < ex_workspaces)%nat ∧
  heap st_three !! 1%positive = Some ex_c1_three ∧
  (∀ x cx, x ∈ cl_three 0%nat → heap st_three !! x = Some cx →
           on_side DirEast ex_c1_three cx = true →
           ex_distance ex_c1_three cx < INT_MAX) ∧
  ∃ r st',
    nearest_first ex_distance (heap st_three) ex_c1_three DirEast (cl_three 0%nat) r ∧
    client_cardinal_focus ex_east ex_south ex_west ex_north ex_distance ex_protocols
      (Some 1%positive) (dir_code ex_east ex_south ex_west ex_north DirEast) st_three
      = Done tt st' ∧
    match r with
    | None => st' = st_three
    | Some b =>
        client_manage_focus ex_protocols (Some b) st_three = Done tt st' ∧
        f_client st' = Some b
    end.
Proof.
  assert (Hnd : NoDup [ex_east; ex_south; ex_west; ex_north])
    by (apply (bool_decide_unpack _); vm_compute; exact I).
  assert (Hd : ∀ x cx, x ∈ cl_three 0%nat → heap st_three !! x = Some cx →
                on_side DirEast ex_c1_three cx = true →
                ex_distance ex_c1_three cx < INT_MAX).
  { intros x cx Hx Hcx _. cbn in Hx. elem_cases Hx;
      vm_compute in Hcx; injection Hcx as <-; vm_compute; reflexivity. }
  split; [exact Hnd |]. split; [exact st_three_registry |].
  split; [exact st_three_focus_registered |]. split; [reflexivity |].
  split; [unfold ex_workspaces; lia |]. split; [reflexivity |]. split; [exact Hd |].
  exact (cardinal_focus_nearest ex_workspaces ex_east ex_south ex_west ex_north
           ex_distance ex_protocols st_three cl_three cl_three 1%positive ex_c1_three
           DirEast 0%nat Hnd st_three_registry st_three_focus_registered eq_refl
           ltac:(unfold ex_workspaces; lia) eq_refl Hd).
Defined.

Lemma client_fullscreen_toggle_witness :
  heap st_one !! 1%positive = Some ex_c1 ∧
  monitor_at st_one (ws ex_c1) ex_monitor ∧
  ∃ st' cl',
    client_fullscreen ex_minimum_dim (Some 1%positive) st_one = Done tt st' ∧
    heap st' !! 1%positive = Some cl' ∧
    geom cl' = Geometry 0 0 1920 1080 ∧ fullscreen cl' = true.
Proof.
  assert (Hm : monitor_at st_one (ws ex_c1) ex_monitor)
    by (exists 0; repeat split; done).
  split; [reflexivity |]. split; [exact Hm |].
  destruct (client_fullscreen_toggle ex_minimum_dim 1%positive ex_c1 ex_monitor st_one
              eq_refl Hm) as [Hrun Hbounds].
  eexists _, _. split; [exact Hrun |].
  split; [apply lookup_insert_eq |]. split; reflexivity.
Defined.

(** * Instances of the further properties *)

Ltac by_compute :=
  vm_compute; repeat split; first [reflexivity | discriminate | intros ?; discriminate].

Lemma st_one_monitor : monitor_at st_one 0 ex_monitor.
Proof. exists 0. repeat split; done. Qed.

Lemma st_three_monitor : monitor_at st_three 0 ex_monitor.
Proof. exists 0. repeat split; done. Qed.

Lemma st_three_alloc a :
  a ∈ [1%positive; 2%positive; 3%positive] → ∃ c, heap st_three !! a = Some c.
Proof. intros Ha. elem_cases Ha; by eexists. Qed.

Lemma ex_monitor_coord : monitor_coord ex_monitor.
Proof. unfold monitor_coord, coord. cbn. lia. Qed.

Lemma ex_c1_coord : geometry_coord (geom ex_c1).
Proof. unfold geometry_coord, coord. cbn. lia. Qed.


Lemma client_center_centred_witness :
  heap st_one !! 1%positive = Some ex_c1 ∧
  monitor_at st_one (ws ex_c1) ex_monitor ∧
  ∃ st' cl',
    client_center (Some 1%positive) st_one = Done tt st' ∧
    heap st' !! 1%positive = Some cl' ∧
    -1 <= 2 * gx (geom cl') + 400 - 1920 <= 1 ∧
    -1 <= 2 * gy (geom cl') + 300 - 1080 <= 1.
Proof.
  split; [reflexivity |]. split; [exact st_one_monitor |].
  destruct (client_center_centred 1%positive ex_c1 ex_monitor st_one eq_refl
              st_one_monitor ex_c1_coord ex_monitor_coord
              ltac:(cbn; lia) ltac:(cbn; lia) ltac:(cbn; lia) ltac:(cbn; lia))
    as (st' & cl' & Hrun & Hc & Hw & Hh & Hx & Hy).
  exists st', cl'.
  change (gwidth (geom ex_c1)) with 400 in Hw.
  change (gheight (geom ex_c1)) with 300 in Hh.
  change (mx ex_monitor) with 0 in Hx. change (mwidth ex_monitor) with 1920 in Hx.
  change (my ex_monitor) with 0 in Hy. change (mheight ex_monitor) with 1080 in Hy.
  repeat (match goal with |- _ ∧ _ => split end); first [assumption | lia].
Defined.

Lemma snap_left_right_tile_witness :
  ∃ st' ca' cb',
    (client_snap_left ex_minimum_dim (Some 1%positive);;
     client_snap_right ex_minimum_dim (Some 2%positive)) st_three = Done tt st' ∧
    heap st' !! 1%positive = Some ca' ∧ heap st' !! 2%positive = Some cb' ∧
    gx (geom ca') = 0 ∧ gx (geom cb') = gx (geom ca') + gwidth (geom ca') ∧
    1919 <= gx (geom cb') + gwidth (geom cb') <= 1920.
Proof.
  destruct (snap_left_right_tile ex_minimum_dim 1%positive 2%positive ex_c1_three
              (ex_client 12 0 (Geometry 700 100 400 300) false
                 (Some 3%positive) (Some 3%positive))
              ex_monitor st_three
              ltac:(discriminate) eq_refl eq_refl st_three_monitor st_three_monitor
              ex_monitor_coord ltac:(unfold coord; cbn; lia)
              ltac:(by_compute) ltac:(by_compute) ltac:(cbn; lia))
    as (st' & ca' & cb' & Hrun & Ha & Hb & Hx & Hadj & Hw & Hr & _).
  exists st', ca', cb'.
  change (mx ex_monitor) with 0 in Hx, Hr. change (mwidth ex_monitor) with 1920 in Hr.
  repeat (match goal with |- _ ∧ _ => split end); first [assumption | lia].
Defined.

Lemma client_monocle_fills_witness :
  ∃ st' cl',
    client_monocle ex_minimum_dim (Some 1%positive) st_one = Done tt st' ∧
    heap st' !! 1%positive = Some cl' ∧
    geom cl' = Geometry 0 20 1920 1060.
Proof.
  destruct (client_monocle_fills ex_minimum_dim 1%positive ex_c1 ex_monitor st_one
              eq_refl st_one_monitor ex_monitor_coord ltac:(unfold coord; cbn; lia)
              ltac:(by_compute) ltac:(by_compute))
    as (st' & cl' & Hrun & Hc & Hx & Hy & Hr & Hb & _).
  exists st', cl'. split; [exact Hrun |]. split; [exact Hc |].
  cbn in Hx, Hy, Hr, Hb. destruct cl' as [? ? ? ? [x y w h] ? ? ? ? ?]. cbn in *.
  f_equal; lia.
Defined.



Lemma ipc_save_monitor_lookup_witness :
  ∃ st',
    ipc_save_monitor [24; 1; 0] st_one = Done tt st' ∧
    monitor_at st' 1 ex_monitor ∧ monitor_at st' 0 ex_monitor.
Proof.
  destruct (ipc_save_monitor_lookup [24; 1; 0] st_one ltac:(by_compute))
    as (st' & Hrun & _ & Hok).
  destruct (Hok ltac:(by_compute)) as (Hnew & Hother & _).
  exists st'. split; [exact Hrun |]. split.
  - apply Hnew; [by_compute | reflexivity].
  - apply Hother; [by_compute | exact st_one_monitor].
Defined.

Lemma ipc_save_monitor_unchecked_witness :
  ∃ st',
    ipc_save_monitor [24; 0; -1] st_one = Done tt st' ∧
    ws_m_list st' = [-1; 0] ∧
    client_center (Some 1%positive) st' = Fault.
Proof.
  destruct (ipc_save_monitor_unchecked ex_minimum_dim [24; 0; -1] st_one
              ltac:(by_compute) ltac:(by_compute))
    as [Hin _].
  destruct (Hin ltac:(by_compute)) as (st' & Hrun & Hl & Hops).
  exists st'. split; [exact Hrun |]. split.
  - injection Hrun as <-. reflexivity.
  - pose proof (Hops 1%positive ex_c1 eq_refl eq_refl) as HF.
    apply Forall_cons in HF as [Hcenter _]. exact Hcenter.
Defined.

Lemma ipc_switch_ws_out_of_range_witness :
  ipc_switch_ws ex_workspaces ex_minimum_dim ex_protocols [16; 0] st_one = Fault.
Proof.
  apply (ipc_switch_ws_out_of_range ex_workspaces ex_minimum_dim ex_protocols
           [16; 0] st_one eq_refl).
  vm_compute. intros [H _]. apply H. reflexivity.
Defined.

Lemma ipc_send_to_ws_out_of_range_witness :
  ipc_send_to_ws ex_workspaces ex_minimum_dim ex_protocols [17; 3] st_one = Fault.
Proof.
  apply (ipc_send_to_ws_out_of_range ex_workspaces ex_minimum_dim ex_protocols
           [17; 3] st_one cl_one cl_one 1%positive 0%nat st_one_registry eq_refl).
  - unfold ex_workspaces. lia.
  - apply elem_of_cons. by left.
  - vm_compute. intros [_ H]. discriminate.
Defined.

Lemma switch_ws_visibility_witness :
  ∃ st',
    switch_ws ex_workspaces ex_minimum_dim ex_protocols 1 st_three = Done tt st' ∧
    curr_ws st' = 1 ∧
    ∀ a, a ∈ [1%positive; 2%positive; 3%positive] →
      ∃ c', heap st' !! a = Some c' ∧ hidden c' = true.
Proof.
  destruct (switch_ws_visibility ex_workspaces ex_minimum_dim ex_protocols 1%nat
              st_three cl_three cl_three st_three_registry st_three_focus_registered
              (ex_monitors_ok _ _ _ _) ltac:(unfold ex_workspaces; lia))
    as (st' & Hrun & Hcw & Hvis).
  exists st'. split; [exact Hrun |]. split; [exact Hcw |].
  intros a Ha.
  destruct (st_three_alloc a Ha) as [c Hc].
  destruct (Hvis 0%nat a c ltac:(unfold ex_workspaces; lia) Ha Hc) as (c' & Hc' & Hh).
  exists c'. split; [exact Hc' |]. exact Hh.
Defined.

Lemma update_c_list_exports_witness :
  ∃ st',
    update_c_list ex_workspaces st_three = Done tt st' ∧
    xlog st' =
      [XDeleteProperty 1 NetClientList;
       XChangeProperty 1 NetClientList PropModeAppend (DataWindows [400]);
       XChangeProperty 1 NetClientList PropModeAppend (DataWindows [400]);
       XChangeProperty 1 NetClientList PropModeAppend (DataWindows [400])].
Proof.
  eexists. split.
  - apply (update_c_list_exports ex_workspaces st_three cl_three cl_three
             st_three_registry).
  - reflexivity.
Defined.

Lemma get_client_from_window_first_witness :
  get_client_from_window ex_workspaces 12 st_three = Done (Some 2%positive) st_three.
Proof.
  apply (get_client_from_window_first ex_workspaces 12 st_three cl_three cl_three
           st_three_registry).
Defined.

Lemma get_client_from_window_decoration_witness :
  dec <$> heap st_three !! 2%positive = Some 1012 ∧
  get_client_from_window ex_workspaces 1012 st_three = Done None st_three.
Proof.
  split; [reflexivity |].
  apply (get_client_from_window_decoration ex_workspaces 1012 st_three cl_three cl_three
           st_three_registry); [discriminate |].
  intros a c Ha Hc. cbn in Ha. elem_cases Ha;
    vm_compute in Hc; injection Hc as <-; discriminate.
Defined.

Lemma ipc_cycle_focus_successor_witness :
  ∃ st',
    ipc_cycle_focus ex_protocols [23] st_three = Done tt st' ∧
    f_client st' = Some 2%positive.
Proof.
  destruct (ipc_cycle_focus_successor ex_workspaces ex_protocols [23] st_three
              cl_three cl_three 1%positive 0%nat [] [2%positive; 3%positive]
              st_three_registry eq_refl ltac:(unfold ex_workspaces; lia) eq_refl)
    as (st' & Hrun & Hf & _).
  exists st'. split; [exact Hrun | exact Hf].
Defined.

Lemma client_delete_unregistered_witness :
  heap st_fresh !! 1%positive = Some ex_c1 ∧
  client_delete ex_workspaces (Some 1%positive) st_fresh = Fault.
Proof.
  split; [reflexivity |].
  apply (client_delete_unregistered ex_workspaces 1%positive ex_c1 0%nat st_fresh
           cl_none cl_none st_fresh_registry eq_refl eq_refl).
  - unfold ex_workspaces. lia.
  - apply not_elem_of_nil.
Defined.

Lemma handle_unmap_notify_removes_witness :
  ∃ st',
    handle_unmap_notify ex_workspaces ex_protocols 12 st_three = Done tt st' ∧
    heap st' !! 2%positive = None ∧ f_client st' ≠ Some 2%positive.
Proof.
  pose proof (handle_unmap_notify_removes ex_workspaces ex_protocols 12 st_three
                cl_three cl_three st_three_registry st_three_focus_registered) as H.
  change (first_match (heap st_three) 12 (registered ex_workspaces cl_three))
    with (Some 2%positive) in H.
  destruct H as (st' & cl' & fl' & Hrun & Hfree & _ & _ & Hf & _).
  exists st'. split; [exact Hrun |]. split; [exact Hfree | exact Hf].
Defined.

Lemma client_manage_focus_raises_witness :
  ∃ st',
    client_manage_focus ex_protocols (Some 2%positive) st_three = Done tt st' ∧
    f_client st' = Some 2%positive ∧
    c_list st' !! 0%nat = Some (Some 2%positive).
Proof.
  destruct (client_manage_focus_raises ex_workspaces ex_protocols 2%positive 0%nat
              st_three cl_three cl_three st_three_registry st_three_focus_registered
              ltac:(unfold ex_workspaces; lia)
              ltac:(apply elem_of_cons; right; apply elem_of_cons; by left))
    as (st' & Hrun & Hf & Hreg & _).
  exists st'. split; [exact Hrun |]. split; [exact Hf |].
  destruct (lookup_lt_is_Some_2 (c_list st') 0) as [hd Hhd].
  { rewrite (reg_c_len _ _ _ _ Hreg). unfold ex_workspaces. lia. }
  pose proof (reg_stack _ _ _ _ Hreg _ _ Hhd) as Hl. rewrite fn_lookup_insert in Hl.
  destruct Hl as (-> & _). exact Hhd.
Defined.

Lemma client_toggle_decorations_flips_witness :
  ∃ st' c',
    client_toggle_decorations ex_minimum_dim ex_new_window ex_protocols
      (Some 1%positive) st_one = Done tt st' ∧
    heap st' !! 1%positive = Some c' ∧ decorated c' = false.
Proof.
  destruct (client_toggle_decorations_flips ex_workspaces ex_minimum_dim ex_new_window
              ex_protocols 1%positive ex_c1 0%nat st_one cl_one cl_one
              st_one_registry st_one_focus_registered (ex_monitors_ok _ _ _ _)
              ltac:(unfold ex_workspaces; lia) ltac:(apply elem_of_cons; by left) eq_refl)
    as (st' & c' & cl' & Hrun & Hc & Hd & _).
  exists st', c'. split; [exact Hrun |]. split; [exact Hc | exact Hd].
Defined.

Lemma config_handlers_refresh_witness :
  ∃ st',
    ipc_b_width ex_workspaces ex_minimum_dim ex_new_window [14; 5] st_three
      = Done tt st' ∧
    b_width (conf st') = 5 ∧
    ∀ a, a ∈ [1%positive; 2%positive; 3%positive] →
      ∃ c', heap st' !! a = Some c' ∧ hidden c' = false.
Proof.
  pose proof (config_handlers_refresh ex_workspaces ex_minimum_dim ex_new_window [14; 5]
                st_three cl_three cl_three st_three_registry (ex_monitors_ok _ _ _ _)
                st_three_focus_registered) as H.
  do 4 apply Forall_cons in H as [_ H]. apply Forall_cons in H as [H _].
  destruct H as (st' & Hrun & Hcf & _ & _ & _ & Hvis).
  exists st'. split; [exact Hrun |]. split; [rewrite Hcf; vm_compute; reflexivity |].
  intros a Ha.
  destruct (st_three_alloc a Ha) as [c Hc].
  destruct (Hvis 0%nat a c ltac:(unfold ex_workspaces; lia) Ha Hc) as (c' & Hc' & Hh & _).
  exists c'. split; [exact Hc' | exact Hh].
Defined.

Lemma manage_new_window_manages_witness :
  ∃ a st' c',
    manage_new_window ex_workspaces ex_minimum_dim ex_new_window ex_protocols
      77 (Geometry 10 10 200 100) None ex_c1 st_one = Done tt st' ∧
    heap st_one !! a = None ∧ heap st' !! a = Some c' ∧
    window c' = 77 ∧ hidden c' = false ∧ decorated c' = true ∧
    f_client st' = Some a.
Proof.
  destruct (manage_new_window_manages ex_workspaces ex_minimum_dim ex_new_window
              ex_protocols 77 (Geometry 10 10 200 100) None ex_c1 0%nat st_one
              cl_one cl_one st_one_registry st_one_focus_registered
              (ex_monitors_ok _ _ _ _) eq_refl ltac:(unfold ex_workspaces; lia))
    as (a & st' & c' & Hrun & Hnone & Hc & Hw & _ & Hh & Hd & _ & Hf & _).
  { intros H. repeat (apply elem_of_cons in H as [H | H]; [discriminate |]).
    by apply elem_of_nil in H. }
  exists a, st', c'. repeat (match goal with |- _ ∧ _ => split end); assumption.
Defined.

Lemma ipc_cycle_focus_rotates_witness :
  ∃ st',
    for_range (λ _, ipc_cycle_focus ex_protocols [23]) 0 3 st_three = Done tt st' ∧
    f_client st' = Some 1%positive.
Proof.
  destruct (ipc_cycle_focus_rotates ex_workspaces ex_protocols [23] 3%nat st_three
              cl_three cl_three 0%nat 0%nat 1%positive
              st_three_registry ltac:(unfold ex_workspaces; lia) eq_refl eq_refl)
    as (st' & cl' & Hrun & _ & Hf).
  exists st'. split; [exact Hrun | exact Hf].
Defined.

Lemma handle_configure_notify_monitors_witness :
  handle_configure_notify 1 (Some [ex_monitor]) st_one = Done tt st_one ∧
  ∃ st',
    handle_configure_notify 11 None st_one = Done tt st' ∧
    m_list st' = [] ∧
    client_center (Some 1%positive) st' = Fault.
Proof.
  destruct (handle_configure_notify_monitors ex_minimum_dim 1 (Some [ex_monitor]) st_one)
    as [Hroot _].
  destruct (handle_configure_notify_monitors ex_minimum_dim 11 None st_one)
    as [_ Hother].
  split; [apply Hroot; reflexivity |].
  destruct Hother as (st' & Hrun & _ & _ & Hm & _ & Hops); [discriminate |].
  exists st'. split; [exact Hrun |]. split; [exact Hm |].
  specialize (Hops (Some 1%positive)). apply Forall_cons in Hops as [Hops _].
  exact Hops.
Defined.

